(** * Healthcare-claims fraud scoring: the ensemble, its three adapters and
      their feature engineering, embedded from the Python sources

    Sources embedded here:
    - [models/ensemble_model.py]       ([FraudDetectionEnsemble])
    - [models/random_forest_model.py]  ([FraudDetectionRandomForest])
    - [models/autoencoder_model.py]    ([FraudDetectionAutoencoder])
    - [models/kmeans_model.py]         ([FraudDetectionKMeans])
    - [data/synthetic_data_generator.py] ([add_fraud_indicators])
    - [api/fraud_detection_api.py]     ([predict_fraud], [batch_analysis])

    Numbers.  The Python code computes on [float] / numpy [float64].  Every
    numeric definition below is written once, over an interface [Scalar]
    of the arithmetic the code uses, and the interface has two instances:
    binary64 (Rocq's primitive floats, the arithmetic the program really
    runs) and exact rationals [Q].  Structural facts are proved for every
    instance; facts that need the laws of arithmetic are proved for [Q];
    concrete runs are evaluated on binary64.

    Fitted models.  A fitted forest, autoencoder or k-means pipeline
    (engineered features, the columns kept at training, scaler, model) is
    a library object; it appears as a function from the input table to one
    value per row, which is what the pipeline yields on a table it
    accepts.  Which tables a fitted pipeline accepts is not part of that
    function: at prediction time the real pipeline raises [KeyError] when
    a column kept at training is missing from the engineered table, and
    the cluster pipeline multiplies rows that share patient and date.  The
    statements about the three adapters' [predict] are therefore about
    calls that return.  The code around the pipelines (guards, thresholds,
    voting, normalisation, search) and [prepare_features] itself are
    embedded as written. *)

From Stdlib Require Import ZArith QArith Qround List String Bool Lia Lqa.
From Stdlib Require Import Floats Uint63.
Import ListNotations.

Set Warnings "-inexact-float".
#[local] Open Scope Z_scope.

(* ================================================================== *)
(** * Exceptions *)

(** The Python exceptions the embedded code raises or lets escape. *)
Inductive exception : Type :=
| ValueError (msg : string)
| KeyError (key : string)
| IndexError (msg : string)
| TypeError (msg : string)
| ZeroDivisionError.

Inductive result (A : Type) : Type :=
| Ok (a : A)
| Raise (e : exception).

Arguments Ok {A} a.
Arguments Raise {A} e.

Definition bind {A B : Type} (r : result A) (k : A -> result B) : result B :=
  match r with
  | Ok a => k a
  | Raise e => Raise e
  end.

Notation "x <- e ;; k" := (bind e (fun x => k))
  (at level 61, e at next level, right associativity).
Notation "' p <- e ;; k" := (bind e (fun x => match x with p => k end))
  (at level 61, p pattern, e at next level, right associativity).

(* ================================================================== *)
(** * Scalars: the arithmetic of Python floats *)

Class Scalar (T : Type) : Type := {
  lit : Q -> T;            (* a decimal literal, or an integer turned into a float *)
  add : T -> T -> T;
  sub : T -> T -> T;
  mul : T -> T -> T;
  div : T -> T -> T;
  ltb : T -> T -> bool;    (* [a < b] *)
  leb : T -> T -> bool;    (* [a <= b] *)
  floor : T -> Z           (* [int(numpy.floor(a))] *)
}.

(** ** Exact rationals *)

Definition Qltb (a b : Q) : bool := negb (Qle_bool b a).

#[export] Instance Scalar_Q : Scalar Q := {|
  lit := fun q => q;
  add := Qplus;
  sub := Qminus;
  mul := Qmult;
  div := Qdiv;
  ltb := Qltb;
  leb := Qle_bool;
  floor := Qfloor
|}.

(** ** binary64 *)

Definition float_of_Z (z : Z) : float :=
  match z with
  | Z0 => PrimFloat.zero
  | Zpos _ => PrimFloat.of_uint63 (Uint63.of_Z z)
  | Zneg p => PrimFloat.opp (PrimFloat.of_uint63 (Uint63.of_Z (Zpos p)))
  end.

(** A decimal literal [n/d] is the binary64 number nearest to it: numerator
    and denominator are exact (below 2^53) and the division rounds once. *)
Definition float_of_Q (q : Q) : float :=
  PrimFloat.div (float_of_Z (Qnum q)) (float_of_Z (Zpos (Qden q))).

Definition float_floor (x : float) : Z :=
  match Prim2SF x with
  | S754_finite s m e => Z.shiftl (if s then Zneg m else Zpos m) e
  | _ => 0
  end.

#[export] Instance Scalar_float : Scalar float := {|
  lit := float_of_Q;
  add := PrimFloat.add;
  sub := PrimFloat.sub;
  mul := PrimFloat.mul;
  div := PrimFloat.div;
  ltb := PrimFloat.ltb;
  leb := PrimFloat.leb;
  floor := float_floor
|}.

(* ================================================================== *)
(** * numpy on one-dimensional arrays *)

Section Numpy.
Context {T : Type} `{Scalar T}.

Definition of_Z (z : Z) : T := lit (inject_Z z).
Definition of_nat (n : nat) : T := of_Z (Z.of_nat n).

(** [(cond).astype(int)] *)
Definition astype_int (b : bool) : Z := if b then 1 else 0.

Definition smin (a b : T) : T := if leb a b then a else b.
Definition smax (a b : T) : T := if leb a b then b else a.

(** [a.min()] and [a.max()]; both raise [ValueError] on an empty array. *)
Definition array_min (a : list T) : result T :=
  match a with
  | [] => Raise (ValueError "zero-size array to reduction operation minimum which has no identity")
  | x :: rest => Ok (fold_left smin rest x)
  end.

Definition array_max (a : list T) : result T :=
  match a with
  | [] => Raise (ValueError "zero-size array to reduction operation maximum which has no identity")
  | x :: rest => Ok (fold_left smax rest x)
  end.

(** Element-wise combination of three arrays of one length. *)
Fixpoint zip3With {A B C D : Type} (f : A -> B -> C -> D)
         (l1 : list A) (l2 : list B) (l3 : list C) : list D :=
  match l1, l2, l3 with
  | a :: l1', b :: l2', c :: l3' => f a b c :: zip3With f l1' l2' l3'
  | _, _, _ => []
  end.

(** [numpy.linspace(start, stop, num)] with the end point included:
    [arange(num) * step + start], the last entry set to [stop]. *)
Definition linspace (start stop : T) (num : nat) : list T :=
  match num with
  | O => []
  | S O => [start]
  | S d =>
      let step := div (sub stop start) (of_nat d) in
      map (fun i => add (mul (of_nat i) step) start) (seq 0 d) ++ [stop]
  end.

(** Insertion sort, ascending: the order [numpy.sort] produces. *)
Fixpoint insert_sorted (x : T) (l : list T) : list T :=
  match l with
  | [] => [x]
  | y :: l' => if leb x y then x :: l else y :: insert_sorted x l'
  end.

Definition sort (l : list T) : list T := fold_right insert_sorted [] l.

(** numpy's linear interpolation between two neighbours. *)
Definition lerp (a b t : T) : T :=
  if leb (lit (1#2)) t
  then sub b (mul (sub b a) (sub (lit 1) t))
  else add a (mul (sub b a) t).

(** [numpy.percentile(a, q)], default (linear) method: the virtual index
    is [(n-1) * q/100], the result interpolates between the two sorted
    neighbours.  [q] outside [0,100] raises [ValueError].  (No embedded
    caller passes an empty array: each has checked its table for rows.) *)
Definition percentile (a : list T) (q : T) : result T :=
  if negb (leb (lit 0) q && leb q (lit 100))
  then Raise (ValueError "Percentiles must be in the range [0, 100]")
  else
    match sort a with
    | [] => Raise (IndexError "index -1 is out of bounds for axis 0 with size 0")
    | (x0 :: _) as s =>
        let n := List.length s in
        let virtual_index := mul (of_nat (n - 1)) (div q (lit 100)) in
        let previous := Z.to_nat (floor virtual_index) in
        let next := Nat.min (previous + 1) (n - 1) in
        let gamma := sub virtual_index (of_nat previous) in
        Ok (lerp (nth previous s x0) (nth next s x0) gamma)
    end.

(** [numpy.unique] on integer labels: ascending, without repeats. *)
Fixpoint insert_unique (x : Z) (l : list Z) : list Z :=
  match l with
  | [] => [x]
  | y :: l' =>
      if x <? y then x :: l
      else if x =? y then l
      else y :: insert_unique x l'
  end.

Definition unique (l : list Z) : list Z := fold_right insert_unique [] l.

(** Sequencing a function that may raise over an array. *)
Fixpoint mapM {A B : Type} (f : A -> result B) (l : list A) : result (list B) :=
  match l with
  | [] => Ok []
  | a :: l' => b <- f a ;; bs <- mapM f l' ;; Ok (b :: bs)
  end.

End Numpy.

(* ================================================================== *)
(** * Tables *)

(** A pandas column: numeric ([int64] / [float64], NaN included), object
    (strings) or datetime (nanoseconds since the epoch). *)
Inductive column : Type :=
| Numeric (data : list float)
| Object (data : list string)
| Datetime (data : list Z).

Definition column_length (c : column) : nat :=
  match c with
  | Numeric d => List.length d
  | Object d => List.length d
  | Datetime d => List.length d
  end.

(** A [DataFrame]: its columns in order, by name. *)
Definition DataFrame : Type := list (string * column).

(** [len(df)]: the number of rows. *)
Definition len (df : DataFrame) : nat :=
  match df with
  | [] => O
  | (_, c) :: _ => column_length c
  end.

(** Row positions [0 .. len(df)-1]. *)
Definition rows (df : DataFrame) : list nat := seq 0 (len df).

(** scikit-learn refuses a table without rows ([check_array]); each
    adapter's [predict] reaches that check through its scaler.  It is the
    one failure of a fitted pipeline that is kept here. *)
Definition check_array (X : DataFrame) : result unit :=
  if Nat.eqb (len X) 0
  then Raise (ValueError "Found array with 0 sample(s) while a minimum of 1 is required")
  else Ok tt.

(* ================================================================== *)
(** * pandas, as far as feature engineering uses it *)

#[local] Open Scope string_scope.

(** [df[name]] *)
Fixpoint get_col (name : string) (df : DataFrame) : option column :=
  match df with
  | [] => None
  | (n, c) :: rest => if String.eqb name n then Some c else get_col name rest
  end.

(** [name in df.columns] *)
Definition has (name : string) (df : DataFrame) : bool :=
  match get_col name df with
  | Some _ => true
  | None => false
  end.

(** [df[name] = c]: the column is replaced where it stands, or appended. *)
Fixpoint set_col (name : string) (c : column) (df : DataFrame) : DataFrame :=
  match df with
  | [] => [(name, c)]
  | (n, c0) :: rest =>
      if String.eqb name n then (n, c) :: rest else (n, c0) :: set_col name c rest
  end.

Definition mem (name : string) (names : list string) : bool :=
  existsb (String.eqb name) names.

(** Reading columns: the first one that is missing raises [KeyError]. *)
Fixpoint require (names : list string) (df : DataFrame) : result unit :=
  match names with
  | [] => Ok tt
  | n :: rest => if has n df then require rest df else Raise (KeyError n)
  end.

(** The column computations that are left to pandas and numpy: the values
    of the engineered column [name], computed from the table as it stands
    (datetime parts, [log1p], group-by aggregates, counts, ratios), and the
    parsing of one date string. *)
Record Engine : Type := {
  compute : string -> DataFrame -> list float;
  parse_datetime : string -> Z
}.

(** [pd.to_datetime(column)]: a datetime column is returned as it is. *)
Definition to_datetime (E : Engine) (c : column) : column :=
  match c with
  | Datetime d => Datetime d
  | Object d => Datetime (map (parse_datetime E) d)
  | Numeric d => Datetime (map float_floor d)
  end.

(** [features[name] = pd.to_datetime(features[name])] *)
Definition assign_datetime (E : Engine) (name : string) (features : DataFrame)
  : result DataFrame :=
  match get_col name features with
  | None => Raise (KeyError name)
  | Some c => Ok (set_col name (to_datetime E c) features)
  end.

(** [features[name] = <expression over the columns reads>] *)
Definition assign (E : Engine) (name : string) (reads : list string)
           (features : DataFrame) : result DataFrame :=
  _ <- require reads features ;;
  Ok (set_col name (Numeric (compute E name features)) features).

(** [if name not in features.columns: features[name] = ...] *)
Definition assign_if_absent (E : Engine) (name : string) (reads : list string)
           (features : DataFrame) : result DataFrame :=
  if has name features then Ok features else assign E name reads features.

Definition x_suffix (n : string) : string := String.append n "_x".
Definition y_suffix (n : string) : string := String.append n "_y".

(** [left.merge(right, ..., how='left')] on the column names: a name that
    both sides carry gets the suffix [_x] on the left and [_y] on the
    right.  (The right side is keyed by unique group keys, so the left
    rows stay as they are.) *)
Definition merge_left (features right : DataFrame) : DataFrame :=
  List.app
    (map (fun kv => if has (fst kv) right then (x_suffix (fst kv), snd kv) else kv)
         features)
    (map (fun kv => if has (fst kv) features then (y_suffix (fst kv), snd kv) else kv)
         right).

(** [stats = features.groupby(key).agg({...}); stats.columns = names;
    features = features.merge(stats, left_on=key, right_index=True, how='left')] *)
Definition merge_stats (E : Engine) (key : string) (reads names : list string)
           (features : DataFrame) : result DataFrame :=
  _ <- require (key :: reads) features ;;
  Ok (merge_left features
                 (map (fun n => (n, Numeric (compute E n features))) names)).

(** Every name such a merge may add or rename. *)
Definition merge_touched (names : list string) : list string :=
  List.app names (List.app (map x_suffix names) (map y_suffix names)).

(** Rows [i] and [j] of a key column hold the same key; pandas joins a
    missing number with a missing number. *)
Definition same_key (c : column) (i j : nat) : bool :=
  match c with
  | Numeric d =>
      let x := nth i d PrimFloat.nan in
      let y := nth j d PrimFloat.nan in
      PrimFloat.eqb x y || (PrimFloat.is_nan x && PrimFloat.is_nan y)
  | Object d => String.eqb (nth i d "") (nth j d "")
  | Datetime d => Z.eqb (nth i d 0%Z) (nth j d 0%Z)
  end.

(** The rows of a column at the given positions, in that order. *)
Definition take (positions : list nat) (c : column) : column :=
  match c with
  | Numeric d => Numeric (map (fun i => nth i d PrimFloat.nan) positions)
  | Object d => Object (map (fun i => nth i d "") positions)
  | Datetime d => Datetime (map (fun i => nth i d 0%Z) positions)
  end.

(** The row pairs of a left join of a table of [n] rows with its own rows
    on the key columns: every row, in order, with each row that carries
    the same keys (itself among them), in order. *)
Definition join_rows (key_columns : list column) (n : nat) : list (nat * nat) :=
  flat_map
    (fun i =>
       map (pair i)
           (filter (fun j => forallb (fun c => same_key c i j) key_columns) (seq 0 n)))
    (seq 0 n).

(** [sorted = features.sort_values(keys); sorted[name] = <expression per group>;
    features = features.merge(sorted[keys + [name]], on=keys, how='left')].
    The right side has one row per row of [features], so rows that share
    their keys are paired with one another and come out multiplied; the
    keys are joined on and get no suffix, [name] gets one where the left
    side carries it already.  (The sort is stable, so the rows of one key
    keep their order.) *)
Definition merge_on_keys (E : Engine) (keys : list string) (name : string)
           (features : DataFrame) : result DataFrame :=
  _ <- require keys features ;;
  let key_columns :=
    flat_map (fun k => match get_col k features with
                       | Some c => [c]
                       | None => []
                       end) keys in
  let pairs := join_rows key_columns (len features) in
  Ok (merge_left
        (map (fun kv => (fst kv, take (map fst pairs) (snd kv))) features)
        [(name, take (map snd pairs) (Numeric (compute E name features)))]).

(** [features.select_dtypes(include=[np.number]).columns] *)
Definition numeric_columns (df : DataFrame) : list string :=
  flat_map (fun kv => match snd kv with Numeric _ => [fst kv] | _ => [] end) df.

(** ** Column statistics (NaN skipped, as pandas does) *)

Definition dropna (l : list float) : list float :=
  filter (fun x => negb (PrimFloat.is_nan x)) l.

Definition fsum (l : list float) : float := fold_left PrimFloat.add l PrimFloat.zero.

Definition count_where (p : float -> bool) (l : list float) : float :=
  float_of_Z (Z.of_nat (List.length (filter p l))).

(** [series.mean()] *)
Definition mean (l : list float) : float :=
  PrimFloat.div (fsum (dropna l)) (count_where (fun _ => true) (dropna l)).

(** [series.std()]: the sample standard deviation (ddof = 1). *)
Definition std (l : list float) : float :=
  let m := mean l in
  PrimFloat.sqrt
    (PrimFloat.div
       (fsum (map (fun x => PrimFloat.mul (PrimFloat.sub x m) (PrimFloat.sub x m))
                  (dropna l)))
       (PrimFloat.sub (count_where (fun _ => true) (dropna l)) PrimFloat.one)).

(** [(series - series.mean()) / series.std()] *)
Definition standardize (l : list float) : list float :=
  map (fun x => PrimFloat.div (PrimFloat.sub x (mean l)) (std l)) l.

(** [series.rank(pct=True)]: the average rank among the values, over their
    number; a missing value is given no rank and stays NaN. *)
Definition rank_pct (l : list float) : list float :=
  let v := dropna l in
  map (fun x =>
         if PrimFloat.is_nan x then PrimFloat.nan
         else
           let below := count_where (fun y => PrimFloat.ltb y x) v in
           let equal := count_where (fun y => PrimFloat.eqb y x) v in
           PrimFloat.div
             (PrimFloat.add below
                (PrimFloat.div (PrimFloat.add equal PrimFloat.one) (float_of_Z 2)))
             (count_where (fun _ => true) v))
      l.

#[local] Close Scope string_scope.

(* ================================================================== *)
(** * The classifier adapter ([random_forest_model.py]) *)

Module RandomForest.

#[local] Open Scope string_scope.

(** ** [prepare_features], block by block as the source comments name them *)

(** [# Temporal features (only add if not already present)] *)
Definition temporal_features (E : Engine) (features : DataFrame) : result DataFrame :=
  if has "claim_date" features then
    features <- assign_datetime E "claim_date" features ;;
    features <- assign_if_absent E "claim_hour" ["claim_date"] features ;;
    features <- assign_if_absent E "claim_day_of_week" ["claim_date"] features ;;
    features <- assign_if_absent E "claim_month" ["claim_date"] features ;;
    features <- assign_if_absent E "is_weekend" ["claim_day_of_week"] features ;;
    assign_if_absent E "is_night_claim" ["claim_hour"] features
  else Ok features.

(** [# Financial features (only add if not already present)] *)
Definition financial_features (E : Engine) (features : DataFrame) : result DataFrame :=
  if has "claim_amount" features then
    features <- assign_if_absent E "claim_amount_log" ["claim_amount"] features ;;
    assign_if_absent E "is_high_amount" ["claim_amount"] features
  else Ok features.

Definition provider_stats_columns : list string :=
  ["provider_claim_count"; "provider_avg_amount"; "provider_amount_std";
   "provider_total_amount"; "provider_unique_patients"].

(** [# Provider features (use existing features if available, otherwise compute)] *)
Definition provider_features (E : Engine) (features : DataFrame) : result DataFrame :=
  if has "provider_id" features then
    features <-
      (if negb (has "provider_claim_count" features)
          || negb (has "provider_unique_patients" features)
       then merge_stats E "provider_id" ["claim_amount"; "patient_id"]
                        provider_stats_columns features
       else Ok features) ;;
    features <- assign_if_absent E "provider_claims_per_patient"
                  ["provider_claim_count"; "provider_unique_patients"] features ;;
    assign_if_absent E "provider_amount_variation"
                     ["provider_amount_std"; "provider_avg_amount"] features
  else Ok features.

Definition patient_stats_columns : list string :=
  ["patient_claim_count"; "patient_avg_amount"; "patient_total_amount";
   "patient_unique_providers"].

(** [# Patient features (use existing features if available, otherwise compute)] *)
Definition patient_features (E : Engine) (features : DataFrame) : result DataFrame :=
  if has "patient_id" features then
    features <-
      (if negb (has "patient_claim_count" features)
          || negb (has "patient_unique_providers" features)
       then merge_stats E "patient_id" ["claim_amount"; "provider_id"]
                        patient_stats_columns features
       else Ok features) ;;
    assign_if_absent E "patient_provider_diversity"
                     ["patient_unique_providers"; "patient_claim_count"] features
  else Ok features.

(** [# Diagnosis and procedure features] *)
Definition diagnosis_features (E : Engine) (features : DataFrame) : result DataFrame :=
  if has "diagnosis_code" features then
    assign_if_absent E "is_high_risk_diagnosis" ["diagnosis_code"] features
  else Ok features.

Definition procedure_features (E : Engine) (features : DataFrame) : result DataFrame :=
  if has "procedure_code" features then
    assign_if_absent E "is_high_value_procedure" ["procedure_code"] features
  else Ok features.

(** [# Geographic features] *)
Definition geographic_features (E : Engine) (features : DataFrame) : result DataFrame :=
  if has "provider_location" features && has "patient_location" features then
    assign_if_absent E "location_mismatch"
                     ["provider_location"; "patient_location"] features
  else Ok features.

Definition duplicate_cols : list string :=
  ["patient_id"; "provider_id"; "diagnosis_code"; "procedure_code"].

(** [# Duplicate detection features] *)
Definition duplicate_features (E : Engine) (features : DataFrame) : result DataFrame :=
  let available_cols := filter (fun col => has col features) duplicate_cols in
  if Nat.leb 2 (List.length available_cols)
     && negb (has "duplicate_claim_indicator" features)
  then assign E "duplicate_claim_indicator" available_cols features
  else Ok features.

(** [prepare_features(df)] *)
Definition prepare_features (E : Engine) (df : DataFrame) : result DataFrame :=
  let features := df in
  features <- temporal_features E features ;;
  features <- financial_features E features ;;
  features <- provider_features E features ;;
  features <- patient_features E features ;;
  features <- diagnosis_features E features ;;
  features <- procedure_features E features ;;
  features <- geographic_features E features ;;
  features <- duplicate_features E features ;;
  Ok features.

#[local] Close Scope string_scope.

Section Model.
Context {T : Type} `{Scalar T}.

Record FraudDetectionRandomForest : Type := {
  is_trained : bool;
  (** the fitted pipeline (features, encoders, scaler, forest): the
      class-1 column of [predict_proba], one value per row *)
  predict_proba : DataFrame -> nat -> T
}.

(** [predict(X, return_probabilities=True)[:, 1]]: the guard, then the
    fitted pipeline on a table it accepts. *)
Definition predict (self : FraudDetectionRandomForest) (X : DataFrame)
  : result (list T) :=
  if negb (is_trained self)
  then Raise (ValueError "Model must be trained before making predictions")
  else
    _ <- check_array X ;;
    Ok (map (predict_proba self X) (rows X)).

End Model.
Arguments FraudDetectionRandomForest T : clear implicits.
End RandomForest.

(* ================================================================== *)
(** * The reconstruction-detector adapter ([autoencoder_model.py]) *)

Module Autoencoder.

#[local] Open Scope string_scope.

(** ** [prepare_features]: every column is recomputed, none is guarded *)

(** [# Temporal features] *)
Definition temporal_features (E : Engine) (features : DataFrame) : result DataFrame :=
  if has "claim_date" features then
    features <- assign_datetime E "claim_date" features ;;
    features <- assign E "claim_hour" ["claim_date"] features ;;
    features <- assign E "claim_day_of_week" ["claim_date"] features ;;
    features <- assign E "claim_month" ["claim_date"] features ;;
    features <- assign E "is_weekend" ["claim_day_of_week"] features ;;
    assign E "is_night_claim" ["claim_hour"] features
  else Ok features.

(** [# Financial features] *)
Definition financial_features (E : Engine) (features : DataFrame) : result DataFrame :=
  if has "claim_amount" features then
    features <- assign E "claim_amount_log" ["claim_amount"] features ;;
    assign E "claim_amount_normalized" ["claim_amount"] features
  else Ok features.

Definition provider_stats_columns : list string :=
  ["provider_claim_count"; "provider_avg_amount"; "provider_amount_std";
   "provider_total_amount"; "provider_median_amount"; "provider_unique_patients"].

(** [# Provider aggregation features] *)
Definition provider_features (E : Engine) (features : DataFrame) : result DataFrame :=
  if has "provider_id" features then
    features <- merge_stats E "provider_id" ["claim_amount"; "patient_id"]
                            provider_stats_columns features ;;
    features <- assign E "provider_amount_cv"
                  ["provider_amount_std"; "provider_avg_amount"] features ;;
    features <- assign E "provider_claims_per_patient"
                  ["provider_claim_count"; "provider_unique_patients"] features ;;
    assign E "provider_amount_vs_median"
           ["claim_amount"; "provider_median_amount"] features
  else Ok features.

Definition patient_stats_columns : list string :=
  ["patient_claim_count"; "patient_avg_amount"; "patient_total_amount";
   "patient_amount_std"; "patient_unique_providers"].

(** [# Patient aggregation features] *)
Definition patient_features (E : Engine) (features : DataFrame) : result DataFrame :=
  if has "patient_id" features then
    features <- merge_stats E "patient_id" ["claim_amount"; "provider_id"]
                            patient_stats_columns features ;;
    features <- assign E "patient_provider_diversity"
                  ["patient_unique_providers"; "patient_claim_count"] features ;;
    assign E "patient_amount_consistency" ["patient_amount_std"] features
  else Ok features.

(** [# Time-based patterns] *)
Definition time_window_features (E : Engine) (features : DataFrame) : result DataFrame :=
  if has "claim_date" features then
    features <- assign E "claims_same_day"
                  ["patient_id"; "claim_date"; "claim_amount"] features ;;
    features <- assign E "claims_same_week"
                  ["patient_id"; "claim_date"; "claim_amount"] features ;;
    assign E "claims_same_month" ["patient_id"; "claim_date"; "claim_amount"] features
  else Ok features.

(** [# Diagnosis and procedure patterns] *)
Definition diagnosis_features (E : Engine) (features : DataFrame) : result DataFrame :=
  if has "diagnosis_code" features then
    features <- assign E "diagnosis_frequency" ["diagnosis_code"] features ;;
    assign E "is_rare_diagnosis" ["diagnosis_frequency"] features
  else Ok features.

Definition procedure_features (E : Engine) (features : DataFrame) : result DataFrame :=
  if has "procedure_code" features then
    features <- assign E "procedure_frequency" ["procedure_code"] features ;;
    if has "claim_amount" features then
      features <- assign E "procedure_avg_cost" ["procedure_code"; "claim_amount"] features ;;
      assign E "amount_vs_procedure_avg" ["claim_amount"; "procedure_avg_cost"] features
    else Ok features
  else Ok features.

(** [# Geographic and location features] *)
Definition geographic_features (E : Engine) (features : DataFrame) : result DataFrame :=
  if has "provider_location" features && has "patient_location" features then
    features <- assign E "location_mismatch"
                  ["provider_location"; "patient_location"] features ;;
    assign E "location_combination_frequency"
           ["provider_location"; "patient_location"] features
  else Ok features.

Definition duplicate_cols : list string :=
  ["patient_id"; "provider_id"; "diagnosis_code"; "procedure_code"].

(** [# Duplicate and repetition patterns] *)
Definition duplicate_features (E : Engine) (features : DataFrame) : result DataFrame :=
  let available_cols := filter (fun col => has col features) duplicate_cols in
  if Nat.leb 2 (List.length available_cols) then
    features <- assign E "duplicate_claim_count" available_cols features ;;
    assign E "is_duplicate_claim" ["duplicate_claim_count"] features
  else Ok features.

(** One turn of the loop of [# Statistical outlier features]. *)
Definition outlier_features_of (features : DataFrame) (col : string) : DataFrame :=
  match get_col col features with
  | Some (Numeric data) =>
      if negb (String.eqb col "is_fraud") && PrimFloat.ltb PrimFloat.zero (std data)
      then
        let z_score := map PrimFloat.abs (standardize data) in
        let features := set_col (String.append col "_z_score") (Numeric z_score) features in
        set_col (String.append col "_is_outlier")
                (Numeric (map (fun z => float_of_Z (astype_int (PrimFloat.ltb (float_of_Z 3) z)))
                              z_score))
                features
      else features
  | _ => features
  end.

(** [# Statistical outlier features]: the numeric columns are listed once,
    before the loop. *)
Definition outlier_features (features : DataFrame) : DataFrame :=
  let numeric_cols := numeric_columns features in
  fold_left outlier_features_of numeric_cols features.

(** [prepare_features(df)] *)
Definition prepare_features (E : Engine) (df : DataFrame) : result DataFrame :=
  let features := df in
  features <- temporal_features E features ;;
  features <- financial_features E features ;;
  features <- provider_features E features ;;
  features <- patient_features E features ;;
  features <- time_window_features E features ;;
  features <- diagnosis_features E features ;;
  features <- procedure_features E features ;;
  features <- geographic_features E features ;;
  features <- duplicate_features E features ;;
  Ok (outlier_features features).

#[local] Close Scope string_scope.

Section Model.
Context {T : Type} `{Scalar T}.

(** Everything in the running process that the fitting draws on:
    TensorFlow's and numpy's global generators, which [__init__] seeds,
    and whatever else Keras takes its initial weights, its dropout masks
    and its shuffles from. *)
Variable RNG : Type.
(** [tf.random.set_seed(random_state); np.random.seed(random_state)]: the
    two generators are seeded, the rest of the state stays as it is. *)
Variable set_seed : Z -> RNG -> RNG.
(** [prepare_features], the scaler, [build_autoencoder] and [model.fit] on
    the training table: they yield the fitted pipeline, seen through its
    per-row reconstruction error
    [mean(square(X_scaled - X_pred), axis=1)], and leave the process in a
    new state.  [train] does not seed anything itself. *)
Variable fit : RNG -> DataFrame -> (DataFrame -> nat -> T) * RNG.

Record FraudDetectionAutoencoder : Type := {
  random_state : Z;
  is_trained : bool;
  threshold : option T;                       (* [None] until trained *)
  reconstruction_error : DataFrame -> nat -> T
}.


(** [train(X)]: fit, then fix the threshold at the 95th percentile of
    the training rows' reconstruction errors. *)
Definition train (self : FraudDetectionAutoencoder) (g : RNG) (X : DataFrame)
  : result (FraudDetectionAutoencoder * RNG) :=
  _ <- check_array X ;;
  let '(model, g') := fit g X in
  let reconstruction_errors := map (model X) (rows X) in
  threshold <- percentile reconstruction_errors (lit 95) ;;
  Ok ({| random_state := random_state self;
         is_trained := true;
         threshold := Some threshold;
         reconstruction_error := model |}, g').

(** [predict(X, return_reconstruction_error=True)]: the guard, the fitted
    pipeline on a table it accepts, and the comparison with the stored
    threshold. *)
Definition predict (self : FraudDetectionAutoencoder) (X : DataFrame)
  : result (list Z * list T) :=
  if negb (is_trained self)
  then Raise (ValueError "Model must be trained before making predictions")
  else
    _ <- check_array X ;;
    let reconstruction_errors := map (reconstruction_error self X) (rows X) in
    match threshold self with
    | None => Raise (TypeError "'>' not supported between instances of 'float' and 'NoneType'")
    | Some threshold =>
        let predictions :=
          map (fun e => astype_int (ltb threshold e)) reconstruction_errors in
        Ok (predictions, reconstruction_errors)
    end.

End Model.
Arguments FraudDetectionAutoencoder T : clear implicits.
End Autoencoder.

(* ================================================================== *)
(** * The cluster-detector adapter ([kmeans_model.py]) *)

Module KMeans.

#[local] Open Scope string_scope.

(** ** [prepare_features]: every column is recomputed, none is guarded *)

(** [# Temporal features] *)
Definition temporal_features (E : Engine) (features : DataFrame) : result DataFrame :=
  if has "claim_date" features then
    features <- assign_datetime E "claim_date" features ;;
    features <- assign E "claim_hour" ["claim_date"] features ;;
    features <- assign E "claim_day_of_week" ["claim_date"] features ;;
    features <- assign E "claim_month" ["claim_date"] features ;;
    features <- assign E "is_weekend" ["claim_day_of_week"] features ;;
    assign E "is_night_claim" ["claim_hour"] features
  else Ok features.

(** [# Financial features] *)
Definition financial_features (E : Engine) (features : DataFrame) : result DataFrame :=
  if has "claim_amount" features then
    features <- assign E "claim_amount_log" ["claim_amount"] features ;;
    assign E "claim_amount_percentile" ["claim_amount"] features
  else Ok features.

Definition provider_stats_columns : list string :=
  ["provider_claim_count"; "provider_avg_amount"; "provider_amount_std";
   "provider_total_amount"; "provider_min_amount"; "provider_max_amount";
   "provider_unique_patients"].

(** [# Provider behavior features] *)
Definition provider_features (E : Engine) (features : DataFrame) : result DataFrame :=
  if has "provider_id" features then
    features <- merge_stats E "provider_id" ["claim_amount"; "patient_id"]
                            provider_stats_columns features ;;
    features <- assign E "provider_amount_range"
                  ["provider_max_amount"; "provider_min_amount"] features ;;
    features <- assign E "provider_amount_cv"
                  ["provider_amount_std"; "provider_avg_amount"] features ;;
    features <- assign E "provider_claims_per_patient"
                  ["provider_claim_count"; "provider_unique_patients"] features ;;
    assign E "provider_volume_percentile" ["provider_claim_count"] features
  else Ok features.

Definition patient_stats_columns : list string :=
  ["patient_claim_count"; "patient_avg_amount"; "patient_total_amount";
   "patient_amount_std"; "patient_unique_providers"].

(** [# Patient behavior features] *)
Definition patient_features (E : Engine) (features : DataFrame) : result DataFrame :=
  if has "patient_id" features then
    features <- merge_stats E "patient_id" ["claim_amount"; "provider_id"]
                            patient_stats_columns features ;;
    features <- assign E "patient_provider_diversity"
                  ["patient_unique_providers"; "patient_claim_count"] features ;;
    features <- assign E "patient_spending_consistency" ["patient_amount_std"] features ;;
    assign E "patient_activity_level" ["patient_claim_count"] features
  else Ok features.

(** [# Diagnosis and procedure patterns] *)
Definition diagnosis_features (E : Engine) (features : DataFrame) : result DataFrame :=
  if has "diagnosis_code" features then
    features <- assign E "diagnosis_frequency" ["diagnosis_code"] features ;;
    assign E "diagnosis_rarity" ["diagnosis_frequency"] features
  else Ok features.

Definition procedure_features (E : Engine) (features : DataFrame) : result DataFrame :=
  if has "procedure_code" features then
    features <- assign E "procedure_frequency" ["procedure_code"] features ;;
    if has "claim_amount" features then
      features <- assign E "procedure_avg_cost" ["procedure_code"; "claim_amount"] features ;;
      assign E "amount_deviation_from_procedure_avg"
             ["claim_amount"; "procedure_avg_cost"] features
    else Ok features
  else Ok features.

(** [# Time-based clustering features]: the days since the patient's
    previous claim come in through a merge of the table with its own
    sorted rows, on patient and date. *)
Definition time_features (E : Engine) (features : DataFrame) : result DataFrame :=
  if has "claim_date" features then
    features <- merge_on_keys E ["patient_id"; "claim_date"]
                              "days_since_last_claim" features ;;
    features <- assign E "days_since_last_claim" ["days_since_last_claim"] features ;;
    features <- assign E "claims_same_day"
                  ["patient_id"; "claim_date"; "claim_amount"] features ;;
    assign E "claims_same_week" ["patient_id"; "claim_date"; "claim_amount"] features
  else Ok features.

(** [# Geographic patterns] *)
Definition geographic_features (E : Engine) (features : DataFrame) : result DataFrame :=
  if has "provider_location" features && has "patient_location" features then
    features <- assign E "location_mismatch"
                  ["provider_location"; "patient_location"] features ;;
    features <- assign E "location_combination_frequency"
                  ["provider_location"; "patient_location"] features ;;
    assign E "location_combination_rarity" ["location_combination_frequency"] features
  else Ok features.

(** [# Network analysis features] *)
Definition network_features (E : Engine) (features : DataFrame) : result DataFrame :=
  if has "provider_id" features && has "patient_id" features then
    assign E "provider_patient_interaction_count" ["provider_id"; "patient_id"] features
  else Ok features.

(** One turn of the loop of [# Statistical features for clustering]. *)
Definition statistical_features_of (features : DataFrame) (col : string) : DataFrame :=
  match get_col col features with
  | Some (Numeric data) =>
      if negb (String.eqb col "is_fraud") && PrimFloat.ltb PrimFloat.zero (std data)
      then
        let features :=
          set_col (String.append col "_zscore") (Numeric (standardize data)) features in
        set_col (String.append col "_percentile") (Numeric (rank_pct data)) features
      else features
  | _ => features
  end.

(** [# Statistical features for clustering]: the numeric columns are
    listed once, before the loop. *)
Definition statistical_features (features : DataFrame) : DataFrame :=
  let numeric_cols := numeric_columns features in
  fold_left statistical_features_of numeric_cols features.

(** [prepare_features(df)] *)
Definition prepare_features (E : Engine) (df : DataFrame) : result DataFrame :=
  let features := df in
  features <- temporal_features E features ;;
  features <- financial_features E features ;;
  features <- provider_features E features ;;
  features <- patient_features E features ;;
  features <- diagnosis_features E features ;;
  features <- procedure_features E features ;;
  features <- time_features E features ;;
  features <- geographic_features E features ;;
  features <- network_features E features ;;
  Ok (statistical_features features).

#[local] Close Scope string_scope.

Section Model.
Context {T : Type} `{Scalar T}.

Record FraudDetectionKMeans : Type := {
  is_trained : bool;
  (** the fitted pipeline (features, scaler, PCA, k-means): the cluster
      a row is assigned to *)
  assign : DataFrame -> nat -> Z;
  fraud_clusters : list Z;
  (** [performance_metrics['cluster_fraud_rates']]: absent until
      [identify_fraud_clusters] stores it; keys in insertion order *)
  cluster_fraud_rates : option (list (Z * T))
}.

(** [predict(X)]: the guard, then the fitted pipeline on a table it
    accepts. *)
Definition predict (self : FraudDetectionKMeans) (X : DataFrame)
  : result (list Z) :=
  if negb (is_trained self)
  then Raise (ValueError "Model must be trained before making predictions")
  else
    _ <- check_array X ;;
    Ok (map (assign self X) (rows X)).

(** Dictionary lookup. *)
Fixpoint get (k : Z) (d : list (Z * T)) : option T :=
  match d with
  | [] => None
  | (k', v) :: d' => if k =? k' then Some v else get k d'
  end.

(** [y[cluster_mask]]: the labels of the rows assigned to [cluster_id]. *)
Fixpoint masked (cluster_id : Z) (cluster_labels y : list Z) : list Z :=
  match cluster_labels, y with
  | c :: cs, v :: vs =>
      if c =? cluster_id then v :: masked cluster_id cs vs
      else masked cluster_id cs vs
  | _, _ => []
  end.

Definition sum_Z (l : list Z) : Z := fold_right Z.add 0 l.

(** [y[cluster_mask].mean() if cluster_mask.sum() > 0 else 0] *)
Definition fraud_rate (cluster_id : Z) (cluster_labels y : list Z) : T :=
  let selected := masked cluster_id cluster_labels y in
  match selected with
  | [] => lit 0
  | _ => div (of_Z (sum_Z selected)) (of_nat (List.length selected))
  end.

(** [identify_fraud_clusters(X, y, threshold_percentile)] *)
Definition identify_fraud_clusters (self : FraudDetectionKMeans)
           (X : DataFrame) (y : list Z) (threshold_percentile : T)
  : result FraudDetectionKMeans :=
  if negb (is_trained self)
  then Raise (ValueError "Model must be trained before identifying fraud clusters")
  else
    cluster_labels <- predict self X ;;
    if negb (Nat.eqb (List.length y) (List.length cluster_labels))
    then Raise (IndexError "Item wrong length")
    else
      let rates :=
        map (fun cluster_id => (cluster_id, fraud_rate cluster_id cluster_labels y))
            (unique cluster_labels) in
      fraud_rate_threshold <- percentile (map snd rates) threshold_percentile ;;
      let fraud :=
        map fst (filter (fun kv => leb fraud_rate_threshold (snd kv)) rates) in
      Ok {| is_trained := is_trained self;
            assign := assign self;
            fraud_clusters := fraud;
            cluster_fraud_rates := Some rates |}.

(** [predict_fraud_probability(X)] *)
Definition predict_fraud_probability (self : FraudDetectionKMeans)
           (X : DataFrame) : result (list T) :=
  match fraud_clusters self with
  | [] => Raise (ValueError "Fraud clusters must be identified before predicting fraud probability")
  | _ :: _ =>
      cluster_labels <- predict self X ;;
      mapM (fun cluster_id =>
              match cluster_fraud_rates self with
              | None => Raise (KeyError "cluster_fraud_rates")
              | Some rates =>
                  match get cluster_id rates with
                  | Some rate => Ok rate
                  | None => Ok (lit 0)
                  end
              end)
           cluster_labels
  end.

End Model.
Arguments FraudDetectionKMeans T : clear implicits.
End KMeans.

(* ================================================================== *)
(** * scikit-learn's positive-class F1 *)

(** [classification_report(y_true, y_pred, output_dict=True)['1']['f1-score']].
    The report has one entry per label that occurs in [y_true] or in
    [y_pred], so the entry ['1'] is missing (a [KeyError]) when neither
    holds a 1.  With TP, FP, FN counted for label 1 the score is
    2TP / (2TP + FP + FN), and 0 where precision or recall is undefined
    (scikit-learn's [zero_division] default warns and scores 0).  The
    score is kept as the exact ratio of the counts. *)
Module Sklearn.

(** Rows where [y_true == 1] is [t] and [y_pred == 1] is [p]. *)
Fixpoint count_rows (t p : bool) (y_true y_pred : list Z) : Z :=
  match y_true, y_pred with
  | a :: y_true', b :: y_pred' =>
      (if Bool.eqb (a =? 1) t && Bool.eqb (b =? 1) p then 1 else 0)
      + count_rows t p y_true' y_pred'
  | _, _ => 0
  end.

Definition occurs (v : Z) (l : list Z) : bool := existsb (Z.eqb v) l.

Definition f1_score (tp fp fn : Z) : Q :=
  if tp =? 0 then 0%Q else (2 * tp # 1) / (2 * tp + fp + fn # 1).

Definition classification_report_f1 (y_true y_pred : list Z) : result Q :=
  if negb (Nat.eqb (List.length y_true) (List.length y_pred))
  then Raise (ValueError "Found input variables with inconsistent numbers of samples")
  else if negb (occurs 1 y_true || occurs 1 y_pred)
  then Raise (KeyError "1")
  else
    let tp := count_rows true true y_true y_pred in
    let fp := count_rows false true y_true y_pred in
    let fn := count_rows true false y_true y_pred in
    Ok (f1_score tp fp fn).

End Sklearn.

(* ================================================================== *)
(** * The ensemble ([ensemble_model.py]) *)

Module Ensemble.
Section Model.
Context {T : Type} `{Scalar T}.

(** [self.weights]: the dictionary with keys ['rf'], ['ae'], ['kmeans']. *)
Record Weights : Type := {
  rf : T;
  ae : T;
  kmeans : T
}.

Inductive VotingMethod : Type := weighted | majority | unanimous.

Record FraudDetectionEnsemble : Type := {
  rf_model : RandomForest.FraudDetectionRandomForest T;
  ae_model : Autoencoder.FraudDetectionAutoencoder T;
  kmeans_model : KMeans.FraudDetectionKMeans T;
  weights : Weights;
  voting_method : VotingMethod;
  is_trained : bool
}.

(** The weights [__init__] installs. *)
Definition default_weights : Weights :=
  {| rf := lit (5#10); ae := lit (3#10); kmeans := lit (2#10) |}.

Definition with_weights (self : FraudDetectionEnsemble) (w : Weights)
  : FraudDetectionEnsemble :=
  {| rf_model := rf_model self;
     ae_model := ae_model self;
     kmeans_model := kmeans_model self;
     weights := w;
     voting_method := voting_method self;
     is_trained := is_trained self |}.

Definition with_voting_method (self : FraudDetectionEnsemble) (m : VotingMethod)
  : FraudDetectionEnsemble :=
  {| rf_model := rf_model self;
     ae_model := ae_model self;
     kmeans_model := kmeans_model self;
     weights := weights self;
     voting_method := m;
     is_trained := is_trained self |}.

(** [rf_weight / total_weight] and its two siblings; Python raises
    [ZeroDivisionError] on a zero float divisor. *)
Definition normalized (rf_weight ae_weight kmeans_weight : T) : result Weights :=
  let total_weight := add (add rf_weight ae_weight) kmeans_weight in
  if leb total_weight (lit 0) && leb (lit 0) total_weight
  then Raise ZeroDivisionError
  else Ok {| rf := div rf_weight total_weight;
             ae := div ae_weight total_weight;
             kmeans := div kmeans_weight total_weight |}.

(** [set_weights(rf_weight, ae_weight, kmeans_weight)] *)
Definition set_weights (self : FraudDetectionEnsemble)
           (rf_weight ae_weight kmeans_weight : T)
  : result FraudDetectionEnsemble :=
  w <- normalized rf_weight ae_weight kmeans_weight ;;
  Ok (with_weights self w).

(** [set_voting_method(method)] *)
Definition set_voting_method (self : FraudDetectionEnsemble) (method : string)
  : result FraudDetectionEnsemble :=
  if String.eqb method "weighted" then Ok (with_voting_method self weighted)
  else if String.eqb method "majority" then Ok (with_voting_method self majority)
  else if String.eqb method "unanimous" then Ok (with_voting_method self unanimous)
  else Raise (ValueError "Voting method must be 'weighted', 'majority', or 'unanimous'").

(** [(ae_scores - ae_scores.min()) / (ae_scores.max() - ae_scores.min() + 1e-8)] *)
Definition min_max_normalize (ae_scores : list T) : result (list T) :=
  lo <- array_min ae_scores ;;
  hi <- array_max ae_scores ;;
  Ok (map (fun s => div (sub s lo) (add (sub hi lo) (lit (1 # 100000000)))) ae_scores).

(** [weights['rf'] * rf_proba + weights['ae'] * ae_proba + weights['kmeans'] * kmeans_proba],
    for one row *)
Definition weighted_sum (w : Weights) (rf_p ae_p kmeans_p : T) : T :=
  add (add (mul (rf w) rf_p) (mul (ae w) ae_p)) (mul (kmeans w) kmeans_p).

(** [(proba > 0.5).astype(int)], for one row *)
Definition above_half (p : T) : Z := astype_int (ltb (lit (5#10)) p).

(** [predict(X, return_probabilities=True)]: the pair
    [(ensemble_pred, ensemble_proba)]. *)
Definition predict (self : FraudDetectionEnsemble) (X : DataFrame)
  : result (list Z * list T) :=
  if negb (is_trained self)
  then Raise (ValueError "Ensemble must be trained before making predictions")
  else
    rf_proba <- RandomForest.predict (rf_model self) X ;;
    '(ae_pred, ae_scores) <- Autoencoder.predict (ae_model self) X ;;
    ae_proba <- min_max_normalize ae_scores ;;
    kmeans_proba <- KMeans.predict_fraud_probability (kmeans_model self) X ;;
    match voting_method self with
    | weighted =>
        let ensemble_proba :=
          zip3With (weighted_sum (weights self)) rf_proba ae_proba kmeans_proba in
        let ensemble_pred := map above_half ensemble_proba in
        Ok (ensemble_pred, ensemble_proba)
    | majority =>
        let rf_binary := map above_half rf_proba in
        let ae_binary := ae_pred in
        let kmeans_binary := map above_half kmeans_proba in
        let votes := zip3With (fun a b c => a + b + c) rf_binary ae_binary kmeans_binary in
        let ensemble_pred := map (fun v => astype_int (2 <=? v)) votes in
        let ensemble_proba := map (fun v => div (of_Z v) (lit 3)) votes in
        Ok (ensemble_pred, ensemble_proba)
    | unanimous =>
        let rf_binary := map above_half rf_proba in
        let ae_binary := ae_pred in
        let kmeans_binary := map above_half kmeans_proba in
        let ensemble_pred :=
          zip3With (fun a b c => Z.land (Z.land a b) c) rf_binary ae_binary kmeans_binary in
        let ensemble_proba :=
          zip3With (fun a b c => smin (smin a b) c) rf_proba ae_proba kmeans_proba in
        Ok (ensemble_pred, ensemble_proba)
    end.

(** The candidate list of [_optimize_weights], in generation order. *)
Definition weight_combinations : list Weights :=
  flat_map
    (fun rf_w =>
       flat_map
         (fun ae_w =>
            let kmeans_w := sub (sub (lit 1) rf_w) ae_w in
            if leb (lit (1#10)) kmeans_w && leb kmeans_w (lit (6#10))
            then [ {| rf := rf_w; ae := ae_w; kmeans := kmeans_w |} ]
            else [])
         (linspace (lit (1#10)) (lit (6#10)) 5))
    (linspace (lit (2#10)) (lit (8#10)) 5).

(** One trial of the search: install the candidate, predict, score. *)
Definition trial_f1 (self : FraudDetectionEnsemble) (X_val : DataFrame)
           (y_val : list Z) (w : Weights) : result Q :=
  '(predictions, _) <- predict (with_weights self w) X_val ;;
  Sklearn.classification_report_f1 y_val predictions.

(** The loop of [_optimize_weights] over the remaining candidates. *)
Fixpoint search (self : FraudDetectionEnsemble) (X_val : DataFrame)
         (y_val : list Z) (candidates : list Weights)
         (best_f1 : Q) (best_weights : Weights) : result (Q * Weights) :=
  match candidates with
  | [] => Ok (best_f1, best_weights)
  | w :: rest =>
      f1 <- trial_f1 self X_val y_val w ;;
      if Qltb best_f1 f1
      then search self X_val y_val rest f1 w
      else search self X_val y_val rest best_f1 best_weights
  end.

(** [_optimize_weights(X_val, y_val, n_trials)] *)
Definition _optimize_weights (self : FraudDetectionEnsemble)
           (X_val : DataFrame) (y_val : list Z) (n_trials : nat)
  : result FraudDetectionEnsemble :=
  let best_f1 := 0%Q in
  let best_weights := weights self in
  '(_, best_weights) <-
     search self X_val y_val (firstn n_trials weight_combinations)
            best_f1 best_weights ;;
  Ok (with_weights self best_weights).

End Model.
Arguments Weights T : clear implicits.
Arguments FraudDetectionEnsemble T : clear implicits.
End Ensemble.

(* ================================================================== *)
(** * Vocabulary of the statements *)

Section Vocabulary.
Context {T : Type} `{Scalar T}.
Import Ensemble.

(** Everything [predict] checks before it combines: the ensemble and its
    three adapters are trained, the detector has its threshold, the
    cluster model has its fraud clusters and their rates, and the table
    has a row. *)
Definition adapters_ready (self : FraudDetectionEnsemble T) (X : DataFrame) : Prop :=
  is_trained self = true /\
  RandomForest.is_trained (rf_model self) = true /\
  Autoencoder.is_trained (ae_model self) = true /\
  Autoencoder.threshold (ae_model self) <> None /\
  KMeans.is_trained (kmeans_model self) = true /\
  KMeans.fraud_clusters (kmeans_model self) <> [] /\
  KMeans.cluster_fraud_rates (kmeans_model self) <> None /\
  len X <> O.

(** The rate the cluster model reports for one cluster. *)
Definition rate_of (rates : list (Z * T)) (cluster_id : Z) : T :=
  match KMeans.get cluster_id rates with
  | Some rate => rate
  | None => lit 0
  end.

(** A 0/1 label. *)
Definition binary (z : Z) : Prop := z = 0 \/ z = 1.

End Vocabulary.

Section ExactVocabulary.
Import Ensemble.
#[local] Open Scope Q_scope.

(** The closed interval [0,1]. *)
Definition unit_interval (q : Q) : Prop := 0 <= q /\ q <= 1.

(** The invariant of the ensemble weights: non-negative, of sum 1. *)
Definition weights_normalized (w : Weights Q) : Prop :=
  0 <= rf w /\ 0 <= ae w /\ 0 <= kmeans w /\ rf w + ae w + kmeans w == 1.

(** scikit-learn's contract for [predict_proba]. *)
Definition forest_calibrated (m : RandomForest.FraudDetectionRandomForest Q) : Prop :=
  forall X i, unit_interval (RandomForest.predict_proba m X i).

(** Every stored per-cluster fraud rate is a rate. *)
Definition rates_in_unit (m : KMeans.FraudDetectionKMeans Q) : Prop :=
  forall rates, KMeans.cluster_fraud_rates m = Some rates ->
                Forall (fun kv => unit_interval (snd kv)) rates.

End ExactVocabulary.

Section SearchVocabulary.
Context {T : Type} `{Scalar T}.
Import Ensemble.

(** The F1 a candidate is scored with (0 where its trial raises). *)
Definition trial_score (self : FraudDetectionEnsemble T) (X_val : DataFrame)
           (y_val : list Z) (w : Weights T) : Q :=
  match trial_f1 self X_val y_val w with
  | Ok f1 => f1
  | Raise _ => 0%Q
  end.

(** [w] is the first entry of [candidates], in order, that reaches the
    maximum of [score] over [candidates]. *)
Definition first_maximum (score : Weights T -> Q) (candidates : list (Weights T))
           (w : Weights T) : Prop :=
  exists before after,
    candidates = before ++ w :: after /\
    Forall (fun c => (score c < score w)%Q) before /\
    Forall (fun c => (score c <= score w)%Q) after.

(** The default of the parameter [n_trials]. *)
Definition default_n_trials : nat := 50.

End SearchVocabulary.

Section FloatVocabulary.
Import Ensemble.
#[local] Open Scope float_scope.

(** The invariant of the ensemble weights as far as binary64 keeps it:
    no weight is negative, and [sum(weights.values())] is 1.0 or the
    float next below it. *)
Definition nearly_normalized (w : Weights float) : bool :=
  let total := 0 + rf w + ae w + kmeans w in
  PrimFloat.leb 0 (rf w) && PrimFloat.leb 0 (ae w) && PrimFloat.leb 0 (kmeans w)
  && PrimFloat.leb 0x1.fffffffffffffp-1 total && PrimFloat.leb total 1.

End FloatVocabulary.

Section TableVocabulary.
#[local] Open Scope string_scope.

(** [f'] has, under every name outside [touched], the column [f] has. *)
Definition unchanged_outside (touched : list string) (f f' : DataFrame) : Prop :=
  forall n, mem n touched = false -> get_col n f' = get_col n f.

(** [f'] has a column under a name outside [touched] exactly when [f]
    has one (its rows may have been multiplied). *)
Definition names_kept_outside (touched : list string) (f f' : DataFrame) : Prop :=
  forall n, mem n touched = false -> has n f' = has n f.

(** The condition on the input of the classifier's [prepare_features]: a
    table that has the key of a statistics merge carries both columns the
    merge is guarded by, or neither. *)
Definition merge_guards_paired (df : DataFrame) : Prop :=
  (has "provider_id" df = true ->
   has "provider_claim_count" df = has "provider_unique_patients" df) /\
  (has "patient_id" df = true ->
   has "patient_claim_count" df = has "patient_unique_providers" df).

End TableVocabulary.

Section ClassifierVocabulary.
#[local] Open Scope string_scope.

(** The names each block of the classifier's [prepare_features] may write,
    and what each block has established when it is done. *)

Definition temporal_touched : list string :=
  ["claim_date"; "claim_hour"; "claim_day_of_week"; "claim_month";
   "is_weekend"; "is_night_claim"].

Definition temporal_done (f : DataFrame) : Prop :=
  has "claim_date" f = true ->
  (exists d, get_col "claim_date" f = Some (Datetime d)) /\
  has "claim_hour" f = true /\ has "claim_day_of_week" f = true /\
  has "claim_month" f = true /\ has "is_weekend" f = true /\
  has "is_night_claim" f = true.

Definition financial_touched : list string :=
  ["claim_amount_log"; "is_high_amount"].

Definition financial_done (f : DataFrame) : Prop :=
  has "claim_amount" f = true ->
  has "claim_amount_log" f = true /\ has "is_high_amount" f = true.

Definition provider_touched : list string :=
  List.app (merge_touched RandomForest.provider_stats_columns)
           ["provider_claims_per_patient"; "provider_amount_variation"].

Definition provider_done (f : DataFrame) : Prop :=
  has "provider_id" f = true ->
  has "provider_claim_count" f = true /\ has "provider_unique_patients" f = true /\
  has "provider_claims_per_patient" f = true /\
  has "provider_amount_variation" f = true.

Definition patient_touched : list string :=
  List.app (merge_touched RandomForest.patient_stats_columns)
           ["patient_provider_diversity"].

Definition patient_done (f : DataFrame) : Prop :=
  has "patient_id" f = true ->
  has "patient_claim_count" f = true /\ has "patient_unique_providers" f = true /\
  has "patient_provider_diversity" f = true.

Definition diagnosis_done (f : DataFrame) : Prop :=
  has "diagnosis_code" f = true -> has "is_high_risk_diagnosis" f = true.

Definition procedure_done (f : DataFrame) : Prop :=
  has "procedure_code" f = true -> has "is_high_value_procedure" f = true.

Definition geographic_done (f : DataFrame) : Prop :=
  has "provider_location" f && has "patient_location" f = true ->
  has "location_mismatch" f = true.

Definition duplicate_done (f : DataFrame) : Prop :=
  Nat.leb 2 (List.length (filter (fun col => has col f) RandomForest.duplicate_cols))
  = true ->
  has "duplicate_claim_indicator" f = true.

End ClassifierVocabulary.


(* ================================================================== *)
(** * The synthetic data generator ([synthetic_data_generator.py]) *)

Module Generator.

#[local] Open Scope string_scope.

Definition provider_stats_columns : list string :=
  ["provider_claim_count"; "provider_avg_amount"; "provider_amount_std";
   "provider_total_amount"; "provider_unique_patients"; "provider_fraud_rate"].

Definition patient_stats_columns : list string :=
  ["patient_claim_count"; "patient_avg_amount"; "patient_total_amount";
   "patient_unique_providers"; "patient_fraud_rate"].

(** [add_fraud_indicators(df)] *)
Definition add_fraud_indicators (E : Engine) (df : DataFrame) : result DataFrame :=
  (* Provider-level indicators *)
  df <- merge_stats E "provider_id" ["claim_amount"; "patient_id"; "is_fraud"]
                    provider_stats_columns df ;;
  (* Patient-level indicators *)
  df <- merge_stats E "patient_id" ["claim_amount"; "provider_id"; "is_fraud"]
                    patient_stats_columns df ;;
  (* Time-based features *)
  df <- assign_datetime E "claim_date" df ;;
  df <- assign E "claim_hour" ["claim_date"] df ;;
  df <- assign E "claim_day_of_week" ["claim_date"] df ;;
  df <- assign E "is_weekend" ["claim_day_of_week"] df ;;
  df <- assign E "is_night_claim" ["claim_hour"] df ;;
  (* Amount-based features *)
  df <- assign E "claim_amount_log" ["claim_amount"] df ;;
  df <- assign E "amount_z_score" ["claim_amount"] df ;;
  df <- assign E "is_high_amount" ["claim_amount"] df ;;
  (* Location features *)
  df <- assign E "location_mismatch" ["provider_location"; "patient_location"] df ;;
  (* Diagnosis/procedure features *)
  _ <- require ["diagnosis_code"; "procedure_code"] df ;;
  df <- assign E "diagnosis_frequency" ["diagnosis_code"] df ;;
  df <- assign E "procedure_frequency" ["procedure_code"] df ;;
  df <- assign E "is_rare_diagnosis" ["diagnosis_frequency"] df ;;
  assign E "is_rare_procedure" ["procedure_frequency"] df.

#[local] Close Scope string_scope.

End Generator.

(* ================================================================== *)
(** * Choosing the number of clusters ([kmeans_model.py]) *)

Module ClusterCount.
Section Search.
Context {T : Type} `{Scalar T}.

(** What the loop of [find_optimal_clusters] records for one [k]. *)
Record Scores : Type := {
  inertia : T;
  silhouette : T;
  calinski : T;
  davies_bouldin : T
}.

(** The scaled (and PCA-reduced) training matrix. *)
Variable Matrix : Type.
(** [KMeans(n_clusters=k, ...).fit_predict(X)] followed by the three
    scikit-learn scores of the labelling; each of them may raise. *)
Variable fit_and_score : Matrix -> nat -> result Scores.

(** [np.diff(a)] *)
Fixpoint diff (a : list T) : list T :=
  match a with
  | x :: ((y :: _) as rest) => sub y x :: diff rest
  | _ => []
  end.

(** The scan of [np.argmin] and [np.argmax]: the first position of the
    best entry.  (The scores are numbers; NaN is not modelled.) *)
Fixpoint scan (better : T -> T -> bool) (best : T) (best_i i : nat)
         (a : list T) : nat :=
  match a with
  | [] => best_i
  | x :: rest =>
      if better x best then scan better x i (S i) rest
      else scan better best best_i (S i) rest
  end.

Definition argmin (a : list T) : result nat :=
  match a with
  | [] => Raise (ValueError "attempt to get argmin of an empty sequence")
  | x :: rest => Ok (scan (fun x best => ltb x best) x 0 1 rest)
  end.

Definition argmax (a : list T) : result nat :=
  match a with
  | [] => Raise (ValueError "attempt to get argmax of an empty sequence")
  | x :: rest => Ok (scan (fun x best => ltb best x) x 0 1 rest)
  end.

(** [range(2, max_clusters + 1)] *)
Definition K_range (max_clusters : nat) : list nat := seq 2 (max_clusters - 1).

(** [K_range[i]] *)
Definition K_range_get (max_clusters : nat) (i : nat) : result nat :=
  match nth_error (K_range max_clusters) i with
  | Some k => Ok k
  | None => Raise (IndexError "range object index out of range")
  end.

(** [K_range[np.argmin(np.diff(np.diff(inertias))) + 1]] *)
Definition elbow (max_clusters : nat) (inertias : list T) : result nat :=
  i <- argmin (diff (diff inertias)) ;;
  K_range_get max_clusters (i + 1).

(** [find_optimal_clusters(X, max_clusters, method)]: the chosen [k] and
    the recorded scores.  The lines that draw the four panels compute
    every method's choice once more, for the red marker of each panel. *)
Definition find_optimal_clusters (X : Matrix) (max_clusters : nat) (method : string)
  : result (nat * list Scores) :=
  scores <- mapM (fit_and_score X) (K_range max_clusters) ;;
  let inertias := map inertia scores in
  let silhouette_scores := map silhouette scores in
  let calinski_scores := map calinski scores in
  let davies_bouldin_scores := map davies_bouldin scores in
  optimal_k <-
    (if String.eqb method "elbow" then elbow max_clusters inertias
     else if String.eqb method "silhouette"
          then i <- argmax silhouette_scores ;; K_range_get max_clusters i
     else if String.eqb method "calinski"
          then i <- argmax calinski_scores ;; K_range_get max_clusters i
     else if String.eqb method "davies_bouldin"
          then i <- argmin davies_bouldin_scores ;; K_range_get max_clusters i
     else i <- argmax silhouette_scores ;; K_range_get max_clusters i) ;;
  (* Plot the metrics *)
  _ <- (if String.eqb method "elbow" then Ok optimal_k
        else elbow max_clusters inertias) ;;
  _ <- (i <- argmax silhouette_scores ;; K_range_get max_clusters i) ;;
  _ <- (i <- argmax calinski_scores ;; K_range_get max_clusters i) ;;
  _ <- (i <- argmin davies_bouldin_scores ;; K_range_get max_clusters i) ;;
  Ok (optimal_k, scores).

End Search.
Arguments Scores T : clear implicits.
End ClusterCount.

(* ================================================================== *)
(** * Evaluation and training ([evaluate] and [train] of the models) *)

Module Training.
Section Model.
Context {T : Type} `{Scalar T}.

(** ** scikit-learn's report entries and numpy's accuracy *)

(** [classification_report(y_true, y_pred, output_dict=True)['1'][entry]]
    for the entries ['precision'] and ['recall']: the same report as for
    ['f1-score'], so the same two errors. *)
Definition classification_report_entry (entry : Z -> Z -> Z -> Q)
           (y_true y_pred : list Z) : result Q :=
  if negb (Nat.eqb (List.length y_true) (List.length y_pred))
  then Raise (ValueError "Found input variables with inconsistent numbers of samples")
  else if negb (Sklearn.occurs 1 y_true || Sklearn.occurs 1 y_pred)
  then Raise (KeyError "1")
  else
    let tp := Sklearn.count_rows true true y_true y_pred in
    let fp := Sklearn.count_rows false true y_true y_pred in
    let fn := Sklearn.count_rows true false y_true y_pred in
    Ok (entry tp fp fn).

Definition precision_score (tp fp fn : Z) : Q :=
  if tp + fp =? 0 then 0%Q else (tp # 1) / (tp + fp # 1).

Definition recall_score (tp fp fn : Z) : Q :=
  if tp + fn =? 0 then 0%Q else (tp # 1) / (tp + fn # 1).

Fixpoint agreements (predictions y_test : list Z) : nat :=
  match predictions, y_test with
  | p :: predictions', v :: y_test' =>
      (if p =? v then 1 else 0) + agreements predictions' y_test'
  | _, _ => O
  end.

(** [np.mean(predictions == y_test)], [y_test] a pandas Series: the
    comparison is by position, and raises when the lengths differ. *)
Definition accuracy_score (predictions y_test : list Z) : result T :=
  if negb (Nat.eqb (List.length predictions) (List.length y_test))
  then Raise (ValueError "Lengths must match to compare")
  else Ok (div (of_nat (agreements predictions y_test))
               (of_nat (List.length predictions))).

(** The library functions whose values are stored and never read. *)
Variable roc_auc_score : list Z -> list T -> result T.
Variable confusion_matrix : list Z -> list Z -> result (list (list Z)).
Variable np_mean : list T -> T.
Variable np_std : list T -> T.

Record Metrics : Type := {
  accuracy : T;
  precision : Q;
  recall : Q;
  f1_score : Q;
  roc_auc : option T;
  confusion : list (list Z)
}.

(** The first four entries of every metrics dictionary, in the order
    the dictionary display evaluates them. *)
Definition report (y_test predictions : list Z) : result (T * Q * Q * Q) :=
  acc <- accuracy_score predictions y_test ;;
  p <- classification_report_entry precision_score y_test predictions ;;
  r <- classification_report_entry recall_score y_test predictions ;;
  f1 <- Sklearn.classification_report_f1 y_test predictions ;;
  Ok (acc, p, r, f1).

(** ** [FraudDetectionAutoencoder.evaluate(X_test, y_test)] *)

Record DetectorMetrics : Type := {
  detector_scores : Metrics;
  detector_threshold : option T;
  mean_reconstruction_error : T;
  std_reconstruction_error : T
}.

Definition ae_evaluate (self : Autoencoder.FraudDetectionAutoencoder T)
           (X_test : DataFrame) (y_test : list Z) : result DetectorMetrics :=
  if negb (Autoencoder.is_trained self)
  then Raise (ValueError "Model must be trained before evaluation")
  else
    '(predictions, reconstruction_errors) <- Autoencoder.predict self X_test ;;
    '(acc, p, r, f1) <- report y_test predictions ;;
    auc <- roc_auc_score y_test reconstruction_errors ;;
    cm <- confusion_matrix y_test predictions ;;
    Ok {| detector_scores :=
            {| accuracy := acc; precision := p; recall := r; f1_score := f1;
               roc_auc := Some auc; confusion := cm |};
          detector_threshold := Autoencoder.threshold self;
          mean_reconstruction_error := np_mean reconstruction_errors;
          std_reconstruction_error := np_std reconstruction_errors |}.

(** ** [FraudDetectionKMeans.evaluate(X_test, y_test)] *)

(** [self.model.n_clusters] of the fitted scikit-learn estimator the
    adapter holds. *)
Variable n_clusters : KMeans.FraudDetectionKMeans T -> nat.

(** [self.fraud_clusters = list(range(self.model.n_clusters))] *)
Definition with_all_clusters (self : KMeans.FraudDetectionKMeans T)
  : KMeans.FraudDetectionKMeans T :=
  {| KMeans.is_trained := KMeans.is_trained self;
     KMeans.assign := KMeans.assign self;
     KMeans.fraud_clusters := map Z.of_nat (seq 0 (n_clusters self));
     KMeans.cluster_fraud_rates := KMeans.cluster_fraud_rates self |}.

(** The adapter as the call leaves it, and the test metrics. *)
Definition kmeans_evaluate (self : KMeans.FraudDetectionKMeans T)
           (X_test : DataFrame) (y_test : list Z)
  : result (KMeans.FraudDetectionKMeans T * Metrics) :=
  let self :=
    match KMeans.fraud_clusters self with
    | [] => with_all_clusters self
    | _ :: _ => self
    end in
  cluster_labels <- KMeans.predict self X_test ;;
  (* [np.isin(cluster_labels, self.fraud_clusters).astype(int)] *)
  let fraud_predictions :=
    map (fun c => astype_int (existsb (Z.eqb c) (KMeans.fraud_clusters self)))
        cluster_labels in
  '(acc, p, r, f1) <- report y_test fraud_predictions ;;
  cm <- confusion_matrix y_test fraud_predictions ;;
  fraud_probabilities <- KMeans.predict_fraud_probability self X_test ;;
  auc <- (if Nat.ltb 1 (List.length (unique y_test))
          then a <- roc_auc_score y_test fraud_probabilities ;; Ok (Some a)
          else Ok None) ;;
  Ok (self,
      {| accuracy := acc; precision := p; recall := r; f1_score := f1;
         roc_auc := auc; confusion := cm |}).

(** ** [FraudDetectionEnsemble.evaluate(X_test, y_test)] *)

Definition evaluate (self : Ensemble.FraudDetectionEnsemble T)
           (X_test : DataFrame) (y_test : list Z) : result Metrics :=
  if negb (Ensemble.is_trained self)
  then Raise (ValueError "Ensemble must be trained before evaluation")
  else
    '(predictions, probabilities) <- Ensemble.predict self X_test ;;
    '(acc, p, r, f1) <- report y_test predictions ;;
    auc <- roc_auc_score y_test probabilities ;;
    cm <- confusion_matrix y_test predictions ;;
    Ok {| accuracy := acc; precision := p; recall := r; f1_score := f1;
          roc_auc := Some auc; confusion := cm |}.

(** ** [FraudDetectionEnsemble.train(X, y, test_size, optimize_weights)] *)

(** scikit-learn's stratified split, the training of the forest and of
    the cluster model, and pandas' row selection by a boolean mask: each
    returns its result or raises. *)
Variable train_test_split :
  DataFrame -> list Z -> result (DataFrame * DataFrame * list Z * list Z).
Variable RandomForestMetrics : Type.
Variable rf_train :
  RandomForest.FraudDetectionRandomForest T -> DataFrame -> list Z ->
  result (RandomForest.FraudDetectionRandomForest T * RandomForestMetrics).
Variable kmeans_train :
  KMeans.FraudDetectionKMeans T -> DataFrame -> result (KMeans.FraudDetectionKMeans T).
Variable boolean_index : DataFrame -> list bool -> result DataFrame.
Variable RNG : Type.
Variable fit : RNG -> DataFrame -> (DataFrame -> nat -> T) * RNG.

Record PerformanceMetrics : Type := {
  rf_metrics : RandomForestMetrics;
  ae_metrics : DetectorMetrics;
  kmeans_metrics : Metrics;
  ensemble_metrics : Metrics;
  trained_weights : Ensemble.Weights T;
  trained_voting_method : Ensemble.VotingMethod
}.

Definition with_models (self : Ensemble.FraudDetectionEnsemble T)
           (rf_model : RandomForest.FraudDetectionRandomForest T)
           (ae_model : Autoencoder.FraudDetectionAutoencoder T)
           (kmeans_model : KMeans.FraudDetectionKMeans T)
  : Ensemble.FraudDetectionEnsemble T :=
  {| Ensemble.rf_model := rf_model;
     Ensemble.ae_model := ae_model;
     Ensemble.kmeans_model := kmeans_model;
     Ensemble.weights := Ensemble.weights self;
     Ensemble.voting_method := Ensemble.voting_method self;
     Ensemble.is_trained := Ensemble.is_trained self |}.

Definition with_is_trained (self : Ensemble.FraudDetectionEnsemble T) (b : bool)
  : Ensemble.FraudDetectionEnsemble T :=
  {| Ensemble.rf_model := Ensemble.rf_model self;
     Ensemble.ae_model := Ensemble.ae_model self;
     Ensemble.kmeans_model := Ensemble.kmeans_model self;
     Ensemble.weights := Ensemble.weights self;
     Ensemble.voting_method := Ensemble.voting_method self;
     Ensemble.is_trained := b |}.

(** The ensemble and the generator as the call leaves them, and the
    metrics it returns. *)
Definition train (self : Ensemble.FraudDetectionEnsemble T) (g : RNG)
           (X : DataFrame) (y : list Z) (optimize_weights : bool)
  : result (Ensemble.FraudDetectionEnsemble T * RNG * PerformanceMetrics) :=
  '(X_train, X_val, y_train, y_val) <- train_test_split X y ;;
  (* Train Random Forest *)
  '(rf_model, rf_metrics) <- rf_train (Ensemble.rf_model self) X_train y_train ;;
  (* Train Autoencoder (on normal data only) *)
  normal_data <- boolean_index X_train (map (fun v => v =? 0) y_train) ;;
  '(ae_model, g) <- Autoencoder.train RNG fit (Ensemble.ae_model self) g normal_data ;;
  ae_metrics <- ae_evaluate ae_model X_val y_val ;;
  (* Train K-Means *)
  kmeans_model <- kmeans_train (Ensemble.kmeans_model self) X_train ;;
  kmeans_model <- KMeans.identify_fraud_clusters kmeans_model X_train y_train (lit 90) ;;
  '(kmeans_model, kmeans_eval_metrics) <- kmeans_evaluate kmeans_model X_val y_val ;;
  let self := with_models self rf_model ae_model kmeans_model in
  (* Optimize ensemble weights if requested *)
  self <- (if optimize_weights
           then Ensemble._optimize_weights self X_val y_val 50
           else Ok self) ;;
  (* Evaluate ensemble performance *)
  ensemble_metrics <- evaluate self X_val y_val ;;
  Ok (with_is_trained self true, g,
      {| rf_metrics := rf_metrics;
         ae_metrics := ae_metrics;
         kmeans_metrics := kmeans_eval_metrics;
         ensemble_metrics := ensemble_metrics;
         trained_weights := Ensemble.weights self;
         trained_voting_method := Ensemble.voting_method self |}).

End Model.
End Training.

(* ================================================================== *)
(** * The service ([fraud_detection_api.py]) *)

Module Api.

#[local] Open Scope string_scope.

(** [[col for col in dataset.columns if col not in ['claim_id', 'is_fraud']]]
    and [dataset[feature_columns]] *)
Definition feature_columns (dataset : DataFrame) : DataFrame :=
  filter (fun kv => negb (mem (fst kv) ["claim_id"; "is_fraud"])) dataset.

Section Service.
Context {T : Type} `{Scalar T}.

(** The module's globals: each model is [None] until it is loaded or
    trained. *)
Record Models : Type := {
  ensemble_model : option (Ensemble.FraudDetectionEnsemble T);
  rf_model : option (RandomForest.FraudDetectionRandomForest T);
  ae_model : option (Autoencoder.FraudDetectionAutoencoder T);
  kmeans_model : option (KMeans.FraudDetectionKMeans T)
}.

(** One claim of the request body, its [claim.get('claim_id')], and
    [pd.DataFrame(claims_data)]. *)
Variable Claim : Type.
Variable claim_id : Claim -> option string.
Variable DataFrame_of : list Claim -> DataFrame.
(** [model.predict(claims_df)] of the forest: the labels of
    scikit-learn's own [predict]. *)
Variable rf_labels :
  RandomForest.FraudDetectionRandomForest T -> DataFrame -> result (list Z).
(** [f'claim_{i}'] *)
Variable claim_number : nat -> string.

(** The JSON body of [request.get_json()], with the defaults of
    [data.get] filled in. *)
Record Request : Type := {
  model_type : string;
  claims : list Claim;
  return_probabilities : bool
}.

Record ClaimResult : Type := {
  result_claim_id : string;
  is_fraud_predicted : Z;
  fraud_risk_level : string;
  fraud_probability : option T
}.

(** The response body, as far as it carries predictions: formatted
    percentages and timestamps are left out. *)
Record Summary : Type := {
  total_claims : nat;
  flagged_as_fraud : Z;
  model_used : string
}.

Inductive Body : Type :=
| Error (e : string)
| Predictions (predictions : list ClaimResult) (summary : Summary)
| Analysed (response : Body) (detailed_analysis : string).

(** What a view function returns: [jsonify(...)] alone, which Flask
    answers with status 200, or the pair [jsonify(...), status]. *)
Inductive Returned : Type :=
| Response (body : Body)
| WithStatus (body : Body) (status : nat).

Definition SUPPORTED_MODELS : list string :=
  ["ensemble"; "random_forest"; "autoencoder"; "kmeans"].

(** [str(e)] of a caught exception. *)
Definition str (e : exception) : string :=
  match e with
  | ValueError msg => msg
  | KeyError key => String.append "'" (String.append key "'")
  | IndexError msg => msg
  | TypeError msg => msg
  | ZeroDivisionError => "float division by zero"
  end.

(** [# Risk categorization] *)
Definition risk_category (probability : T) : string :=
  if leb (lit (8#10)) probability then "CRITICAL"
  else if leb (lit (6#10)) probability then "HIGH"
  else if leb (lit (4#10)) probability then "MEDIUM"
  else "LOW".

(** [a[i]] on a numpy array *)
Definition item {A : Type} (a : list A) (i : nat) : result A :=
  match nth_error a i with
  | Some v => Ok v
  | None => Raise (IndexError "index out of bounds")
  end.

(** One turn of the loop of [# Prepare response]. *)
Definition claim_result (predictions : list Z) (probabilities : option (list T))
           (return_probabilities : bool) (i : nat) (claim : Claim)
  : result ClaimResult :=
  prediction <- item predictions i ;;
  let claim_id := match claim_id claim with
                  | Some id => id
                  | None => claim_number i
                  end in
  let level := if (prediction =? 1)%Z then "HIGH" else "LOW" in
  match probabilities with
  | Some probabilities =>
      if return_probabilities then
        probability <- item probabilities i ;;
        Ok {| result_claim_id := claim_id;
              is_fraud_predicted := prediction;
              fraud_risk_level := risk_category probability;
              fraud_probability := Some probability |}
      else
        Ok {| result_claim_id := claim_id;
              is_fraud_predicted := prediction;
              fraud_risk_level := level;
              fraud_probability := None |}
  | None =>
      Ok {| result_claim_id := claim_id;
            is_fraud_predicted := prediction;
            fraud_risk_level := level;
            fraud_probability := None |}
  end.

Fixpoint claim_results (predictions : list Z) (probabilities : option (list T))
         (return_probabilities : bool) (i : nat) (claims_data : list Claim)
  : result (list ClaimResult) :=
  match claims_data with
  | [] => Ok []
  | claim :: rest =>
      r <- claim_result predictions probabilities return_probabilities i claim ;;
      rs <- claim_results predictions probabilities return_probabilities (S i) rest ;;
      Ok (r :: rs)
  end.

(** [# Make predictions]: the labels and, where asked for, the
    probabilities of the selected model. *)
Definition ensemble_scores (model : Ensemble.FraudDetectionEnsemble T)
           (claims_df : DataFrame) (return_probabilities : bool)
  : result (list Z * option (list T)) :=
  if return_probabilities then
    '(predictions, probabilities) <- Ensemble.predict model claims_df ;;
    Ok (predictions, Some probabilities)
  else
    '(predictions, _) <- Ensemble.predict model claims_df ;;
    Ok (predictions, None).

Definition random_forest_scores (model : RandomForest.FraudDetectionRandomForest T)
           (claims_df : DataFrame) (return_probabilities : bool)
  : result (list Z * option (list T)) :=
  if return_probabilities then
    prob <- RandomForest.predict model claims_df ;;
    Ok (map Ensemble.above_half prob, Some prob)
  else
    predictions <- rf_labels model claims_df ;;
    Ok (predictions, None).

Definition autoencoder_scores (model : Autoencoder.FraudDetectionAutoencoder T)
           (claims_df : DataFrame) (return_probabilities : bool)
  : result (list Z * option (list T)) :=
  '(predictions, reconstruction_errors) <- Autoencoder.predict model claims_df ;;
  if return_probabilities then
    probabilities <- Ensemble.min_max_normalize reconstruction_errors ;;
    Ok (predictions, Some probabilities)
  else Ok (predictions, None).

Definition kmeans_scores (model : KMeans.FraudDetectionKMeans T)
           (claims_df : DataFrame) (return_probabilities : bool)
  : result (list Z * option (list T)) :=
  proba <- KMeans.predict_fraud_probability model claims_df ;;
  let predictions := map Ensemble.above_half proba in
  if return_probabilities then
    probabilities <- KMeans.predict_fraud_probability model claims_df ;;
    Ok (predictions, Some probabilities)
  else Ok (predictions, None).

(** The body of the [try] of [predict_fraud], from the selection of the
    model on; [None] where no model is selected. *)
Definition selected_scores (models : Models) (request : Request)
  : option (result (list Z * option (list T))) :=
  let claims_df := DataFrame_of (claims request) in
  let wanted := return_probabilities request in
  if String.eqb (model_type request) "ensemble" then
    option_map (fun m => ensemble_scores m claims_df wanted) (ensemble_model models)
  else if String.eqb (model_type request) "random_forest" then
    option_map (fun m => random_forest_scores m claims_df wanted) (rf_model models)
  else if String.eqb (model_type request) "autoencoder" then
    option_map (fun m => autoencoder_scores m claims_df wanted) (ae_model models)
  else if String.eqb (model_type request) "kmeans" then
    option_map (fun m => kmeans_scores m claims_df wanted) (kmeans_model models)
  else None.

(** The [response] dictionary that the [try] block of [predict_fraud]
    builds from the scores of the selected model. *)
Definition prediction_response (request : Request)
           (scores : result (list Z * option (list T))) : result Body :=
  '(predictions, probabilities) <- scores ;;
  results <- claim_results predictions probabilities
                           (return_probabilities request) 0 (claims request) ;;
  Ok (Predictions results
        {| total_claims := List.length predictions;
           flagged_as_fraud := KMeans.sum_Z predictions;
           model_used := model_type request |}).

(** The response a request is predicted to get, before it is serialized;
    [None] where no model is selected. *)
Definition predicted (models : Models) (request : Request) : option (result Body) :=
  option_map (prediction_response request) (selected_scores models request).

(** Flask's [jsonify] on the response dictionary: the serialized body,
    or the [TypeError] of a value the JSON encoder has no encoding for.
    (The error dictionaries hold one string and are always serialized.) *)
Variable jsonify : Body -> result Body.

(** [predict_fraud()] *)
Definition predict_fraud (models : Models) (request : Request) : Returned :=
  match claims request with
  | [] => WithStatus (Error "No claims data provided") 400
  | _ :: _ =>
      if negb (mem (model_type request) SUPPORTED_MODELS)
      then WithStatus
             (Error "Unsupported model type. Choose from: ['ensemble', 'random_forest', 'autoencoder', 'kmeans']")
             400
      else
        match predicted models request with
        | None =>
            WithStatus
              (Error (String.append (model_type request) " model not loaded or trained"))
              400
        | Some response =>
            match (response <- response ;; jsonify response) with
            | Ok body => Response body
            | Raise e => WithStatus (Error (str e)) 500
            end
        end
  end.

(** The lines of [batch_analysis] after the prediction: the provider,
    time and amount summaries of the claims, or the exception they
    raise. *)
Variable detailed_analysis : list Claim -> result string.

(** [batch_analysis()]: it calls [predict_fraud()] and reads component 1
    of what comes back as the status.  A bare [jsonify(...)] value has no
    components: indexing it raises [TypeError], which the handler turns
    into status 500. *)
Definition batch_analysis (models : Models) (request : Request) : Returned :=
  match claims request with
  | [] => WithStatus (Error "No claims data provided") 400
  | _ :: _ =>
      match predict_fraud models request with
      | Response _ =>
          WithStatus (Error (str (TypeError "'Response' object is not subscriptable"))) 500
      | WithStatus body status =>
          if negb (Nat.eqb status 200) then WithStatus body status
          else
            match (analysis <- detailed_analysis (claims request) ;;
                   jsonify (Analysed body analysis))
            with
            | Ok response => Response response
            | Raise e => WithStatus (Error (str e)) 500
            end
      end
  end.

End Service.
Arguments model_type {Claim} r.
Arguments claims {Claim} r.
Arguments return_probabilities {Claim} r.

#[local] Close Scope string_scope.

End Api.

(* ================================================================== *)
(** * Label encoding of the classifier ([encode_categorical_features]) *)

Module Encoding.

#[local] Open Scope string_scope.

(** [sorted(set(values))], the classes a [LabelEncoder] is fitted with:
    ascending by code point (the order of the UTF-8 bytes), no repeats. *)
Fixpoint insert_class (v : string) (classes : list string) : list string :=
  match classes with
  | [] => [v]
  | c :: rest =>
      match String.compare v c with
      | Lt => v :: classes
      | Eq => classes
      | Gt => c :: insert_class v rest
      end
  end.

Definition sorted_classes (values : list string) : list string :=
  fold_right insert_class [] values.

(** scikit-learn's lookup table [{val: i for i, val in enumerate(uniques)}],
    counted from [i]: a later entry replaces an earlier one. *)
Fixpoint table (uniques : list string) (i : nat) (v : string) : option nat :=
  match uniques with
  | [] => None
  | u :: rest =>
      match table rest (S i) v with
      | Some j => Some j
      | None => if String.eqb v u then Some i else None
      end
  end.

(** [LabelEncoder.transform(y)] with the given [classes_] *)
Definition transform (classes : list string) (y : list string) : result (list nat) :=
  mapM (fun v => match table classes 0 v with
                 | Some i => Ok i
                 | None => Raise (ValueError "y contains previously unseen labels")
                 end)
       y.

(** [LabelEncoder().fit_transform(y)]: the fitted classes and the codes. *)
Definition fit_transform (y : list string) : result (list string * list nat) :=
  let classes := sorted_classes y in
  codes <- transform classes y ;;
  Ok (classes, codes).

(** [set(values)], in some order *)
Fixpoint distinct (values : list string) : list string :=
  match values with
  | [] => []
  | v :: rest => if mem v rest then distinct rest else v :: distinct rest
  end.

Section Encoders.

(** [list(unknown_values)]: the order in which Python iterates over the
    set, which depends on the hashes of the process. *)
Variable set_order : list string -> list string.

(** The branch [fit=False] for a column that has an encoder: unseen
    values are appended to the classes, then the column is transformed.
    The classes the encoder is left with, and the codes. *)
Definition transform_with_unseen (known_values : list string) (values : list string)
  : result (list string * list nat) :=
  let unique_values := distinct values in
  let unknown_values := filter (fun v => negb (mem v known_values)) unique_values in
  let classes :=
    match unknown_values with
    | [] => known_values
    | _ :: _ => List.app known_values (set_order unknown_values)
    end in
  codes <- transform classes values ;;
  Ok (classes, codes).

(** [self.label_encoders]: column name to fitted classes. *)
Definition Encoders : Type := list (string * list string).

Fixpoint get_encoder (col : string) (encoders : Encoders) : option (list string) :=
  match encoders with
  | [] => None
  | (c, classes) :: rest => if String.eqb col c then Some classes else get_encoder col rest
  end.

Fixpoint set_encoder (col : string) (classes : list string) (encoders : Encoders)
  : Encoders :=
  match encoders with
  | [] => [(col, classes)]
  | (c, old) :: rest =>
      if String.eqb col c then (c, classes) :: rest
      else (c, old) :: set_encoder col classes rest
  end.

(** [df.select_dtypes(include=['object']).columns] without ['claim_date'] *)
Definition categorical_columns (df : DataFrame) : list string :=
  flat_map (fun kv => match snd kv with
                      | Object _ => if String.eqb (fst kv) "claim_date" then [] else [fst kv]
                      | _ => []
                      end)
           df.

(** The integer codes as a column. *)
Definition code_column (codes : list nat) : column :=
  Numeric (map (fun i => float_of_Z (Z.of_nat i)) codes).

(** The loop of [encode_categorical_features(df, fit)]. *)
Fixpoint encode_columns (cols : list string) (fit : bool)
         (encoders : Encoders) (df : DataFrame) : result (DataFrame * Encoders) :=
  match cols with
  | [] => Ok (df, encoders)
  | col :: rest =>
      match get_col col df with
      | Some (Object values) =>
          if fit then
            '(classes, codes) <- fit_transform values ;;
            encode_columns rest fit (set_encoder col classes encoders)
                           (set_col col (code_column codes) df)
          else
            match get_encoder col encoders with
            | Some known_values =>
                '(classes, codes) <- transform_with_unseen known_values values ;;
                encode_columns rest fit (set_encoder col classes encoders)
                               (set_col col (code_column codes) df)
            | None => encode_columns rest fit encoders df
            end
      | _ => encode_columns rest fit encoders df
      end
  end.

(** [encode_categorical_features(df, fit)]: the encoded table and the
    encoders as the call leaves them. *)
Definition encode_categorical_features (encoders : Encoders) (df : DataFrame)
           (fit : bool) : result (DataFrame * Encoders) :=
  encode_columns (categorical_columns df) fit encoders df.

End Encoders.

#[local] Close Scope string_scope.

End Encoding.

Section FeatureVocabulary.
#[local] Open Scope string_scope.

(** Every name the classifier's [prepare_features] may write or rename. *)
Definition classifier_touched : list string :=
  List.app temporal_touched
    (List.app financial_touched
       (List.app provider_touched
          (List.app patient_touched
             ["is_high_risk_diagnosis"; "is_high_value_procedure";
              "location_mismatch"; "duplicate_claim_indicator"]))).

(** The aggregate columns the generator and the three adapters derive
    per provider and per patient. *)
Definition statistics_columns : list string :=
  List.app Generator.provider_stats_columns
    (List.app Generator.patient_stats_columns
       ["provider_min_amount"; "provider_max_amount"; "provider_median_amount";
        "patient_amount_std"]).

(** A claims table as [generate_normal_claims] and
    [generate_fraudulent_claims] build it: no aggregate column yet. *)
Definition raw_claims (df : DataFrame) : Prop :=
  forallb (fun n => negb (has n df)) statistics_columns = true.

End FeatureVocabulary.

(* ================================================================== *)
(** * Concrete inputs (binary64) *)

Module Examples.
Import Ensemble.
#[local] Open Scope string_scope.

Definition one_row : DataFrame := [("claim_amount", Numeric [100%float])].
Definition two_rows : DataFrame := [("claim_amount", Numeric [100%float; 250%float])].

Section Builders.
Context {T : Type} `{Scalar T}.

(** A forest that gives every row the probability [p]. *)
Definition forest (p : T) : RandomForest.FraudDetectionRandomForest T :=
  {| RandomForest.is_trained := true;
     RandomForest.predict_proba := fun _ _ => p |}.

(** An autoencoder with threshold [thr] whose reconstruction error on row
    0 is [e0] and on every later row [e1]. *)
Definition detector (thr e0 e1 : T) : Autoencoder.FraudDetectionAutoencoder T :=
  {| Autoencoder.random_state := 42;
     Autoencoder.is_trained := true;
     Autoencoder.threshold := Some thr;
     Autoencoder.reconstruction_error :=
       fun _ i => match i with O => e0 | S _ => e1 end |}.

(** A k-means model with the single cluster 0, of fraud rate [rate],
    flagged as a fraud cluster. *)
Definition clusters (rate : T) : KMeans.FraudDetectionKMeans T :=
  {| KMeans.is_trained := true;
     KMeans.assign := fun _ _ => 0%Z;
     KMeans.fraud_clusters := [0%Z];
     KMeans.cluster_fraud_rates := Some [(0%Z, rate)] |}.

(** A k-means model, trained, that puts row 0 in cluster 0 and every later
    row in cluster 1, with no fraud cluster identified yet. *)
Definition clusters_unlabelled : KMeans.FraudDetectionKMeans T :=
  {| KMeans.is_trained := true;
     KMeans.assign := fun _ i => match i with O => 0%Z | S _ => 1%Z end;
     KMeans.fraud_clusters := [];
     KMeans.cluster_fraud_rates := None |}.

Definition ensemble (p thr e0 e1 rate : T) (w : Weights T)
           (m : VotingMethod) : FraudDetectionEnsemble T :=
  {| rf_model := forest p;
     ae_model := detector thr e0 e1;
     kmeans_model := clusters rate;
     weights := w;
     voting_method := m;
     is_trained := true |}.

End Builders.

#[local] Open Scope float_scope.

(** Forest sure of fraud, cluster without fraud, default weights. *)
Definition ensemble_at_half : FraudDetectionEnsemble float :=
  ensemble 1 1 0.25 0.25 0 default_weights weighted.

(** Forest and cluster both at 0.6, detector over its threshold. *)
Definition ensemble_two_votes (m : VotingMethod) : FraudDetectionEnsemble float :=
  ensemble 0.6 1 2 2 0.6 default_weights m.

(** Forest and cluster sure of fraud; reconstruction errors 0 and 1. *)
Definition ensemble_alarmed : FraudDetectionEnsemble float :=
  ensemble 1 1 0 1 1 default_weights weighted.

(** Forest and cluster without any suspicion. *)
Definition ensemble_calm : FraudDetectionEnsemble float :=
  ensemble 0 1 0.25 0.25 0 default_weights weighted.

(** Forest and cluster sure of fraud; reconstruction errors 0 and 1e9. *)
Definition ensemble_far_outlier : FraudDetectionEnsemble float :=
  ensemble 1 1 0 1000000000 1 default_weights weighted.

(** Forest and cluster both at 0.6, in exact arithmetic. *)
Definition ensemble_exact (m : VotingMethod) : FraudDetectionEnsemble Q :=
  ensemble (6#10)%Q 1%Q 2%Q 3%Q (6#10)%Q default_weights m.



(** A stand-in for the column computations left to pandas: every
    engineered value is the row count, every date string parses to its
    length. *)
Definition row_count_engine : Engine :=
  {| compute := fun _ df => List.repeat (float_of_Z (Z.of_nat (len df))) (len df);
     parse_datetime := fun s => Z.of_nat (String.length s) |}.

(** Two claims as the service receives them. *)
Definition two_claims : DataFrame :=
  [("claim_date", Object ["2024-01-01"; "2024-01-02"]);
   ("claim_amount", Numeric [100%float; 250%float]);
   ("provider_id", Object ["P1"; "P2"]);
   ("patient_id", Object ["A"; "B"]);
   ("diagnosis_code", Object ["Z51.1"; "M79.3"])].

(** Claims that arrive with the provider's claim count and both provider
    ratios, but without the provider's patient count. *)
Definition half_aggregated : DataFrame :=
  [("claim_amount", Numeric [100%float; 250%float]);
   ("provider_id", Object ["P1"; "P2"]);
   ("patient_id", Object ["A"; "B"]);
   ("provider_claim_count", Numeric [1%float; 1%float]);
   ("provider_claims_per_patient", Numeric [1%float; 1%float]);
   ("provider_amount_variation", Numeric [0%float; 0%float])].

(** A table with one numeric column and none of the claim columns. *)
Definition units_only : DataFrame :=
  [("billed_units", Numeric [1%float; 2%float; 4%float])].

Definition three_rows : DataFrame :=
  [("claim_amount", Numeric [100%float; 250%float; 75%float])].

End Examples.

(* ================================================================== *)
(** * Further concrete inputs *)

Module Cases.
#[local] Open Scope string_scope.

(** Two claims with the columns of the generator's claim records. *)
Definition raw_two_claims : DataFrame :=
  [("claim_id", Object ["CLM_00000001"; "CLM_00000002"]);
   ("patient_id", Object ["PAT_000001"; "PAT_000002"]);
   ("provider_id", Object ["PROV_0001"; "PROV_0002"]);
   ("claim_date", Object ["2024-01-01"; "2024-01-02"]);
   ("diagnosis_code", Object ["Z51.1"; "M79.3"]);
   ("procedure_code", Object ["99213"; "99214"]);
   ("claim_amount", Numeric [100%float; 250%float]);
   ("patient_location", Object ["Nairobi"; "Mombasa"]);
   ("provider_location", Object ["Nairobi"; "Kisumu"]);
   ("is_fraud", Numeric [0%float; 1%float])].

(** Two claims of one patient on one day. *)
Definition same_day_claims : DataFrame :=
  [("claim_date", Object ["2024-01-01"; "2024-01-01"]);
   ("claim_amount", Numeric [100%float; 250%float]);
   ("provider_id", Object ["P1"; "P2"]);
   ("patient_id", Object ["A"; "A"])].

(** A stand-in for Keras in exact arithmetic: the reconstruction error
    on row [i] is [i] plus the generator state the fit started from. *)
Definition exact_counting_fit (g : Z) (X : DataFrame) : (DataFrame -> nat -> Q) * Z :=
  (fun _ i => inject_Z (Z.of_nat i + g), (g + 1)%Z).

Definition untrained_detector : Autoencoder.FraudDetectionAutoencoder Q :=
  {| Autoencoder.random_state := 42;
     Autoencoder.is_trained := false;
     Autoencoder.threshold := None;
     Autoencoder.reconstruction_error := fun _ _ => 0%Q |}.

(** The ensemble as [__init__] leaves it, here around adapters that are
    trained already. *)
Definition fresh_ensemble : Ensemble.FraudDetectionEnsemble Q :=
  {| Ensemble.rf_model := Examples.forest (6 # 10)%Q;
     Ensemble.ae_model := Examples.detector 1%Q 2%Q 3%Q;
     Ensemble.kmeans_model := Examples.clusters (6 # 10)%Q;
     Ensemble.weights := Ensemble.default_weights;
     Ensemble.voting_method := Ensemble.weighted;
     Ensemble.is_trained := false |}.

(** Stand-ins for the library calls of [train] and [evaluate]. *)
Definition split_in_place (X : DataFrame) (y : list Z)
  : result (DataFrame * DataFrame * list Z * list Z) := Ok (X, X, y, y).
Definition forest_trainer (m : RandomForest.FraudDetectionRandomForest Q)
           (X : DataFrame) (y : list Z)
  : result (RandomForest.FraudDetectionRandomForest Q * unit) :=
  Ok (Examples.forest (6 # 10)%Q, tt).
Definition cluster_trainer (m : KMeans.FraudDetectionKMeans Q) (X : DataFrame)
  : result (KMeans.FraudDetectionKMeans Q) := Ok Examples.clusters_unlabelled.
Definition all_rows (X : DataFrame) (mask : list bool) : result DataFrame := Ok X.
Definition auc_one (y : list Z) (scores : list Q) : result Q := Ok 1%Q.
Definition no_confusion (y_true y_pred : list Z) : result (list (list Z)) := Ok [].
Definition first_entry (l : list Q) : Q := hd 0%Q l.

(** Inertia 100/k and three flat scores for every candidate [k]. *)
Definition falling_inertia (X : unit) (k : nat) : result (ClusterCount.Scores Q) :=
  Ok {| ClusterCount.inertia := (100 # Pos.of_nat k)%Q;
        ClusterCount.silhouette := (1 # 2)%Q;
        ClusterCount.calinski := 10%Q;
        ClusterCount.davies_bouldin := 1%Q |}.

(** A request body whose claims are their identifiers; the table built
    from them has one amount per claim. *)
Definition frame_of_ids (claims : list string) : DataFrame :=
  [("claim_amount", Numeric (map (fun _ => 100%float) claims))].
Definition forest_labels (m : RandomForest.FraudDetectionRandomForest Q)
           (X : DataFrame) : result (list Z) :=
  Ok (map (fun _ => 1%Z) (rows X)).
Definition numbered (i : nat) : string := "claim_n".

Definition only_detector : Api.Models (T:=Q) :=
  {| Api.ensemble_model := None;
     Api.rf_model := None;
     Api.ae_model := Some (Examples.detector 1%Q 2%Q 3%Q);
     Api.kmeans_model := None |}.

Definition only_forest : Api.Models (T:=Q) :=
  {| Api.ensemble_model := None;
     Api.rf_model := Some (Examples.forest (6 # 10)%Q);
     Api.ae_model := None;
     Api.kmeans_model := None |}.

Definition one_claim_request (model : string) : Api.Request string :=
  {| Api.model_type := model;
     Api.claims := ["CLM_1"];
     Api.return_probabilities := true |}.

#[local] Close Scope string_scope.

End Cases.

(* ================================================================== *)
(** * Results *)

Section Generic.
Context {T : Type} `{Scalar T}.
Import Ensemble.

Lemma astype_int_binary (b : bool) : astype_int b = 0 \/ astype_int b = 1.
Proof. destruct b; [right | left]; reflexivity. Qed.

Lemma above_half_binary (p : T) : above_half p = 0 \/ above_half p = 1.
Proof. apply astype_int_binary. Qed.

Lemma bind_Ok {A B : Type} (r : result A) (k : A -> result B) (b : B) :
  bind r k = Ok b -> exists a, r = Ok a /\ k a = Ok b.
Proof. destruct r as [a|e]; simpl; [eauto | discriminate]. Qed.

Lemma mapM_length {A B : Type} (f : A -> result B) (l : list A) (bs : list B) :
  mapM f l = Ok bs -> List.length bs = List.length l.
Proof.
  revert bs; induction l as [|a l IH]; simpl; intros bs Hm.
  - injection Hm as <-; reflexivity.
  - apply bind_Ok in Hm as [b [_ Hm]].
    apply bind_Ok in Hm as [bs' [Hbs Hm]].
    injection Hm as <-; simpl; f_equal; auto.
Qed.

Lemma zip3With_length {A B C D : Type} (f : A -> B -> C -> D) l1 l2 l3 n :
  List.length l1 = n -> List.length l2 = n -> List.length l3 = n ->
  List.length (zip3With f l1 l2 l3) = n.
Proof.
  revert l2 l3 n; induction l1 as [|a l1 IH]; intros [|b l2] [|c l3] n;
    simpl; intros H1 H2 H3; subst n; try discriminate; auto.
Qed.

Lemma mapM_total {A B : Type} (f : A -> result B) (g : A -> B) (l : list A) :
  (forall a, f a = Ok (g a)) -> mapM f l = Ok (map g l).
Proof.
  intros Hf; induction l as [|a l IH]; simpl; [reflexivity|].
  rewrite Hf, IH; reflexivity.
Qed.

Lemma rows_nonempty (X : DataFrame) :
  len X <> O -> exists n, rows X = O :: seq 1 n.
Proof.
  unfold rows; destruct (len X) as [|n]; [congruence|].
  intros _; exists n; reflexivity.
Qed.

Lemma check_array_ok (X : DataFrame) : len X <> O -> check_array X = Ok tt.
Proof.
  unfold check_array; intros Hn.
  destruct (Nat.eqb (len X) 0) eqn:E; [|reflexivity].
  apply Nat.eqb_eq in E; contradiction.
Qed.

Lemma check_array_inv (X : DataFrame) u : check_array X = Ok u -> len X <> O.
Proof.
  unfold check_array.
  destruct (Nat.eqb (len X) 0) eqn:E; [discriminate|].
  intros _; apply Nat.eqb_neq; exact E.
Qed.

Lemma zip3With_length_indep {A B C D E : Type}
      (f : A -> B -> C -> D) (g : A -> B -> C -> E) l1 l2 l3 :
  List.length (zip3With f l1 l2 l3) = List.length (zip3With g l1 l2 l3).
Proof.
  revert l2 l3; induction l1 as [|a l1 IH]; intros [|b l2] [|c l3];
    simpl; auto.
Qed.

(** ** What each adapter hands to the combiner *)

Lemma rf_predict_inv (m : RandomForest.FraudDetectionRandomForest T) X v :
  RandomForest.predict m X = Ok v ->
  RandomForest.is_trained m = true /\ len X <> O /\
  v = map (RandomForest.predict_proba m X) (rows X).
Proof.
  unfold RandomForest.predict.
  destruct (RandomForest.is_trained m); simpl; [|discriminate].
  intros Hb; apply bind_Ok in Hb as [u [Hc Hv]].
  apply check_array_inv in Hc. injection Hv as <-. auto.
Qed.

Lemma ae_predict_ok (m : Autoencoder.FraudDetectionAutoencoder T) X t :
  Autoencoder.is_trained m = true -> Autoencoder.threshold m = Some t ->
  len X <> O ->
  let errors := map (Autoencoder.reconstruction_error m X) (rows X) in
  Autoencoder.predict m X = Ok (map (fun e => astype_int (ltb t e)) errors, errors).
Proof.
  intros Ht Hthr Hn; unfold Autoencoder.predict.
  rewrite Ht, (check_array_ok X Hn), Hthr; reflexivity.
Qed.

Lemma ae_predict_inv (m : Autoencoder.FraudDetectionAutoencoder T) X pred errors :
  Autoencoder.predict m X = Ok (pred, errors) ->
  exists t,
    Autoencoder.is_trained m = true /\ Autoencoder.threshold m = Some t /\
    len X <> O /\
    errors = map (Autoencoder.reconstruction_error m X) (rows X) /\
    pred = map (fun e => astype_int (ltb t e)) errors.
Proof.
  unfold Autoencoder.predict.
  destruct (Autoencoder.is_trained m); simpl; [|discriminate].
  intros Hb; apply bind_Ok in Hb as [u [Hc Hv]].
  apply check_array_inv in Hc.
  destruct (Autoencoder.threshold m) as [t|]; [|discriminate].
  injection Hv as <- <-. exists t; auto.
Qed.

Lemma km_predict_ok (m : KMeans.FraudDetectionKMeans T) X :
  KMeans.is_trained m = true -> len X <> O ->
  KMeans.predict m X = Ok (map (KMeans.assign m X) (rows X)).
Proof.
  intros Ht Hn; unfold KMeans.predict.
  rewrite Ht, (check_array_ok X Hn); reflexivity.
Qed.

Lemma km_predict_inv (m : KMeans.FraudDetectionKMeans T) X v :
  KMeans.predict m X = Ok v ->
  KMeans.is_trained m = true /\ len X <> O /\
  v = map (KMeans.assign m X) (rows X).
Proof.
  unfold KMeans.predict.
  destruct (KMeans.is_trained m); simpl; [|discriminate].
  intros Hb; apply bind_Ok in Hb as [u [Hc Hv]].
  apply check_array_inv in Hc. injection Hv as <-. auto.
Qed.

Lemma km_probability_ok (m : KMeans.FraudDetectionKMeans T) X rates :
  KMeans.is_trained m = true -> KMeans.fraud_clusters m <> [] ->
  KMeans.cluster_fraud_rates m = Some rates -> len X <> O ->
  KMeans.predict_fraud_probability m X
  = Ok (map (rate_of rates) (map (KMeans.assign m X) (rows X))).
Proof.
  intros Ht Hf Hr Hn; unfold KMeans.predict_fraud_probability.
  destruct (KMeans.fraud_clusters m) as [|c cs]; [congruence|].
  rewrite (km_predict_ok m X Ht Hn); simpl bind; rewrite Hr.
  apply mapM_total; intros a; unfold rate_of.
  destruct (KMeans.get a rates); reflexivity.
Qed.

End Generic.

(* ================================================================== *)
(** * The combiner, for every scalar arithmetic *)

Section Combiner.
Context {T : Type} `{Scalar T}.
Import Ensemble.

(** C1 (as amended): under the 'weighted' policy, whenever [predict]
    returns, the three adapters have returned their vectors; the
    probability vector is, row by row, w_rf*p_rf + w_ae*p_ae + w_kmeans*p_kmeans
    over them (the detector's scores min-max normalised over the table),
    with no row of any vector left out; and the label of a row is 1
    exactly where that combined probability is strictly greater than 0.5,
    and 0 elsewhere. *)
Theorem predict_weighted_is_weighted_sum_strictly_above_half
        (self : FraudDetectionEnsemble T) (X : DataFrame)
        (labels : list Z) (proba : list T) :
  voting_method self = weighted ->
  predict self X = Ok (labels, proba) ->
  exists rf_proba ae_pred ae_scores ae_proba kmeans_proba,
    RandomForest.predict (rf_model self) X = Ok rf_proba /\
    Autoencoder.predict (ae_model self) X = Ok (ae_pred, ae_scores) /\
    min_max_normalize ae_scores = Ok ae_proba /\
    KMeans.predict_fraud_probability (kmeans_model self) X = Ok kmeans_proba /\
    proba
    = zip3With (fun p_rf p_ae p_kmeans =>
                  add (add (mul (rf (weights self)) p_rf)
                           (mul (ae (weights self)) p_ae))
                      (mul (kmeans (weights self)) p_kmeans))
               rf_proba ae_proba kmeans_proba /\
    labels = map (fun p => if ltb (lit (5#10)) p then 1 else 0) proba /\
    List.length rf_proba = List.length proba /\
    List.length ae_proba = List.length proba /\
    List.length kmeans_proba = List.length proba.
Proof.
  intros Hv Hp. unfold predict in Hp.
  destruct (is_trained self); simpl in Hp; [|discriminate].
  apply bind_Ok in Hp as (rf_proba & Prf & Hp).
  apply bind_Ok in Hp as ([ae_pred ae_scores] & Pae & Hp).
  apply bind_Ok in Hp as (ae_proba & Pmm & Hp).
  apply bind_Ok in Hp as (kmeans_proba & Pkm & Hp).
  rewrite Hv in Hp. injection Hp as <- <-.
  exists rf_proba, ae_pred, ae_scores, ae_proba, kmeans_proba.
  repeat (split; [assumption|]).
  split; [reflexivity|]. split; [reflexivity|].
  assert (L1 : List.length rf_proba = len X).
  { apply rf_predict_inv in Prf as (_ & _ & ->).
    rewrite length_map. unfold rows. apply length_seq. }
  assert (L2 : List.length ae_proba = len X).
  { apply ae_predict_inv in Pae as (t & _ & _ & _ & -> & _).
    unfold min_max_normalize in Pmm.
    apply bind_Ok in Pmm as (lo & _ & Pmm). apply bind_Ok in Pmm as (hi & _ & Pmm).
    injection Pmm as <-. rewrite !length_map. unfold rows. apply length_seq. }
  assert (L3 : List.length kmeans_proba = len X).
  { unfold KMeans.predict_fraud_probability in Pkm.
    destruct (KMeans.fraud_clusters (kmeans_model self)); [discriminate|].
    apply bind_Ok in Pkm as (cluster_labels & Pl & Pkm).
    apply mapM_length in Pkm. apply km_predict_inv in Pl as (_ & _ & ->).
    rewrite Pkm, length_map. unfold rows. apply length_seq. }
  rewrite (zip3With_length _ rf_proba ae_proba kmeans_proba (len X) L1 L2 L3).
  auto.
Qed.

(** C7: with an empty fraud-cluster list, every call of
    [predict_fraud_probability] raises the precondition error. *)
Theorem predict_fraud_probability_requires_fraud_clusters
        (self : KMeans.FraudDetectionKMeans T) (X : DataFrame) :
  KMeans.fraud_clusters self = [] ->
  KMeans.predict_fraud_probability self X
  = Raise (ValueError "Fraud clusters must be identified before predicting fraud probability").
Proof.
  intros Hf; unfold KMeans.predict_fraud_probability; rewrite Hf; reflexivity.
Qed.

(** ** Votes *)

Lemma land_votes_imply_two (a b c : Z) :
  binary a -> binary b -> binary c ->
  Z.land (Z.land a b) c = 1 -> astype_int (2 <=? a + b + c) = 1.
Proof.
  intros [->| ->] [->| ->] [->| ->]; simpl; congruence.
Qed.

Lemma unanimous_votes_within_majority (l1 l2 l3 : list Z) :
  Forall binary l1 -> Forall binary l2 -> Forall binary l3 ->
  forall i,
    nth i (zip3With (fun a b c => Z.land (Z.land a b) c) l1 l2 l3) 0 = 1 ->
    nth i (map (fun v => astype_int (2 <=? v))
               (zip3With (fun a b c => a + b + c) l1 l2 l3)) 0 = 1.
Proof.
  intros F1; revert l2 l3.
  induction F1 as [|a l1 Ha F1 IH]; intros l2 l3 F2 F3 i; simpl.
  - destruct i; discriminate.
  - destruct F2 as [|b l2 Hb F2]; [destruct i; discriminate|].
    destruct F3 as [|c l3 Hc F3]; [destruct i; discriminate|].
    destruct i as [|i]; simpl.
    + apply land_votes_imply_two; assumption.
    + apply IH; assumption.
Qed.

Lemma above_half_votes (l : list T) : Forall binary (map above_half l).
Proof.
  induction l; simpl; constructor; auto. apply above_half_binary.
Qed.

Lemma detector_votes (t : T) (l : list T) :
  Forall binary (map (fun e => astype_int (ltb t e)) l).
Proof.
  induction l; simpl; constructor; auto. apply astype_int_binary.
Qed.

(** C2 (as amended): for one ensemble and one table, hence for the same
    adapter outputs, every row labelled 1 under 'unanimous' is labelled 1
    under 'majority' (and the 'majority' call returns whenever the
    'unanimous' one does, with a label vector of the same length). *)
Theorem unanimous_labels_subset_of_majority
        (self : FraudDetectionEnsemble T) (X : DataFrame)
        (labels_u : list Z) (proba_u : list T) :
  predict (with_voting_method self unanimous) X = Ok (labels_u, proba_u) ->
  exists labels_m proba_m,
    predict (with_voting_method self majority) X = Ok (labels_m, proba_m) /\
    List.length labels_m = List.length labels_u /\
    forall i, nth i labels_u 0 = 1 -> nth i labels_m 0 = 1.
Proof.
  unfold predict; simpl.
  destruct (is_trained self); simpl; [|discriminate].
  intros Hu.
  apply bind_Ok in Hu as (rf_proba & Prf & Hu); rewrite Prf; simpl.
  apply bind_Ok in Hu as ([ae_pred ae_scores] & Pae & Hu); rewrite Pae; simpl.
  apply bind_Ok in Hu as (ae_proba & Pmm & Hu); rewrite Pmm; simpl.
  apply bind_Ok in Hu as (kmeans_proba & Pkm & Hu); rewrite Pkm; simpl.
  injection Hu as <- <-.
  do 2 eexists; split; [reflexivity|].
  apply rf_predict_inv in Prf as (_ & _ & ->).
  apply ae_predict_inv in Pae as (t & _ & _ & _ & -> & ->).
  split.
  - rewrite length_map. apply zip3With_length_indep.
  - apply unanimous_votes_within_majority.
    + apply above_half_votes.
    + apply detector_votes.
    + apply above_half_votes.
Qed.

End Combiner.

(* ================================================================== *)
(** * The combiner on binary64 inputs *)

(** The weighted-sum theorem at a forest sure of fraud, a one-row table and
    the default weights: the call returns label 0 and probability 0.5. *)
Lemma predict_weighted_witness :
  exists rf_proba ae_pred ae_scores ae_proba kmeans_proba,
    RandomForest.predict (Ensemble.rf_model Examples.ensemble_at_half) Examples.one_row
    = Ok rf_proba /\
    Autoencoder.predict (Ensemble.ae_model Examples.ensemble_at_half) Examples.one_row
    = Ok (ae_pred, ae_scores) /\
    Ensemble.min_max_normalize ae_scores = Ok ae_proba /\
    KMeans.predict_fraud_probability
      (Ensemble.kmeans_model Examples.ensemble_at_half) Examples.one_row
    = Ok kmeans_proba /\
    [0.5%float]
    = zip3With (fun p_rf p_ae p_kmeans =>
                  add (add (mul (Ensemble.rf (Ensemble.weights Examples.ensemble_at_half)) p_rf)
                           (mul (Ensemble.ae (Ensemble.weights Examples.ensemble_at_half)) p_ae))
                      (mul (Ensemble.kmeans (Ensemble.weights Examples.ensemble_at_half))
                           p_kmeans))
               rf_proba ae_proba kmeans_proba /\
    [0] = map (fun p => if ltb (lit (5#10)) p then 1 else 0) [0.5%float] /\
    List.length rf_proba = 1%nat /\
    List.length ae_proba = 1%nat /\
    List.length kmeans_proba = 1%nat.
Proof.
  apply (predict_weighted_is_weighted_sum_strictly_above_half
           Examples.ensemble_at_half Examples.one_row [0] [0.5%float]).
  - reflexivity.
  - vm_compute; reflexivity.
Defined.

(** C1, as stated, fails: with the default weights (0.5, 0.3, 0.2), forest
    probability 1.0, normalised reconstruction score 0.0 (a single row)
    and cluster rate 0.0, the combined probability is exactly 0.5, which
    is greater than or equal to 0.5, and the label is 0. *)
Lemma weighted_label_is_zero_at_exactly_half :
  Ensemble.predict Examples.ensemble_at_half Examples.one_row
  = Ok ([0], [0.5%float]) /\
  PrimFloat.leb 0.5 0.5 = true.
Proof. split; vm_compute; reflexivity. Qed.

Lemma predict_fraud_probability_witness :
  KMeans.predict_fraud_probability (T:=float) Examples.clusters_unlabelled Examples.two_rows
  = Raise (ValueError "Fraud clusters must be identified before predicting fraud probability").
Proof.
  apply (predict_fraud_probability_requires_fraud_clusters
           (T:=float) Examples.clusters_unlabelled Examples.two_rows).
  reflexivity.
Defined.

(** The subset theorem at an ensemble whose forest and cluster model both
    vote 1 and whose detector is over its threshold. *)
Lemma unanimous_subset_witness :
  exists labels_m proba_m,
    Ensemble.predict
      (Ensemble.with_voting_method
         (Examples.ensemble_two_votes Ensemble.weighted) Ensemble.majority)
      Examples.one_row
    = Ok (labels_m, proba_m) /\
    List.length labels_m = 1%nat /\
    forall i, nth i [1] 0 = 1 -> nth i labels_m 0 = 1.
Proof.
  apply (unanimous_labels_subset_of_majority
           (Examples.ensemble_two_votes Ensemble.weighted) Examples.one_row
           [1%Z] [PrimFloat.zero]).
  vm_compute; reflexivity.
Defined.

(** C2, as stated, fails in its second inclusion: forest probability 0.6,
    cluster rate 0.6, detector over its own threshold but with normalised
    score 0.0, default weights.  The row is labelled 1 under 'majority'
    (and under 'unanimous'), and 0 under 'weighted', whose combined
    probability is 0.5*0.6 + 0.3*0.0 + 0.2*0.6 = 0.42. *)
Lemma majority_label_not_in_weighted :
  exists proba_m proba_u proba_w,
    Ensemble.predict (Examples.ensemble_two_votes Ensemble.majority) Examples.one_row
    = Ok ([1], proba_m) /\
    Ensemble.predict (Examples.ensemble_two_votes Ensemble.unanimous) Examples.one_row
    = Ok ([1], proba_u) /\
    Ensemble.predict (Examples.ensemble_two_votes Ensemble.weighted) Examples.one_row
    = Ok ([0], proba_w).
Proof. do 3 eexists; repeat split; vm_compute; reflexivity. Qed.

(* ================================================================== *)
(** * Exact arithmetic *)

#[local] Open Scope Q_scope.

Ltac scalar_Q := cbn [lit add sub mul div ltb leb floor Scalar_Q] in *.

Lemma Qltb_true (a b : Q) : Qltb a b = true <-> a < b.
Proof.
  unfold Qltb; rewrite negb_true_iff.
  split; intros Hlt.
  - apply Qnot_le_lt; intros Hle; apply Qle_bool_iff in Hle; congruence.
  - destruct (Qle_bool b a) eqn:E; [|reflexivity].
    apply Qle_bool_iff in E; exfalso; apply (Qlt_not_le _ _ Hlt E).
Qed.

Lemma Qltb_false (a b : Q) : Qltb a b = false <-> b <= a.
Proof.
  unfold Qltb; rewrite negb_false_iff; apply Qle_bool_iff.
Qed.

Lemma Qle_bool_false (a b : Q) : Qle_bool a b = false <-> b < a.
Proof.
  split; intros Hf.
  - apply Qnot_le_lt; intros Hle; apply Qle_bool_iff in Hle; congruence.
  - destruct (Qle_bool a b) eqn:E; [|reflexivity].
    apply Qle_bool_iff in E; exfalso; apply (Qlt_not_le _ _ Hf E).
Qed.

(** C3 (as amended): [set_weights] on non-negative weights of positive
    sum returns and stores the three inputs divided by their sum; in exact
    arithmetic the stored weights are non-negative and sum to exactly 1,
    whatever the inputs summed to; the rest of the ensemble is
    untouched. *)
Theorem set_weights_sums_to_one
        (self : Ensemble.FraudDetectionEnsemble Q) (rf_weight ae_weight kmeans_weight : Q) :
  0 <= rf_weight -> 0 <= ae_weight -> 0 <= kmeans_weight ->
  0 < rf_weight + ae_weight + kmeans_weight ->
  exists self',
    Ensemble.set_weights self rf_weight ae_weight kmeans_weight = Ok self' /\
    Ensemble.rf (Ensemble.weights self')
    = rf_weight / (rf_weight + ae_weight + kmeans_weight) /\
    Ensemble.ae (Ensemble.weights self')
    = ae_weight / (rf_weight + ae_weight + kmeans_weight) /\
    Ensemble.kmeans (Ensemble.weights self')
    = kmeans_weight / (rf_weight + ae_weight + kmeans_weight) /\
    Ensemble.rf (Ensemble.weights self') + Ensemble.ae (Ensemble.weights self')
      + Ensemble.kmeans (Ensemble.weights self') == 1 /\
    0 <= Ensemble.rf (Ensemble.weights self') /\
    0 <= Ensemble.ae (Ensemble.weights self') /\
    0 <= Ensemble.kmeans (Ensemble.weights self') /\
    Ensemble.rf_model self' = Ensemble.rf_model self /\
    Ensemble.ae_model self' = Ensemble.ae_model self /\
    Ensemble.kmeans_model self' = Ensemble.kmeans_model self /\
    Ensemble.voting_method self' = Ensemble.voting_method self /\
    Ensemble.is_trained self' = Ensemble.is_trained self.
Proof.
  intros Ha Hb Hc Hpos.
  unfold Ensemble.set_weights, Ensemble.normalized; scalar_Q.
  assert (E : Qle_bool (rf_weight + ae_weight + kmeans_weight) 0 = false)
    by (apply Qle_bool_false; exact Hpos).
  rewrite E; simpl.
  eexists; split; [reflexivity|]; simpl.
  assert (Hne : ~ rf_weight + ae_weight + kmeans_weight == 0)
    by (intros Hz; rewrite Hz in Hpos; apply (Qlt_irrefl 0 Hpos)).
  do 3 (split; [reflexivity|]).
  split; [field; exact Hne|].
  split; [apply Qle_shift_div_l; [exact Hpos | rewrite Qmult_0_l; exact Ha]|].
  split; [apply Qle_shift_div_l; [exact Hpos | rewrite Qmult_0_l; exact Hb]|].
  split; [apply Qle_shift_div_l; [exact Hpos | rewrite Qmult_0_l; exact Hc]|].
  repeat split.
Qed.

(** The normalisation at the weights 3, 4, 5: the stored weights are
    3/12, 4/12 and 5/12. *)
Lemma set_weights_witness :
  exists self',
    Ensemble.set_weights (Examples.ensemble_exact Ensemble.weighted) 3 4 5 = Ok self' /\
    Ensemble.rf (Ensemble.weights self') = 3 / (3 + 4 + 5) /\
    Ensemble.ae (Ensemble.weights self') = 4 / (3 + 4 + 5) /\
    Ensemble.kmeans (Ensemble.weights self') = 5 / (3 + 4 + 5) /\
    Ensemble.rf (Ensemble.weights self') + Ensemble.ae (Ensemble.weights self')
      + Ensemble.kmeans (Ensemble.weights self') == 1.
Proof.
  destruct (set_weights_sums_to_one (Examples.ensemble_exact Ensemble.weighted) 3 4 5)
    as (self' & Hs & Hrf & Hae & Hkm & Hsum & _); try (vm_compute; congruence).
  exists self'. repeat split; assumption.
Defined.

(** C3, as stated, fails on binary64, the arithmetic the code runs on:
    [set_weights(0.1, 0.2, 0.3)] stores weights whose sum is below 1.0 by
    one unit in the last place, [set_weights(0.6, 0.3, 0.1)] stores
    weights whose sum is above 1.0, and in
    [set_weights(1e308, 1e308, 1e308)] the sum of the inputs overflows to
    infinity, so the three stored weights are 0.0. *)
Lemma set_weights_sum_is_not_one_in_binary64 :
  exists below above overflowed,
    Ensemble.set_weights Examples.ensemble_at_half 0.1%float 0.2%float 0.3%float
    = Ok below /\
    PrimFloat.ltb
      (Ensemble.rf (Ensemble.weights below) + Ensemble.ae (Ensemble.weights below)
       + Ensemble.kmeans (Ensemble.weights below))%float 1%float = true /\
    Ensemble.set_weights Examples.ensemble_at_half 0.6%float 0.3%float 0.1%float
    = Ok above /\
    PrimFloat.ltb 1%float
      (Ensemble.rf (Ensemble.weights above) + Ensemble.ae (Ensemble.weights above)
       + Ensemble.kmeans (Ensemble.weights above))%float = true /\
    Ensemble.set_weights Examples.ensemble_at_half 1e308%float 1e308%float 1e308%float
    = Ok overflowed /\
    Ensemble.weights overflowed
    = {| Ensemble.rf := 0%float; Ensemble.ae := 0%float; Ensemble.kmeans := 0%float |}.
Proof.
  do 3 eexists. split; [vm_compute; reflexivity|].
  split; [vm_compute; reflexivity|].
  split; [vm_compute; reflexivity|].
  split; [vm_compute; reflexivity|].
  split; vm_compute; reflexivity.
Qed.

(** ** Ranges *)

Lemma smin_Q_cases (a b : Q) :
  (smin a b = a /\ a <= b) \/ (smin a b = b /\ b <= a).
Proof.
  unfold smin; scalar_Q. destruct (Qle_bool a b) eqn:E.
  - left; split; [reflexivity | apply Qle_bool_iff; exact E].
  - right; split; [reflexivity | apply Qlt_le_weak, Qle_bool_false; exact E].
Qed.

Lemma smax_Q_cases (a b : Q) :
  (smax a b = b /\ a <= b) \/ (smax a b = a /\ b <= a).
Proof.
  unfold smax; scalar_Q. destruct (Qle_bool a b) eqn:E.
  - left; split; [reflexivity | apply Qle_bool_iff; exact E].
  - right; split; [reflexivity | apply Qlt_le_weak, Qle_bool_false; exact E].
Qed.

Lemma fold_smin_lower (rest : list Q) (x : Q) :
  fold_left smin rest x <= x /\
  forall y, In y rest -> fold_left smin rest x <= y.
Proof.
  revert x; induction rest as [|z rest IH]; intros x; simpl.
  - split; [apply Qle_refl | intros y []].
  - destruct (IH (smin x z)) as [Hx Hrest].
    destruct (smin_Q_cases x z) as [[E Hle]|[E Hle]]; rewrite E in *.
    + split; [exact Hx|]. intros y [<-|Hy]; [|auto].
      eapply Qle_trans; eauto.
    + split; [eapply Qle_trans; eauto|]. intros y [<-|Hy]; auto.
Qed.

Lemma fold_smax_upper (rest : list Q) (x : Q) :
  x <= fold_left smax rest x /\
  forall y, In y rest -> y <= fold_left smax rest x.
Proof.
  revert x; induction rest as [|z rest IH]; intros x; simpl.
  - split; [apply Qle_refl | intros y []].
  - destruct (IH (smax x z)) as [Hx Hrest].
    destruct (smax_Q_cases x z) as [[E Hle]|[E Hle]]; rewrite E in *.
    + split; [eapply Qle_trans; eauto|]. intros y [<-|Hy]; auto.
    + split; [exact Hx|]. intros y [<-|Hy]; [|auto].
      eapply Qle_trans; eauto.
Qed.

Lemma ratio_in_unit (s lo hi : Q) :
  lo <= s -> s <= hi ->
  unit_interval ((s - lo) / (hi - lo + (1 # 100000000))).
Proof.
  intros Hlo Hhi.
  assert (Hden : 0 < hi - lo + (1 # 100000000)) by lra.
  split.
  - apply Qle_shift_div_l; [exact Hden | lra].
  - apply Qle_shift_div_r; [exact Hden | lra].
Qed.

Lemma min_max_normalize_length {T : Type} `{Scalar T} (ae_scores ae_proba : list T) :
  Ensemble.min_max_normalize ae_scores = Ok ae_proba ->
  List.length ae_proba = List.length ae_scores.
Proof.
  destruct ae_scores as [|x rest]; [discriminate|].
  cbv [Ensemble.min_max_normalize array_min array_max bind].
  intros E; injection E as <-. simpl; f_equal; apply length_map.
Qed.

(** The min-max-normalised reconstruction scores lie in [0,1]. *)
Lemma min_max_normalize_in_unit (ae_scores ae_proba : list Q) :
  Ensemble.min_max_normalize ae_scores = Ok ae_proba ->
  Forall unit_interval ae_proba.
Proof.
  destruct ae_scores as [|x rest]; [discriminate|].
  cbv [Ensemble.min_max_normalize array_min array_max bind].
  intros E; injection E as <-.
  destruct (fold_smin_lower rest x) as [Lx Lrest].
  destruct (fold_smax_upper rest x) as [Ux Urest].
  assert (B : forall s, In s (x :: rest) ->
                 unit_interval ((s - fold_left smin rest x)
                                / (fold_left smax rest x - fold_left smin rest x
                                   + (1 # 100000000)))).
  { intros s Hs; apply ratio_in_unit; destruct Hs as [<-|Hs]; auto. }
  scalar_Q. apply Forall_forall; intros p Hp.
  destruct Hp as [<-|Hp]; [apply B; left; reflexivity|].
  apply in_map_iff in Hp as (s & <- & Hs). apply B; right; exact Hs.
Qed.

Lemma product_in_weight (w p : Q) :
  0 <= w -> unit_interval p -> 0 <= w * p /\ w * p <= w.
Proof.
  intros Hw [H0 H1]; split.
  - apply Qmult_le_0_compat; assumption.
  - pose proof (Qmult_le_compat_r p 1 w H1 Hw) as Hle.
    rewrite Qmult_1_l, Qmult_comm in Hle; exact Hle.
Qed.

Lemma zip3With_length_min {A B C D : Type} (f : A -> B -> C -> D) l1 l2 l3 :
  List.length (zip3With f l1 l2 l3)
  = Nat.min (List.length l1) (Nat.min (List.length l2) (List.length l3)).
Proof.
  revert l2 l3; induction l1 as [|a l1 IH]; intros [|b l2] [|c l3];
    simpl; auto.
Qed.

Lemma Forall_zip3With {A B C D : Type} (f : A -> B -> C -> D)
      (P : A -> Prop) (P' : B -> Prop) (P'' : C -> Prop) (R : D -> Prop) :
  (forall a b c, P a -> P' b -> P'' c -> R (f a b c)) ->
  forall l1 l2 l3,
    Forall P l1 -> Forall P' l2 -> Forall P'' l3 ->
    Forall R (zip3With f l1 l2 l3).
Proof.
  intros Hf l1 l2 l3 F1; revert l2 l3.
  induction F1 as [|a l1 Ha F1 IH]; intros l2 l3 F2 F3; simpl; [constructor|].
  destruct F2 as [|b l2 Hb F2]; [constructor|].
  destruct F3 as [|c l3 Hc F3]; [constructor|].
  constructor; auto.
Qed.

Lemma mapM_Forall {A B : Type} (f : A -> result B) (P : B -> Prop) (l : list A) :
  (forall a b, f a = Ok b -> P b) ->
  forall bs, mapM f l = Ok bs -> Forall P bs.
Proof.
  intros Hf; induction l as [|a l IH]; simpl; intros bs Hm.
  - injection Hm as <-; constructor.
  - apply bind_Ok in Hm as (b & Hb & Hm).
    apply bind_Ok in Hm as (bs' & Hbs & Hm).
    injection Hm as <-; constructor; eauto.
Qed.

Lemma get_In (k : Z) (d : list (Z * Q)) (v : Q) :
  KMeans.get k d = Some v -> In (k, v) d.
Proof.
  induction d as [|[k' v'] d IH]; simpl; [discriminate|].
  destruct (Z.eqb_spec k k') as [->|Hne].
  - intros E; injection E as ->; left; reflexivity.
  - intros E; right; auto.
Qed.

(** The probabilities the cluster model hands over are stored rates, or 0. *)
Lemma km_probability_in_unit (m : KMeans.FraudDetectionKMeans Q) X v :
  rates_in_unit m ->
  KMeans.predict_fraud_probability m X = Ok v ->
  Forall unit_interval v.
Proof.
  intros Hr; unfold KMeans.predict_fraud_probability.
  destruct (KMeans.fraud_clusters m); [discriminate|].
  intros Hb; apply bind_Ok in Hb as (labels & _ & Hm).
  revert Hm; apply mapM_Forall; intros a b.
  destruct (KMeans.cluster_fraud_rates m) as [rates|] eqn:Er; [|discriminate].
  specialize (Hr rates Er).
  destruct (KMeans.get a rates) as [rate|] eqn:Eg; intros E; injection E as <-.
  - apply get_In in Eg. rewrite Forall_forall in Hr. apply (Hr _ Eg).
  - scalar_Q; split; discriminate.
Qed.

Lemma weighted_sum_in_unit (w : Ensemble.Weights Q) (p_rf p_ae p_kmeans : Q) :
  weights_normalized w ->
  unit_interval p_rf -> unit_interval p_ae -> unit_interval p_kmeans ->
  unit_interval (Ensemble.weighted_sum w p_rf p_ae p_kmeans).
Proof.
  intros (Wr & Wa & Wk & Ws) Hr Ha Hk.
  destruct (product_in_weight _ _ Wr Hr) as [R0 R1].
  destruct (product_in_weight _ _ Wa Ha) as [A0 A1].
  destruct (product_in_weight _ _ Wk Hk) as [K0 K1].
  unfold Ensemble.weighted_sum; scalar_Q.
  split; lra.
Qed.

Lemma vote_share_in_unit (a b c : Z) :
  binary a -> binary b -> binary c ->
  unit_interval (div (of_Z (a + b + c)) (lit 3)).
Proof.
  intros [->| ->] [->| ->] [->| ->]; split; vm_compute; congruence.
Qed.

Lemma land_binary (a b c : Z) :
  binary a -> binary b -> binary c -> binary (Z.land (Z.land a b) c).
Proof.
  intros [->| ->] [->| ->] [->| ->]; simpl; unfold binary; auto.
Qed.

Lemma smin_in_unit (a b c : Q) :
  unit_interval a -> unit_interval b -> unit_interval c ->
  unit_interval (smin (smin a b) c).
Proof.
  intros Ha Hb Hc.
  destruct (smin_Q_cases a b) as [[E _]|[E _]]; rewrite E;
    match goal with |- unit_interval (smin ?x ?y) =>
      destruct (smin_Q_cases x y) as [[E' _]|[E' _]]; rewrite E' end; assumption.
Qed.

(** C8 (as amended): in exact arithmetic, for an ensemble whose weights are
    non-negative and sum to 1, whose forest returns probabilities and whose
    stored cluster fraud rates are rates, under every voting policy and on
    every table, whenever [predict] returns, the label vector has all its
    entries in {0,1}, the probability vector is parallel to it and has all
    its entries in the closed interval [0,1]. *)
Theorem predict_labels_binary_probabilities_in_unit
        (self : Ensemble.FraudDetectionEnsemble Q) (X : DataFrame)
        (labels : list Z) (proba : list Q) :
  weights_normalized (Ensemble.weights self) ->
  forest_calibrated (Ensemble.rf_model self) ->
  rates_in_unit (Ensemble.kmeans_model self) ->
  Ensemble.predict self X = Ok (labels, proba) ->
  Forall binary labels /\
  Forall unit_interval proba /\
  List.length labels = List.length proba.
Proof.
  intros Hw Hf Hr; unfold Ensemble.predict.
  destruct (Ensemble.is_trained self); simpl; [|discriminate].
  intros Hp.
  apply bind_Ok in Hp as (rf_proba & Prf & Hp).
  apply bind_Ok in Hp as ([ae_pred ae_scores] & Pae & Hp).
  apply bind_Ok in Hp as (ae_proba & Pmm & Hp).
  apply bind_Ok in Hp as (kmeans_proba & Pkm & Hp).
  apply rf_predict_inv in Prf as (_ & _ & Erf).
  apply ae_predict_inv in Pae as (t & _ & _ & _ & Eerr & Epred).
  assert (Urf : Forall unit_interval rf_proba).
  { subst rf_proba; apply Forall_forall; intros p Hin.
    apply in_map_iff in Hin as (i & <- & _); apply Hf. }
  pose proof (min_max_normalize_in_unit _ _ Pmm) as Uae.
  pose proof (km_probability_in_unit _ _ _ Hr Pkm) as Ukm.
  assert (Bae : Forall binary ae_pred) by (subst ae_pred; apply detector_votes).
  pose proof (above_half_votes rf_proba) as Brf.
  pose proof (above_half_votes kmeans_proba) as Bkm.
  destruct (Ensemble.voting_method self); injection Hp as <- <-.
  - split; [apply above_half_votes|]. split; [|apply length_map].
    apply Forall_zip3With with (P := unit_interval) (P' := unit_interval)
                               (P'' := unit_interval); auto.
    intros; apply weighted_sum_in_unit; assumption.
  - assert (Bv : Forall (fun v => binary (astype_int (2 <=? v)%Z)
                                  /\ unit_interval (div (of_Z v) (lit 3)))
                        (zip3With (fun a b c => (a + b + c)%Z)
                                  (map Ensemble.above_half rf_proba) ae_pred
                                  (map Ensemble.above_half kmeans_proba))).
    { apply Forall_zip3With with (P := binary) (P' := binary) (P'' := binary); auto.
      intros a b c Ha Hb Hc; split;
        [apply astype_int_binary | apply vote_share_in_unit; assumption]. }
    split; [|split; [|rewrite !length_map; reflexivity]].
    + apply Forall_map. eapply Forall_impl; [|exact Bv]. intros v [Hv _]; exact Hv.
    + apply Forall_map. eapply Forall_impl; [|exact Bv]. intros v [_ Hv]; exact Hv.
  - split; [|split].
    + apply Forall_zip3With with (P := binary) (P' := binary) (P'' := binary); auto.
      intros; apply land_binary; assumption.
    + apply Forall_zip3With with (P := unit_interval) (P' := unit_interval)
                                 (P'' := unit_interval); auto.
      intros; apply smin_in_unit; assumption.
    + rewrite !zip3With_length_min, !length_map.
      rewrite (min_max_normalize_length _ _ Pmm).
      subst ae_pred; rewrite length_map; reflexivity.
Qed.

(** ** Percentiles *)

Lemma insert_sorted_In {T : Type} `{Scalar T} (x y : T) (l : list T) :
  In y (insert_sorted x l) -> y = x \/ In y l.
Proof.
  induction l as [|z l IH]; simpl.
  - intros [<-|[]]; auto.
  - destruct (leb x z); simpl.
    + intros [<-|[<-|Hy]]; auto.
    + intros [<-|Hy]; auto. destruct (IH Hy); auto.
Qed.

Lemma sort_In {T : Type} `{Scalar T} (y : T) (l : list T) :
  In y (sort l) -> In y l.
Proof.
  induction l as [|x l IH]; simpl; [auto|].
  intros Hy; apply insert_sorted_In in Hy as [->|Hy]; auto.
Qed.

Lemma nth_In_default {A : Type} (l : list A) (d : A) (i : nat) :
  In d l -> In (nth i l d) l.
Proof.
  intros Hd; destruct (Nat.lt_ge_cases i (List.length l)) as [Hlt|Hge].
  - apply nth_In; exact Hlt.
  - rewrite nth_overflow; assumption.
Qed.

Lemma lerp_below_larger (a b t : Q) :
  0 <= t -> t <= 1 -> lerp a b t <= a \/ lerp a b t <= b.
Proof.
  intros H0 H1; unfold lerp; scalar_Q.
  destruct (Qlt_le_dec a b) as [Hab|Hba].
  - right. destruct (Qle_bool (1 # 2) t).
    + assert (0 <= (b - a) * (1 - t)) by (apply Qmult_le_0_compat; lra). lra.
    + pose proof (Qmult_le_compat_r t 1 (b - a) H1) as Hm.
      assert (t * (b - a) <= 1 * (b - a)) by (apply Hm; lra).
      rewrite (Qmult_comm (b - a) t). lra.
  - left. destruct (Qle_bool (1 # 2) t).
    + pose proof (Qmult_le_compat_r (1 - t) 1 (a - b)) as Hm.
      assert (E : (b - a) * (1 - t) == - ((1 - t) * (a - b))) by ring.
      assert ((1 - t) * (a - b) <= 1 * (a - b)) by (apply Hm; lra).
      rewrite E. lra.
    + assert (E : (b - a) * t == - (t * (a - b))) by ring.
      assert (0 <= t * (a - b)) by (apply Qmult_le_0_compat; lra).
      rewrite E. lra.
Qed.

Lemma fractional_part (v : Q) :
  0 <= v ->
  0 <= v - of_nat (Z.to_nat (Qfloor v)) /\ v - of_nat (Z.to_nat (Qfloor v)) <= 1.
Proof.
  intros Hv. unfold of_nat, of_Z; scalar_Q.
  assert (Hf : (0 <= Qfloor v)%Z).
  { change 0%Z with (Qfloor 0). apply Qfloor_resp_le; exact Hv. }
  rewrite Z2Nat.id by exact Hf.
  pose proof (Qfloor_le v). pose proof (Qlt_floor v) as Hlt.
  rewrite inject_Z_plus in Hlt. change (inject_Z 1) with 1 in Hlt.
  split; lra.
Qed.

(** A percentile never exceeds every element it is taken over. *)
Lemma percentile_below_some_element (l : list Q) (q t : Q) :
  percentile l q = Ok t -> exists x, In x l /\ t <= x.
Proof.
  unfold percentile.
  destruct (leb (lit 0) q && leb q (lit 100)) eqn:Eq; simpl; [|discriminate].
  apply andb_true_iff in Eq as [Q0 Q100].
  cbn [leb lit Scalar_Q] in Q0, Q100.
  apply Qle_bool_iff in Q0, Q100.
  destruct (sort l) as [|x0 s'] eqn:Es; [discriminate|].
  intros E; injection E as <-.
  set (s := x0 :: s') in *.
  set (v := of_nat (List.length s - 1) * (q / 100)).
  assert (Hv : 0 <= v).
  { unfold v, of_nat, of_Z; cbn [lit Scalar_Q]. apply Qmult_le_0_compat.
    - change 0 with (inject_Z 0); rewrite <- Zle_Qle; lia.
    - apply Qle_shift_div_l; lra. }
  destruct (fractional_part v Hv) as [G0 G1].
  assert (Hx0 : In x0 s) by (left; reflexivity).
  destruct (lerp_below_larger
              (nth (Z.to_nat (Qfloor v)) s x0)
              (nth (Nat.min (Z.to_nat (Qfloor v) + 1) (List.length s - 1)) s x0)
              (v - of_nat (Z.to_nat (Qfloor v))) G0 G1) as [Hle|Hle];
    eexists; (split; [|exact Hle]);
    apply sort_In; rewrite Es; apply nth_In_default; exact Hx0.
Qed.

(** ** Per-cluster fraud rates *)

Lemma masked_binary (cluster_id : Z) (cluster_labels y : list Z) :
  Forall binary y -> Forall binary (KMeans.masked cluster_id cluster_labels y).
Proof.
  revert y; induction cluster_labels as [|c cs IH]; intros y Hy; simpl;
    [constructor|].
  destruct Hy as [|v vs Hv Hvs]; [constructor|].
  destruct (c =? cluster_id)%Z; [constructor|]; auto.
Qed.

Lemma sum_binary (l : list Z) :
  Forall binary l -> (0 <= KMeans.sum_Z l <= Z.of_nat (List.length l))%Z.
Proof.
  induction 1 as [|v l Hv Hl IH]; simpl KMeans.sum_Z; simpl List.length; [lia|].
  destruct Hv as [->| ->]; lia.
Qed.

Lemma fraud_rate_in_unit (cluster_id : Z) (cluster_labels y : list Z) :
  Forall binary y ->
  unit_interval (KMeans.fraud_rate cluster_id cluster_labels y).
Proof.
  intros Hy; unfold KMeans.fraud_rate.
  pose proof (sum_binary _ (masked_binary cluster_id cluster_labels y Hy)) as Hs.
  destruct (KMeans.masked cluster_id cluster_labels y) as [|v vs] eqn:Em.
  - scalar_Q; split; discriminate.
  - unfold of_nat, of_Z; scalar_Q.
    assert (Hpos : 0 < inject_Z (Z.of_nat (List.length (v :: vs)))).
    { change 0 with (inject_Z 0); rewrite <- Zlt_Qlt; simpl List.length; lia. }
    split.
    + apply Qle_shift_div_l; [exact Hpos|]. rewrite Qmult_0_l.
      change 0 with (inject_Z 0); rewrite <- Zle_Qle; lia.
    + apply Qle_shift_div_r; [exact Hpos|]. rewrite Qmult_1_l.
      rewrite <- Zle_Qle; lia.
Qed.

(** The rates [identify_fraud_clusters] stores from 0/1 labels are rates. *)
Lemma identify_fraud_clusters_rates_in_unit
      (self self' : KMeans.FraudDetectionKMeans Q) (X : DataFrame)
      (y : list Z) (threshold_percentile : Q) :
  Forall binary y ->
  KMeans.identify_fraud_clusters self X y threshold_percentile = Ok self' ->
  rates_in_unit self'.
Proof.
  intros Hy; unfold KMeans.identify_fraud_clusters.
  destruct (KMeans.is_trained self); simpl; [|discriminate].
  intros Hb; apply bind_Ok in Hb as (labels & _ & Hb).
  destruct (negb (Nat.eqb (List.length y) (List.length labels))); [discriminate|].
  apply bind_Ok in Hb as (thr & _ & Hb).
  injection Hb as <-. intros rates Hr; simpl in Hr; injection Hr as <-.
  apply Forall_forall; intros kv Hin.
  apply in_map_iff in Hin as (cid & <- & _); simpl.
  apply fraud_rate_in_unit; exact Hy.
Qed.




(** The same run on binary64: the two clusters have the rates 1.0 and
    0.0, the 90th percentile of the rates is 0.9, and cluster 0 is kept. *)
Lemma identify_fraud_clusters_on_binary64 :
  exists self',
    KMeans.identify_fraud_clusters
      (T:=float) Examples.clusters_unlabelled Examples.two_rows [1%Z; 0%Z] 90%float
    = Ok self' /\
    KMeans.fraud_clusters self' = [0%Z] /\
    KMeans.cluster_fraud_rates self' = Some [(0%Z, 1%float); (1%Z, 0%float)].
Proof.
  eexists. split; [vm_compute; reflexivity|]. split; reflexivity.
Qed.

Lemma default_weights_normalized : weights_normalized Ensemble.default_weights.
Proof. repeat split; vm_compute; congruence. Defined.

Lemma example_forest_calibrated :
  forest_calibrated (Examples.forest (6#10)).
Proof. intros X i; split; vm_compute; congruence. Defined.

Lemma example_rates_in_unit : rates_in_unit (Examples.clusters (6#10)).
Proof.
  intros rates E; injection E as <-.
  constructor; [split; vm_compute; congruence | constructor].
Defined.

(** The range theorem at forest and cluster probabilities 0.6, under the
    'majority' policy, on a two-row table. *)
Lemma predict_ranges_witness :
  exists labels proba,
    Ensemble.predict (Examples.ensemble_exact Ensemble.majority) Examples.two_rows
    = Ok (labels, proba) /\
    Forall binary labels /\ Forall unit_interval proba /\
    List.length labels = List.length proba.
Proof.
  do 2 eexists.
  refine ((fun E => conj E
             (predict_labels_binary_probabilities_in_unit
                (Examples.ensemble_exact Ensemble.majority) Examples.two_rows _ _
                default_weights_normalized example_forest_calibrated
                example_rates_in_unit E)) _).
  vm_compute; reflexivity.
Defined.

(** C8, as stated, fails on binary64 by rounding.  After
    [set_weights(0.6, 0.3, 0.1)] the stored weights sum to
    1.0000000000000002; with forest probability 1.0, cluster rate 1.0 and
    reconstruction errors 0 and 1e9 (whose normalised score is 1.0, the
    1e-8 being absorbed), the 'weighted' probability of the second row is
    above 1. *)
Lemma weighted_probability_above_one_in_binary64 :
  exists self' labels p0 p1,
    Ensemble.set_weights Examples.ensemble_far_outlier
                         0.6%float 0.3%float 0.1%float = Ok self' /\
    Ensemble.predict self' Examples.two_rows = Ok (labels, [p0; p1]) /\
    PrimFloat.ltb 1%float p1 = true.
Proof.
  do 4 eexists. split; [vm_compute; reflexivity|].
  split; vm_compute; reflexivity.
Qed.

(* ================================================================== *)
(** * The reconstruction detector's threshold *)

Section DetectorThreshold.
Context {T : Type} `{Scalar T}.
Variable RNG : Type.
Variable fit : RNG -> DataFrame -> (DataFrame -> nat -> T) * RNG.

Lemma train_inv (self self' : Autoencoder.FraudDetectionAutoencoder T)
      (g g' : RNG) (X : DataFrame) :
  Autoencoder.train RNG fit self g X = Ok (self', g') ->
  exists t,
    percentile (map (fst (fit g X) X) (rows X)) (lit 95) = Ok t /\
    Autoencoder.threshold self' = Some t /\
    Autoencoder.reconstruction_error self' = fst (fit g X) /\
    Autoencoder.is_trained self' = true /\
    g' = snd (fit g X).
Proof.
  unfold Autoencoder.train.
  intros Hb; apply bind_Ok in Hb as (u & _ & Hb).
  destruct (fit g X) as [model g1]; simpl.
  apply bind_Ok in Hb as (t & Ht & Hb).
  injection Hb as <- <-. exists t; simpl; auto.
Qed.


End DetectorThreshold.



(* ================================================================== *)
(** * The weight search *)

Section WeightSearch.
Context {T : Type} `{Scalar T}.
Import Ensemble.

Variable self : FraudDetectionEnsemble T.
Variable X_val : DataFrame.
Variable y_val : list Z.

Let score := trial_score self X_val y_val.

(** What the loop returns, from any starting best score. *)
Lemma search_outcome (candidates : list (Weights T)) :
  forall (best_f1 : Q) (best_weights : Weights T) (r : Q) (rw : Weights T),
    search self X_val y_val candidates best_f1 best_weights = Ok (r, rw) ->
    Forall (fun c => trial_f1 self X_val y_val c = Ok (score c)) candidates /\
    ((Forall (fun c => score c <= best_f1) candidates /\
      r = best_f1 /\ rw = best_weights)
     \/
     (best_f1 < score rw /\ r = score rw /\ first_maximum score candidates rw)).
Proof.
  induction candidates as [|c rest IH]; intros b bw r rw Hs; simpl in Hs.
  - injection Hs as <- <-. split; [constructor|]. left; auto.
  - apply bind_Ok in Hs as (f1 & Hf & Hs).
    assert (Ec : score c = f1) by (unfold score, trial_score; rewrite Hf; reflexivity).
    destruct (Qltb b f1) eqn:Eb.
    + apply Qltb_true in Eb.
      destruct (IH _ _ _ _ Hs) as [Hall [(Hle & -> & ->)|(Hlt & -> & Hfm)]];
        (split; [constructor; [rewrite Ec; exact Hf | exact Hall]|]); right.
      * rewrite Ec. split; [exact Eb|]. split; [reflexivity|].
        exists [], rest; simpl. split; [reflexivity|]. split; [constructor|].
        rewrite Ec; exact Hle.
      * split; [eapply Qlt_trans; eauto|]. split; [reflexivity|].
        destruct Hfm as (before & after & -> & Hb & Ha).
        exists (c :: before), after. split; [reflexivity|].
        split; [constructor; [rewrite Ec; exact Hlt | exact Hb] | exact Ha].
    + apply Qltb_false in Eb.
      destruct (IH _ _ _ _ Hs) as [Hall [(Hle & -> & ->)|(Hlt & -> & Hfm)]];
        (split; [constructor; [rewrite Ec; exact Hf | exact Hall]|]).
      * left. split; [constructor; [rewrite Ec; exact Eb | exact Hle]|]. auto.
      * right. split; [exact Hlt|]. split; [reflexivity|].
        destruct Hfm as (before & after & -> & Hb & Ha).
        exists (c :: before), after. split; [reflexivity|].
        split; [constructor; [|exact Hb] | exact Ha].
        rewrite Ec. eapply Qle_lt_trans; eauto.
Qed.

End WeightSearch.

Section WeightSearchClaims.
Context {T : Type} `{Scalar T}.
Import Ensemble.

Lemma flat_map_length_le {A B : Type} (f : A -> list B) (k : nat) (l : list A) :
  (forall a, (List.length (f a) <= k)%nat) ->
  (List.length (flat_map f l) <= k * List.length l)%nat.
Proof.
  intros Hf; induction l as [|a l IH]; simpl; [lia|].
  rewrite length_app. specialize (Hf a). lia.
Qed.

(** The grid yields at most 25 candidates, so the default of 50 trials
    cuts nothing off. *)
Lemma all_candidates_tried :
  firstn default_n_trials (weight_combinations (T:=T)) = weight_combinations.
Proof.
  apply firstn_all2. unfold weight_combinations, default_n_trials.
  eapply Nat.le_trans.
  - apply flat_map_length_le with (k := 5%nat). intros rf_w.
    eapply Nat.le_trans.
    + apply flat_map_length_le with (k := 1%nat). intros ae_w.
      destruct (_ && _); simpl; lia.
    + simpl; lia.
  - simpl; lia.
Qed.

(** The candidates are exactly the grid triples whose third weight is in
    range. *)
Lemma weight_combinations_spec (w : Weights T) :
  In w weight_combinations <->
  exists rf_w ae_w,
    In rf_w (linspace (lit (2#10)) (lit (8#10)) 5) /\
    In ae_w (linspace (lit (1#10)) (lit (6#10)) 5) /\
    leb (lit (1#10)) (sub (sub (lit 1) rf_w) ae_w) = true /\
    leb (sub (sub (lit 1) rf_w) ae_w) (lit (6#10)) = true /\
    w = {| rf := rf_w; ae := ae_w; kmeans := sub (sub (lit 1) rf_w) ae_w |}.
Proof.
  unfold weight_combinations. rewrite in_flat_map. split.
  - intros (rf_w & Hrf & Hin). apply in_flat_map in Hin as (ae_w & Hae & Hin).
    destruct (leb (lit (1#10)) _) eqn:E1; simpl in Hin; [|destruct Hin].
    destruct (leb _ (lit (6#10))) eqn:E2; simpl in Hin; [|destruct Hin].
    destruct Hin as [<-|[]]. exists rf_w, ae_w; auto.
  - intros (rf_w & ae_w & Hrf & Hae & E1 & E2 & ->).
    exists rf_w; split; [exact Hrf|]. apply in_flat_map.
    exists ae_w; split; [exact Hae|]. rewrite E1, E2; left; reflexivity.
Qed.

Lemma trial_f1_inv (self : FraudDetectionEnsemble T) X_val y_val w f1 :
  trial_f1 self X_val y_val w = Ok f1 ->
  exists labels proba,
    predict (with_weights self w) X_val = Ok (labels, proba) /\
    Sklearn.classification_report_f1 y_val labels = Ok f1.
Proof.
  unfold trial_f1. intros Hb; apply bind_Ok in Hb as ([labels proba] & Hp & Hf).
  eauto.
Qed.

(** C4 (as amended): the optimizer's candidates are exactly the triples
    (rf_w, ae_w, 1 - rf_w - ae_w) with rf_w from the 5-point grid over
    [0.2,0.8], ae_w from the 5-point grid over [0.1,0.6] and the third
    weight within [0.1,0.6], all of them tried in generation order; each is
    scored by the positive-class F1 of the predictions the ensemble makes
    on the validation table with that candidate installed, under its
    current voting policy; and a search that returns keeps the first
    candidate in generation order that reaches the maximum score when that
    maximum is positive, and the weights it started with when every
    candidate scores 0. *)
Theorem optimize_weights_keeps_first_positive_maximum
        (self self' : FraudDetectionEnsemble T) (X_val : DataFrame) (y_val : list Z) :
  _optimize_weights self X_val y_val default_n_trials = Ok self' ->
  (forall w,
      In w weight_combinations <->
      exists rf_w ae_w,
        In rf_w (linspace (lit (2#10)) (lit (8#10)) 5) /\
        In ae_w (linspace (lit (1#10)) (lit (6#10)) 5) /\
        leb (lit (1#10)) (sub (sub (lit 1) rf_w) ae_w) = true /\
        leb (sub (sub (lit 1) rf_w) ae_w) (lit (6#10)) = true /\
        w = {| rf := rf_w; ae := ae_w; kmeans := sub (sub (lit 1) rf_w) ae_w |}) /\
  Forall (fun w =>
            exists labels proba,
              predict (with_weights self w) X_val = Ok (labels, proba) /\
              Sklearn.classification_report_f1 y_val labels
              = Ok (trial_score self X_val y_val w))
         weight_combinations /\
  ((Forall (fun w => trial_score self X_val y_val w <= 0) weight_combinations /\
    weights self' = weights self)
   \/
   (0 < trial_score self X_val y_val (weights self') /\
    first_maximum (trial_score self X_val y_val) weight_combinations (weights self'))) /\
  voting_method self' = voting_method self.
Proof.
  unfold _optimize_weights. rewrite all_candidates_tried.
  intros Hb; apply bind_Ok in Hb as ([r rw] & Hs & Hb). injection Hb as <-.
  apply search_outcome in Hs as [Hall Hcase].
  split; [exact weight_combinations_spec|].
  split; [|split; [|reflexivity]].
  - eapply Forall_impl; [|exact Hall]. intros w Hw; apply trial_f1_inv; exact Hw.
  - simpl. destruct Hcase as [(Hle & _ & ->)|(Hlt & _ & Hfm)]; [left | right]; auto.
Qed.

(** ** Validation labels without a positive *)

Lemma count_rows_no_positive (p : bool) (y_true y_pred : list Z) :
  Sklearn.occurs 1 y_true = false ->
  Sklearn.count_rows true p y_true y_pred = 0%Z.
Proof.
  revert y_pred; induction y_true as [|a y_true IH]; intros y_pred Ho; simpl;
    [reflexivity|].
  destruct y_pred as [|b y_pred]; [reflexivity|].
  unfold Sklearn.occurs in Ho; cbn [existsb] in Ho.
  apply orb_false_iff in Ho as [Ha Ho].
  rewrite (IH y_pred Ho).
  destruct (Z.eqb_spec a 1) as [->|Hne]; [discriminate Ha|reflexivity].
Qed.

Lemma f1_without_positive (y_true y_pred : list Z) (f1 : Q) :
  Sklearn.occurs 1 y_true = false ->
  Sklearn.classification_report_f1 y_true y_pred = Ok f1 -> f1 = 0.
Proof.
  intros Ho; unfold Sklearn.classification_report_f1.
  destruct (negb (Nat.eqb _ _)); [discriminate|].
  destruct (negb (_ || _)); [discriminate|].
  rewrite (count_rows_no_positive true y_true y_pred Ho).
  intros E; injection E as <-; reflexivity.
Qed.

(** C5 (as amended): the optimizer has no check for a validation label
    vector without positives.  On such a vector every trial that returns
    scores the candidate 0, a trial whose predictions hold a 1 does return
    (score 0, no error), only a trial whose predictions hold no 1 either
    fails, with the [KeyError] of the missing report entry, and a search
    that returns leaves the weights as they were. *)
Theorem optimize_weights_without_positive_labels
        (self : FraudDetectionEnsemble T) (X_val : DataFrame) (y_val : list Z)
        (n_trials : nat) :
  Sklearn.occurs 1 y_val = false ->
  (forall w f1, trial_f1 self X_val y_val w = Ok f1 -> f1 = 0) /\
  (forall w labels proba,
      predict (with_weights self w) X_val = Ok (labels, proba) ->
      List.length y_val = List.length labels ->
      trial_f1 self X_val y_val w
      = if Sklearn.occurs 1 labels then Ok 0 else Raise (KeyError "1")) /\
  (forall self',
      _optimize_weights self X_val y_val n_trials = Ok self' ->
      weights self' = weights self).
Proof.
  intros Ho.
  assert (Hzero : forall w f1, trial_f1 self X_val y_val w = Ok f1 -> f1 = 0).
  { intros w f1 Ht. apply trial_f1_inv in Ht as (labels & proba & _ & Hf).
    eapply f1_without_positive; eauto. }
  split; [exact Hzero|]. split.
  - intros w labels proba Hp Hlen. unfold trial_f1. rewrite Hp; simpl.
    unfold Sklearn.classification_report_f1.
    rewrite Hlen, Nat.eqb_refl, Ho; simpl.
    destruct (Sklearn.occurs 1 labels); simpl; [|reflexivity].
    rewrite (count_rows_no_positive true y_val labels Ho). reflexivity.
  - intros self'. unfold _optimize_weights.
    intros Hb; apply bind_Ok in Hb as ([r rw] & Hs & Hb). injection Hb as <-.
    simpl. apply search_outcome in Hs as [Hall [(_ & _ & ->)|(Hlt & _ & Hfm)]];
      [reflexivity|].
    exfalso. destruct Hfm as (before & after & Hc & _ & _).
    rewrite Forall_forall in Hall.
    assert (Hin : In rw (firstn n_trials weight_combinations))
      by (rewrite Hc; apply in_elt).
    specialize (Hall rw Hin). apply Hzero in Hall.
    rewrite Hall in Hlt. apply (Qlt_irrefl 0 Hlt).
Qed.

End WeightSearchClaims.

(* ================================================================== *)
(** * The weight search on binary64 inputs *)

(** The search theorem on a two-row validation table with labels 0 and 1:
    forest and cluster are sure of fraud on both rows, so a candidate
    predicts the first row right only when the detector's weight is 0.6. *)
Lemma optimize_weights_witness :
  exists self',
    Ensemble._optimize_weights Examples.ensemble_alarmed Examples.two_rows
                               [0%Z; 1%Z] default_n_trials = Ok self' /\
    ((Forall (fun w => trial_score Examples.ensemble_alarmed Examples.two_rows
                                   [0%Z; 1%Z] w <= 0)
             Ensemble.weight_combinations /\
      Ensemble.weights self' = Ensemble.weights Examples.ensemble_alarmed)
     \/
     (0 < trial_score Examples.ensemble_alarmed Examples.two_rows [0%Z; 1%Z]
                      (Ensemble.weights self') /\
      first_maximum (trial_score Examples.ensemble_alarmed Examples.two_rows [0%Z; 1%Z])
                    Ensemble.weight_combinations (Ensemble.weights self'))).
Proof.
  eexists.
  refine ((fun E => conj E
             (proj1 (proj2 (proj2
                (optimize_weights_keeps_first_positive_maximum
                   Examples.ensemble_alarmed _ Examples.two_rows [0%Z; 1%Z] E))))) _).
  vm_compute; reflexivity.
Defined.

(** What that search keeps: the fourth candidate, of score 1; the three
    before it score 2/3. *)
Lemma optimize_weights_example :
  exists self',
    Ensemble._optimize_weights Examples.ensemble_alarmed Examples.two_rows
                               [0%Z; 1%Z] default_n_trials = Ok self' /\
    nth_error Ensemble.weight_combinations 3 = Some (Ensemble.weights self') /\
    map (trial_score Examples.ensemble_alarmed Examples.two_rows [0%Z; 1%Z])
        (firstn 4 Ensemble.weight_combinations)
    = [(2 # 3); (2 # 3); (2 # 3); (2 # 2)].
Proof.
  eexists. split; [vm_compute; reflexivity|].
  split; vm_compute; reflexivity.
Qed.

(** C4, as stated, fails when no candidate scores above 0: forest and
    cluster see no fraud on the one validation row, whose label is 1.
    Every candidate predicts 0 and scores F1 = 0, so the maximum is reached
    by the first candidate already; the search returns the weights it
    started with, (0.5, 0.3, 0.2), whose detector weight 0.3 no candidate
    has. *)
Lemma optimize_weights_retains_a_non_candidate :
  exists self',
    Ensemble._optimize_weights Examples.ensemble_calm Examples.one_row
                               [1%Z] default_n_trials = Ok self' /\
    Ensemble.weights self' = Ensemble.default_weights /\
    forallb (fun w => Qeq_bool (trial_score Examples.ensemble_calm Examples.one_row
                                            [1%Z] w) 0)
            Ensemble.weight_combinations = true /\
    forallb (fun w => negb (PrimFloat.eqb (Ensemble.ae w)
                                          (Ensemble.ae (Ensemble.weights self'))))
            Ensemble.weight_combinations = true /\
    List.length (Ensemble.weight_combinations (T:=float)) = 13%nat.
Proof.
  eexists. split; [vm_compute; reflexivity|].
  repeat split; vm_compute; reflexivity.
Qed.

Lemma optimize_weights_no_positive_witness :
  exists self',
    Ensemble._optimize_weights Examples.ensemble_alarmed Examples.two_rows
                               [0%Z; 0%Z] default_n_trials = Ok self' /\
    Ensemble.weights self' = Ensemble.weights Examples.ensemble_alarmed.
Proof.
  eexists.
  refine ((fun E => conj E
             (proj2 (proj2 (optimize_weights_without_positive_labels
                              Examples.ensemble_alarmed Examples.two_rows
                              [0%Z; 0%Z] default_n_trials eq_refl)) _ E)) _).
  vm_compute; reflexivity.
Defined.

(** C5, as stated, fails: the validation labels 0, 0 hold no positive;
    forest and cluster are sure of fraud, so every candidate predicts a 1
    somewhere; each of the 13 trials returns the score 0, and the search
    returns to its caller without any error. *)
Lemma optimize_weights_scores_zero_without_error :
  exists self',
    Sklearn.occurs 1 [0%Z; 0%Z] = false /\
    Ensemble._optimize_weights Examples.ensemble_alarmed Examples.two_rows
                               [0%Z; 0%Z] default_n_trials = Ok self' /\
    forallb (fun w =>
               match Ensemble.trial_f1 Examples.ensemble_alarmed Examples.two_rows
                                       [0%Z; 0%Z] w with
               | Ok f1 => Qeq_bool f1 0
               | Raise _ => false
               end)
            Ensemble.weight_combinations = true.
Proof.
  eexists. split; [reflexivity|].
  split; vm_compute; reflexivity.
Qed.

(* ================================================================== *)
(** * Feature engineering *)

Section Tables.
#[local] Open Scope string_scope.

Lemma get_set_same (n : string) (c : column) (f : DataFrame) :
  get_col n (set_col n c f) = Some c.
Proof.
  induction f as [|[m c0] f IH]; simpl.
  - rewrite String.eqb_refl; reflexivity.
  - destruct (String.eqb n m) eqn:E; simpl; rewrite E; auto.
Qed.

Lemma get_set_other (n m : string) (c : column) (f : DataFrame) :
  String.eqb n m = false -> get_col n (set_col m c f) = get_col n f.
Proof.
  intros Hnm; induction f as [|[k c0] f IH]; simpl.
  - rewrite Hnm; reflexivity.
  - destruct (String.eqb m k) eqn:E; simpl.
    + apply String.eqb_eq in E; subst k. rewrite Hnm; reflexivity.
    + destruct (String.eqb n k); auto.
Qed.

Lemma set_col_same (n : string) (c : column) (f : DataFrame) :
  get_col n f = Some c -> set_col n c f = f.
Proof.
  induction f as [|[m c0] f IH]; simpl; [discriminate|].
  destruct (String.eqb n m) eqn:E.
  - intros H; injection H as ->; reflexivity.
  - intros H; rewrite (IH H); reflexivity.
Qed.

Lemma has_set_same (n : string) (c : column) (f : DataFrame) :
  has n (set_col n c f) = true.
Proof. unfold has; rewrite get_set_same; reflexivity. Qed.

Lemma get_app (n : string) (f g : DataFrame) :
  get_col n (List.app f g)
  = match get_col n f with Some c => Some c | None => get_col n g end.
Proof.
  induction f as [|[m c] f IH]; simpl; [reflexivity|].
  destruct (String.eqb n m); auto.
Qed.

Lemma mem_false_cons (n m : string) (l : list string) :
  mem n (m :: l) = false -> String.eqb n m = false /\ mem n l = false.
Proof. unfold mem; simpl; apply orb_false_iff. Qed.

Lemma mem_map_false (n m : string) (g : string -> string) (l : list string) :
  mem n (map g l) = false -> mem m l = true -> String.eqb n (g m) = false.
Proof.
  induction l as [|k l IH]; simpl; [discriminate|].
  intros Hn Hm. apply mem_false_cons in Hn as [Hk Hn].
  unfold mem in Hm; simpl in Hm. apply orb_true_iff in Hm as [Hm|Hm].
  - apply String.eqb_eq in Hm; subst k; exact Hk.
  - apply IH; assumption.
Qed.

Lemma mem_true_eqb (n m : string) (l : list string) :
  mem n l = false -> mem m l = true -> String.eqb n m = false.
Proof.
  intros Hn Hm. rewrite <- (map_id l) in Hn.
  exact (mem_map_false n m (fun x => x) l Hn Hm).
Qed.

(** The right-hand side of a statistics merge has exactly the given names. *)
Lemma has_stats (g : string -> column) (names : list string) (m : string) :
  has m (map (fun n => (n, g n)) names) = mem m names.
Proof.
  unfold has, mem; induction names as [|k names IH]; simpl; [reflexivity|].
  destruct (String.eqb m k); simpl; auto.
Qed.

Lemma mem_app_false (n : string) (l1 l2 : list string) :
  mem n (List.app l1 l2) = false -> mem n l1 = false /\ mem n l2 = false.
Proof. unfold mem; rewrite existsb_app; apply orb_false_iff. Qed.

(** A merge leaves every column outside [merge_touched] as it was. *)
Lemma get_merge_frame (g : string -> column) (names : list string)
      (f : DataFrame) (n : string) :
  mem n (merge_touched names) = false ->
  get_col n (merge_left f (map (fun k => (k, g k)) names)) = get_col n f.
Proof.
  intros Hm. apply mem_app_false in Hm as [Hn Hm].
  apply mem_app_false in Hm as [Hx Hy].
  unfold merge_left; rewrite get_app.
  assert (L : forall f0,
             get_col n (map (fun kv => if has (fst kv) (map (fun k => (k, g k)) names)
                                       then (x_suffix (fst kv), snd kv)
                                       else kv) f0)
             = get_col n f0).
  { induction f0 as [|[m c] f0 IH]; simpl; [reflexivity|].
    rewrite has_stats. destruct (mem m names) eqn:Em; simpl.
    - rewrite (mem_map_false n m x_suffix names Hx Em).
      rewrite (mem_true_eqb n m names Hn Em). exact IH.
    - destruct (String.eqb n m); auto. }
  rewrite L. destruct (get_col n f) as [c|]; [reflexivity|].
  clear L. set (names0 := names) in Hn, Hx, Hy.
  assert (Hsub : forall k, mem k names = true -> mem k names0 = true) by auto.
  clearbody names0. induction names as [|k names IH]; simpl; [reflexivity|].
  assert (Ek : mem k names0 = true)
    by (apply Hsub; unfold mem; simpl; rewrite String.eqb_refl; reflexivity).
  assert (Hrest : forall k', mem k' names = true -> mem k' names0 = true).
  { intros k' Hk'; apply Hsub; unfold mem in *; simpl; rewrite Hk'.
    apply orb_true_r. }
  destruct (has k f); simpl.
  - rewrite (mem_map_false n k y_suffix names0 Hy Ek). apply IH; exact Hrest.
  - rewrite (mem_true_eqb n k names0 Hn Ek). apply IH; exact Hrest.
Qed.

Lemma get_stats_present (g : string -> column) (h : string -> bool)
      (names : list string) (n : string) :
  mem n names = true -> h n = false ->
  get_col n (map (fun kv => if h (fst kv) then (y_suffix (fst kv), snd kv) else kv)
                 (map (fun k => (k, g k)) names)) <> None.
Proof.
  intros Hm Hh; induction names as [|k names IH]; simpl; [discriminate Hm|].
  unfold mem in Hm; simpl in Hm.
  destruct (String.eqb n k) eqn:E.
  - apply String.eqb_eq in E; subst k. rewrite Hh; simpl.
    rewrite String.eqb_refl; discriminate.
  - simpl in Hm. destruct (h k); simpl.
    + destruct (String.eqb n (y_suffix k)); [discriminate | apply IH; exact Hm].
    + rewrite E; apply IH; exact Hm.
Qed.

(** A name of the statistics that the left table does not carry is a
    column of the merged table. *)
Lemma has_merge_new (g : string -> column) (names : list string)
      (f : DataFrame) (n : string) :
  mem n names = true -> has n f = false ->
  has n (merge_left f (map (fun k => (k, g k)) names)) = true.
Proof.
  intros Hm Hf. unfold has, merge_left. rewrite get_app.
  destruct (get_col n (map _ f)); [reflexivity|].
  pose proof (get_stats_present g (fun k => has k f) names n Hm Hf) as Hp.
  destruct (get_col n _); [reflexivity | congruence].
Qed.

End Tables.

Section Steps.
#[local] Open Scope string_scope.
Variable E : Engine.

Lemma unchanged_refl (T : list string) (f : DataFrame) : unchanged_outside T f f.
Proof. intros n _; reflexivity. Qed.

Lemma unchanged_trans (T : list string) (f f1 f2 : DataFrame) :
  unchanged_outside T f f1 -> unchanged_outside T f1 f2 -> unchanged_outside T f f2.
Proof. intros H1 H2 n Hn; rewrite (H2 n Hn); apply H1; exact Hn. Qed.

Lemma mem_subset (small big : list string) (n : string) :
  forallb (fun x => mem x big) small = true ->
  mem n big = false -> mem n small = false.
Proof.
  induction small as [|k small IH]; simpl; [reflexivity|].
  intros Hs Hb. apply andb_true_iff in Hs as [Hk Hs].
  unfold mem at 1; simpl. fold (mem n small). rewrite (IH Hs Hb).
  destruct (String.eqb n k) eqn:Ek; [|reflexivity].
  apply String.eqb_eq in Ek; subst k; congruence.
Qed.

Lemma unchanged_weaken (small big : list string) (f f' : DataFrame) :
  forallb (fun x => mem x big) small = true ->
  unchanged_outside small f f' -> unchanged_outside big f f'.
Proof. intros Hs Hu n Hn; apply Hu; eapply mem_subset; eauto. Qed.

Lemma assign_unchanged (m : string) (reads : list string) (f f' : DataFrame) :
  assign E m reads f = Ok f' -> unchanged_outside [m] f f'.
Proof.
  unfold assign; intros Hb; apply bind_Ok in Hb as (u & _ & Hb).
  injection Hb as <-. intros n Hn. apply mem_false_cons in Hn as [Hn _].
  apply get_set_other; exact Hn.
Qed.

Lemma assign_has (m : string) (reads : list string) (f f' : DataFrame) :
  assign E m reads f = Ok f' -> has m f' = true.
Proof.
  unfold assign; intros Hb; apply bind_Ok in Hb as (u & _ & Hb).
  injection Hb as <-. apply has_set_same.
Qed.

Lemma assign_if_absent_unchanged (m : string) (reads : list string) (f f' : DataFrame) :
  assign_if_absent E m reads f = Ok f' -> unchanged_outside [m] f f'.
Proof.
  unfold assign_if_absent; destruct (has m f).
  - intros Hb; injection Hb as <-; apply unchanged_refl.
  - apply assign_unchanged.
Qed.

Lemma assign_if_absent_has (m : string) (reads : list string) (f f' : DataFrame) :
  assign_if_absent E m reads f = Ok f' -> has m f' = true.
Proof.
  unfold assign_if_absent; destruct (has m f) eqn:Eh.
  - intros Hb; injection Hb as <-; exact Eh.
  - apply assign_has.
Qed.

Lemma assign_if_absent_settled (m : string) (reads : list string) (f : DataFrame) :
  has m f = true -> assign_if_absent E m reads f = Ok f.
Proof. unfold assign_if_absent; intros ->; reflexivity. Qed.

Lemma assign_datetime_unchanged (m : string) (f f' : DataFrame) :
  assign_datetime E m f = Ok f' -> unchanged_outside [m] f f'.
Proof.
  unfold assign_datetime; destruct (get_col m f); [|discriminate].
  intros Hb; injection Hb as <-. intros n Hn. apply mem_false_cons in Hn as [Hn _].
  apply get_set_other; exact Hn.
Qed.

Lemma assign_datetime_is_datetime (m : string) (f f' : DataFrame) :
  assign_datetime E m f = Ok f' -> exists d, get_col m f' = Some (Datetime d).
Proof.
  unfold assign_datetime; destruct (get_col m f) as [c|]; [|discriminate].
  intros Hb; injection Hb as <-. rewrite get_set_same.
  destruct c; simpl; eauto.
Qed.

Lemma assign_datetime_settled (m : string) (f : DataFrame) (d : list Z) :
  get_col m f = Some (Datetime d) -> assign_datetime E m f = Ok f.
Proof.
  unfold assign_datetime; intros Hg; rewrite Hg; simpl.
  rewrite (set_col_same m (Datetime d) f Hg); reflexivity.
Qed.

Lemma merge_stats_unchanged (key : string) (reads names : list string)
      (f f' : DataFrame) :
  merge_stats E key reads names f = Ok f' ->
  unchanged_outside (merge_touched names) f f'.
Proof.
  unfold merge_stats; intros Hb; apply bind_Ok in Hb as (u & _ & Hb).
  injection Hb as <-. intros n Hn.
  apply (get_merge_frame (fun k => Numeric (compute E k f)) names f n Hn).
Qed.

Lemma merge_stats_has_new (key : string) (reads names : list string)
      (f f' : DataFrame) (n : string) :
  merge_stats E key reads names f = Ok f' ->
  mem n names = true -> has n f = false -> has n f' = true.
Proof.
  unfold merge_stats; intros Hb; apply bind_Ok in Hb as (u & _ & Hb).
  injection Hb as <-.
  apply (has_merge_new (fun k => Numeric (compute E k f)) names f n).
Qed.

(** [has] read through [unchanged_outside]. *)
Lemma unchanged_has (T : list string) (f f' : DataFrame) (n : string) :
  unchanged_outside T f f' -> mem n T = false -> has n f' = has n f.
Proof. intros Hu Hn; unfold has; rewrite (Hu n Hn); reflexivity. Qed.

Lemma unchanged_names (T : list string) (f f' : DataFrame) :
  unchanged_outside T f f' -> names_kept_outside T f f'.
Proof. intros Hu n Hn; apply (unchanged_has T f f' n Hu Hn). Qed.

Lemma names_trans (T : list string) (f f1 f2 : DataFrame) :
  names_kept_outside T f f1 -> names_kept_outside T f1 f2 -> names_kept_outside T f f2.
Proof. intros H1 H2 n Hn; rewrite (H2 n Hn); apply H1; exact Hn. Qed.

Lemma names_weaken (small big : list string) (f f' : DataFrame) :
  forallb (fun x => mem x big) small = true ->
  names_kept_outside small f f' -> names_kept_outside big f f'.
Proof. intros Hs Hu n Hn; apply Hu; eapply mem_subset; eauto. Qed.

(** Taking rows of every column keeps the column names. *)
Lemma get_map_values (g : column -> column) (n : string) (f : DataFrame) :
  get_col n (map (fun kv => (fst kv, g (snd kv))) f) = option_map g (get_col n f).
Proof.
  induction f as [|[m c] f IH]; simpl; [reflexivity|].
  destruct (String.eqb n m); [reflexivity | exact IH].
Qed.

Lemma has_map_values (g : column -> column) (n : string) (f : DataFrame) :
  has n (map (fun kv => (fst kv, g (snd kv))) f) = has n f.
Proof. unfold has; rewrite get_map_values; destruct (get_col n f); reflexivity. Qed.

(** The merge of a table with its own rows keeps every column name
    outside [merge_touched]; the rows are another matter. *)
Lemma merge_on_keys_names (keys : list string) (name : string) (f f' : DataFrame) :
  merge_on_keys E keys name f = Ok f' ->
  names_kept_outside (merge_touched [name]) f f'.
Proof.
  unfold merge_on_keys; intros Hb; apply bind_Ok in Hb as (u & _ & Hb).
  injection Hb as <-. intros n Hn.
  match goal with
  | |- has n (merge_left ?left [(name, ?c)]) = _ =>
      pose proof (get_merge_frame (fun _ => c) [name] left n Hn) as G
  end.
  unfold has at 1. cbn [map] in G. rewrite G.
  apply has_map_values.
Qed.

End Steps.

(** ** The classifier's blocks *)

Section ClassifierBlocks.
#[local] Open Scope string_scope.
Variable E : Engine.

(** Split a returning chain of steps into its steps. *)
Ltac steps H :=
  repeat (let f := fresh "f" in
          let S := fresh "S" in
          apply bind_Ok in H as (f & S & H)).

(** Name the frame of every step in the context. *)
Ltac frames :=
  repeat match goal with
    | S : assign_if_absent _ ?m _ ?f = Ok ?f' |- _ =>
        lazymatch goal with
        | _ : unchanged_outside [m] f f' |- _ => fail
        | _ => pose proof (assign_if_absent_unchanged _ m _ f f' S)
        end
    | S : assign _ ?m _ ?f = Ok ?f' |- _ =>
        lazymatch goal with
        | _ : unchanged_outside [m] f f' |- _ => fail
        | _ => pose proof (assign_unchanged _ m _ f f' S)
        end
    | S : assign_datetime _ ?m ?f = Ok ?f' |- _ =>
        lazymatch goal with
        | _ : unchanged_outside [m] f f' |- _ => fail
        | _ => pose proof (assign_datetime_unchanged _ m f f' S)
        end
    | S : merge_stats _ _ _ ?names ?f = Ok ?f' |- _ =>
        lazymatch goal with
        | _ : unchanged_outside (merge_touched names) f f' |- _ => fail
        | _ => pose proof (merge_stats_unchanged _ _ _ names f f' S)
        end
    end.

(** Read a fact about a later table on an earlier one, through the frames. *)
Ltac carry :=
  repeat match goal with
    | U : unchanged_outside _ ?f ?f' |- context [has ?n ?f'] =>
        rewrite (unchanged_has _ f f' n U eq_refl)
    | U : unchanged_outside _ ?f ?f' |- context [get_col ?n ?f'] =>
        rewrite (U n eq_refl)
    end.

(** Compose the frames of a chain into the frame of the block. *)
Ltac chain :=
  repeat (eapply unchanged_trans;
          [eapply unchanged_weaken; [|eassumption]; reflexivity|]);
  first [apply unchanged_refl
        | eapply unchanged_weaken; [|eassumption]; reflexivity].

(** Run a chain of guarded steps whose columns are all present. *)
Ltac settle :=
  cbn [bind];
  repeat (rewrite assign_if_absent_settled by assumption; cbn [bind]);
  reflexivity.

Lemma temporal_spec (f f' : DataFrame) :
  RandomForest.temporal_features E f = Ok f' ->
  unchanged_outside temporal_touched f f' /\ temporal_done f'.
Proof.
  unfold RandomForest.temporal_features, temporal_done.
  destruct (has "claim_date" f) eqn:K.
  - intros Hb; steps Hb; frames. split; [chain|]. intros _.
    repeat split; carry; eauto using assign_if_absent_has, assign_datetime_is_datetime.
  - intros Hb; injection Hb as <-. split; [apply unchanged_refl | congruence].
Qed.

Lemma temporal_settled (f : DataFrame) :
  temporal_done f -> RandomForest.temporal_features E f = Ok f.
Proof.
  unfold RandomForest.temporal_features, temporal_done.
  destruct (has "claim_date" f); [|reflexivity].
  intros Hd; destruct (Hd eq_refl) as ((d & Hdt) & H1 & H2 & H3 & H4 & H5).
  rewrite (assign_datetime_settled E "claim_date" f d Hdt); settle.
Qed.

Lemma financial_spec (f f' : DataFrame) :
  RandomForest.financial_features E f = Ok f' ->
  unchanged_outside financial_touched f f' /\ financial_done f'.
Proof.
  unfold RandomForest.financial_features, financial_done.
  destruct (has "claim_amount" f) eqn:K.
  - intros Hb; steps Hb; frames. split; [chain|]. intros _.
    repeat split; carry; eauto using assign_if_absent_has.
  - intros Hb; injection Hb as <-. split; [apply unchanged_refl | congruence].
Qed.

Lemma financial_settled (f : DataFrame) :
  financial_done f -> RandomForest.financial_features E f = Ok f.
Proof.
  unfold RandomForest.financial_features, financial_done.
  destruct (has "claim_amount" f); [|reflexivity].
  intros Hd; destruct (Hd eq_refl) as (H1 & H2). settle.
Qed.

Lemma provider_spec (f f' : DataFrame) :
  (has "provider_id" f = true ->
   has "provider_claim_count" f = has "provider_unique_patients" f) ->
  RandomForest.provider_features E f = Ok f' ->
  unchanged_outside provider_touched f f' /\ provider_done f'.
Proof.
  unfold RandomForest.provider_features, provider_done.
  destruct (has "provider_id" f) eqn:K.
  - intros Hp Hb; specialize (Hp eq_refl); steps Hb.
    destruct (has "provider_claim_count" f) eqn:Kc;
      rewrite <- Hp in S; cbn [negb orb] in S.
    + injection S as <-. frames. split; [chain|]. intros _.
      repeat split; carry; eauto using assign_if_absent_has.
    + frames. split; [chain|]. intros _.
      repeat split; carry;
        eauto using assign_if_absent_has, merge_stats_has_new.
  - intros _ Hb; injection Hb as <-. split; [apply unchanged_refl | congruence].
Qed.

Lemma provider_settled (f : DataFrame) :
  provider_done f -> RandomForest.provider_features E f = Ok f.
Proof.
  unfold RandomForest.provider_features, provider_done.
  destruct (has "provider_id" f); [|reflexivity].
  intros Hd; destruct (Hd eq_refl) as (H1 & H2 & H3 & H4).
  rewrite H1, H2; cbn [negb orb]. settle.
Qed.

Lemma patient_spec (f f' : DataFrame) :
  (has "patient_id" f = true ->
   has "patient_claim_count" f = has "patient_unique_providers" f) ->
  RandomForest.patient_features E f = Ok f' ->
  unchanged_outside patient_touched f f' /\ patient_done f'.
Proof.
  unfold RandomForest.patient_features, patient_done.
  destruct (has "patient_id" f) eqn:K.
  - intros Hp Hb; specialize (Hp eq_refl); steps Hb.
    destruct (has "patient_claim_count" f) eqn:Kc;
      rewrite <- Hp in S; cbn [negb orb] in S.
    + injection S as <-. frames. split; [chain|]. intros _.
      repeat split; carry; eauto using assign_if_absent_has.
    + frames. split; [chain|]. intros _.
      repeat split; carry;
        eauto using assign_if_absent_has, merge_stats_has_new.
  - intros _ Hb; injection Hb as <-. split; [apply unchanged_refl | congruence].
Qed.

Lemma patient_settled (f : DataFrame) :
  patient_done f -> RandomForest.patient_features E f = Ok f.
Proof.
  unfold RandomForest.patient_features, patient_done.
  destruct (has "patient_id" f); [|reflexivity].
  intros Hd; destruct (Hd eq_refl) as (H1 & H2 & H3).
  rewrite H1, H2; cbn [negb orb]. settle.
Qed.

Lemma diagnosis_spec (f f' : DataFrame) :
  RandomForest.diagnosis_features E f = Ok f' ->
  unchanged_outside ["is_high_risk_diagnosis"] f f' /\ diagnosis_done f'.
Proof.
  unfold RandomForest.diagnosis_features, diagnosis_done.
  destruct (has "diagnosis_code" f) eqn:K.
  - intros Hb; frames. split; [assumption|]. intros _.
    eauto using assign_if_absent_has.
  - intros Hb; injection Hb as <-. split; [apply unchanged_refl | congruence].
Qed.

Lemma diagnosis_settled (f : DataFrame) :
  diagnosis_done f -> RandomForest.diagnosis_features E f = Ok f.
Proof.
  unfold RandomForest.diagnosis_features, diagnosis_done.
  destruct (has "diagnosis_code" f); [|reflexivity].
  intros Hd; apply assign_if_absent_settled; auto.
Qed.

Lemma procedure_spec (f f' : DataFrame) :
  RandomForest.procedure_features E f = Ok f' ->
  unchanged_outside ["is_high_value_procedure"] f f' /\ procedure_done f'.
Proof.
  unfold RandomForest.procedure_features, procedure_done.
  destruct (has "procedure_code" f) eqn:K.
  - intros Hb; frames. split; [assumption|]. intros _.
    eauto using assign_if_absent_has.
  - intros Hb; injection Hb as <-. split; [apply unchanged_refl | congruence].
Qed.

Lemma procedure_settled (f : DataFrame) :
  procedure_done f -> RandomForest.procedure_features E f = Ok f.
Proof.
  unfold RandomForest.procedure_features, procedure_done.
  destruct (has "procedure_code" f); [|reflexivity].
  intros Hd; apply assign_if_absent_settled; auto.
Qed.

Lemma geographic_spec (f f' : DataFrame) :
  RandomForest.geographic_features E f = Ok f' ->
  unchanged_outside ["location_mismatch"] f f' /\ geographic_done f'.
Proof.
  unfold RandomForest.geographic_features, geographic_done.
  destruct (has "provider_location" f && has "patient_location" f) eqn:K.
  - intros Hb; frames. split; [assumption|]. intros _.
    eauto using assign_if_absent_has.
  - intros Hb; injection Hb as <-. split; [apply unchanged_refl | congruence].
Qed.

Lemma geographic_settled (f : DataFrame) :
  geographic_done f -> RandomForest.geographic_features E f = Ok f.
Proof.
  unfold RandomForest.geographic_features, geographic_done.
  destruct (has "provider_location" f && has "patient_location" f); [|reflexivity].
  intros Hd; apply assign_if_absent_settled; auto.
Qed.

Lemma duplicate_spec (f f' : DataFrame) :
  RandomForest.duplicate_features E f = Ok f' ->
  unchanged_outside ["duplicate_claim_indicator"] f f' /\ duplicate_done f'.
Proof.
  unfold RandomForest.duplicate_features, duplicate_done.
  destruct (Nat.leb 2 _ && negb (has "duplicate_claim_indicator" f)) eqn:K.
  - intros Hb; frames. split; [assumption|]. intros _.
    eauto using assign_has.
  - intros Hb; injection Hb as <-. split; [apply unchanged_refl|].
    intros Hl; rewrite Hl in K. simpl in K.
    destruct (has "duplicate_claim_indicator" f); [reflexivity | discriminate].
Qed.

Lemma duplicate_settled (f : DataFrame) :
  duplicate_done f -> RandomForest.duplicate_features E f = Ok f.
Proof.
  unfold RandomForest.duplicate_features, duplicate_done.
  destruct (Nat.leb 2 _); [|reflexivity].
  intros Hd; rewrite (Hd eq_refl); reflexivity.
Qed.

End ClassifierBlocks.

Section ClassifierIdempotence.
#[local] Open Scope string_scope.
Variable E : Engine.

Ltac steps H :=
  repeat (let f := fresh "f" in
          let S := fresh "S" in
          apply bind_Ok in H as (f & S & H)).

Ltac carry :=
  repeat match goal with
    | U : unchanged_outside _ ?f ?f' |- context [has ?n ?f'] =>
        rewrite (unchanged_has _ f f' n U eq_refl)
    | U : unchanged_outside _ ?f ?f' |- context [get_col ?n ?f'] =>
        rewrite (U n eq_refl)
    end.

Ltac carry_in D :=
  repeat match type of D with
    | context [has ?n ?f'] =>
        match goal with
        | U : unchanged_outside _ ?f f' |- _ =>
            rewrite (unchanged_has _ f f' n U eq_refl) in D
        end
    | context [get_col ?n ?f'] =>
        match goal with
        | U : unchanged_outside _ ?f f' |- _ => rewrite (U n eq_refl) in D
        end
    end.

(** C6 (as amended), the classifier: on a table that carries both guard
    columns of each statistics merge or neither, [prepare_features]
    applied to its own output returns that output unchanged, columns and
    values: every engineered column is already present and is not derived
    again. *)
Theorem classifier_prepare_features_idempotent (df once : DataFrame) :
  merge_guards_paired df ->
  RandomForest.prepare_features E df = Ok once ->
  RandomForest.prepare_features E once = Ok once.
Proof.
  intros [Pprov Ppat] Hp. unfold RandomForest.prepare_features in Hp.
  cbv zeta in Hp. steps Hp. injection Hp as <-.
  apply temporal_spec in S as [U1 D1].
  apply financial_spec in S0 as [U2 D2].
  apply provider_spec in S1 as [U3 D3]; [|carry; exact Pprov].
  apply patient_spec in S2 as [U4 D4]; [|carry; exact Ppat].
  apply diagnosis_spec in S3 as [U5 D5].
  apply procedure_spec in S4 as [U6 D6].
  apply geographic_spec in S5 as [U7 D7].
  apply duplicate_spec in S6 as [U8 D8].
  unfold RandomForest.prepare_features; cbv zeta.
  rewrite temporal_settled; [|unfold temporal_done in *; carry; carry_in D1; exact D1].
  cbn [bind].
  rewrite financial_settled; [|unfold financial_done in *; carry; carry_in D2; exact D2].
  cbn [bind].
  rewrite provider_settled; [|unfold provider_done in *; carry; carry_in D3; exact D3].
  cbn [bind].
  rewrite patient_settled; [|unfold patient_done in *; carry; carry_in D4; exact D4].
  cbn [bind].
  rewrite diagnosis_settled; [|unfold diagnosis_done in *; carry; carry_in D5; exact D5].
  cbn [bind].
  rewrite procedure_settled; [|unfold procedure_done in *; carry; carry_in D6; exact D6].
  cbn [bind].
  rewrite geographic_settled; [|unfold geographic_done in *; carry; carry_in D7; exact D7].
  cbn [bind].
  rewrite duplicate_settled; [|exact D8].
  reflexivity.
Qed.

End ClassifierIdempotence.

Lemma two_claims_paired : merge_guards_paired Examples.two_claims.
Proof. split; intros _; reflexivity. Defined.

(** The idempotence theorem on two claims with date, amount, provider,
    patient and diagnosis: the first application adds 21 columns, the
    second none. *)
Lemma classifier_prepare_features_witness :
  exists once,
    RandomForest.prepare_features Examples.row_count_engine Examples.two_claims
    = Ok once /\
    List.length once = 26%nat /\
    RandomForest.prepare_features Examples.row_count_engine once = Ok once.
Proof.
  eexists.
  match goal with
  | |- ?run = Ok ?once /\ _ =>
      assert (H : run = Ok once) by (vm_compute; reflexivity)
  end.
  split; [exact H|]. split; [vm_compute; reflexivity|].
  exact (classifier_prepare_features_idempotent
           Examples.row_count_engine Examples.two_claims _ two_claims_paired H).
Defined.

(** C6, as stated, fails for the cluster detector and for the
    reconstruction detector, whatever the column computations left to
    pandas are.  On a table with the one numeric column [billed_units] =
    1, 2, 4 only the statistical block runs.  The cluster detector's first
    application adds [_zscore] and [_percentile] of that column; its
    second application adds the [_zscore] and [_percentile] of those two
    as well, four new columns.  The reconstruction detector's first
    application adds [_z_score] and [_is_outlier]; its second adds the
    [_z_score] and [_is_outlier] of the z-score column. *)
Lemma detectors_prepare_features_not_idempotent :
  exists once twice once' twice',
    (forall E,
        KMeans.prepare_features E Examples.units_only = Ok once /\
        KMeans.prepare_features E once = Ok twice /\
        Autoencoder.prepare_features E Examples.units_only = Ok once' /\
        Autoencoder.prepare_features E once' = Ok twice') /\
    map fst once
    = ["billed_units"; "billed_units_zscore"; "billed_units_percentile"]%string /\
    map fst twice
    = ["billed_units"; "billed_units_zscore"; "billed_units_percentile";
       "billed_units_zscore_zscore"; "billed_units_zscore_percentile";
       "billed_units_percentile_zscore"; "billed_units_percentile_percentile"]%string /\
    map fst once'
    = ["billed_units"; "billed_units_z_score"; "billed_units_is_outlier"]%string /\
    map fst twice'
    = ["billed_units"; "billed_units_z_score"; "billed_units_is_outlier";
       "billed_units_z_score_z_score"; "billed_units_z_score_is_outlier"]%string.
Proof.
  do 4 eexists. split.
  - intros E. repeat split; vm_compute; reflexivity.
  - repeat split; vm_compute; reflexivity.
Qed.

(** The condition of the idempotence theorem is needed: a table with
    [provider_claim_count] but without [provider_unique_patients] is
    merged with the provider statistics on each application, and each
    merge renames the columns both sides carry. *)
Lemma classifier_merges_again_on_unpaired_guards :
  exists once twice,
    RandomForest.prepare_features Examples.row_count_engine Examples.half_aggregated
    = Ok once /\
    RandomForest.prepare_features Examples.row_count_engine once = Ok twice /\
    has "provider_claim_count" once = false /\
    has "provider_avg_amount" once = true /\
    has "provider_avg_amount" twice = false /\
    has "provider_avg_amount_x" twice = true.
Proof.
  do 2 eexists. split; [vm_compute; reflexivity|].
  split; [vm_compute; reflexivity|].
  repeat split; vm_compute; reflexivity.
Qed.

(* ================================================================== *)
(** * Further properties of the combiner *)

Section CombinerMore.
Context {T : Type} `{Scalar T}.
Import Ensemble.

Lemma km_probability_inv (m : KMeans.FraudDetectionKMeans T) X v :
  KMeans.predict_fraud_probability m X = Ok v ->
  KMeans.is_trained m = true /\ KMeans.fraud_clusters m <> [] /\
  KMeans.cluster_fraud_rates m <> None /\ len X <> O.
Proof.
  unfold KMeans.predict_fraud_probability.
  destruct (KMeans.fraud_clusters m) as [|c cs]; [discriminate|].
  intros Hb; apply bind_Ok in Hb as (labels & Hp & Hm).
  apply km_predict_inv in Hp as (Ht & Hn & ->).
  repeat split; auto; [discriminate|].
  destruct (rows_nonempty X Hn) as (n & Hr). rewrite Hr in Hm; simpl in Hm.
  destruct (KMeans.cluster_fraud_rates m); [discriminate | discriminate Hm].
Qed.

(** X1: [predict] returns only when the ensemble and its three adapters are
    trained, the detector has a threshold, the cluster model has fraud
    clusters and stored rates, and the table has a row. *)
Theorem predict_returns_only_when_ready
        (self : FraudDetectionEnsemble T) (X : DataFrame) (r : list Z * list T) :
  predict self X = Ok r -> adapters_ready self X.
Proof.
  intros Hp. unfold predict in Hp.
  destruct (is_trained self) eqn:Et; simpl in Hp; [|discriminate].
  apply bind_Ok in Hp as (rf_proba & Prf & Hp).
  apply bind_Ok in Hp as ([ae_pred ae_scores] & Pae & Hp).
  apply bind_Ok in Hp as (ae_proba & Pmm & Hp).
  apply bind_Ok in Hp as (kmeans_proba & Pkm & Hp).
  apply rf_predict_inv in Prf as (Hrf & Hn & _).
  apply ae_predict_inv in Pae as (t & Hae & Hthr & _).
  apply km_probability_inv in Pkm as (Hkm & Hfc & Hr & _).
  repeat split; auto. rewrite Hthr; discriminate.
Qed.

(** Under 'majority' and 'unanimous' the weights are never read. *)
Lemma predict_ignores_weights (self : FraudDetectionEnsemble T)
      (w : Weights T) (X : DataFrame) :
  voting_method self <> weighted ->
  predict (with_weights self w) X = predict self X.
Proof.
  intros Hv; unfold predict; simpl.
  destruct (voting_method self); [congruence | reflexivity | reflexivity].
Qed.

Lemma search_constant (self : FraudDetectionEnsemble T) X_val y_val
      (candidates : list (Weights T)) (s : Q) :
  (forall w, In w candidates -> trial_f1 self X_val y_val w = Ok s) ->
  forall best_f1 best_weights,
    search self X_val y_val candidates best_f1 best_weights
    = Ok (match candidates with
          | [] => (best_f1, best_weights)
          | first :: _ => if Qltb best_f1 s then (s, first) else (best_f1, best_weights)
          end).
Proof.
  induction candidates as [|c rest IH]; intros Hs b bw; simpl; [reflexivity|].
  rewrite (Hs c (or_introl eq_refl)); simpl.
  assert (Hrest : forall w, In w rest -> trial_f1 self X_val y_val w = Ok s)
    by (intros w Hw; apply Hs; right; exact Hw).
  destruct (Qltb b s) eqn:Eb.
  - rewrite (IH Hrest). destruct rest; [reflexivity|].
    assert (Qltb s s = false) by (apply Qltb_false; apply Qle_refl).
    rewrite H0; reflexivity.
  - rewrite (IH Hrest). destruct rest; [reflexivity|]. rewrite Eb; reflexivity.
Qed.

(** X2: Under 'majority' and 'unanimous' every candidate of the weight search
    gets the same score, so a search that returns keeps the weights it
    started with or installs the very first candidate of the grid. *)
Theorem optimize_weights_under_votes_keeps_old_or_first
        (self self' : FraudDetectionEnsemble T) (X_val : DataFrame)
        (y_val : list Z) (n_trials : nat) :
  voting_method self <> weighted ->
  _optimize_weights self X_val y_val n_trials = Ok self' ->
  weights self' = weights self \/
  Some (weights self') = hd_error weight_combinations.
Proof.
  intros Hv. unfold _optimize_weights.
  intros Hb; apply bind_Ok in Hb as ([r rw] & Hs & Hb). injection Hb as <-.
  simpl. destruct (firstn n_trials weight_combinations) as [|c rest] eqn:Ec.
  - simpl in Hs. injection Hs as _ <-. left; reflexivity.
  - assert (Hc : hd_error (weight_combinations (T:=T)) = Some c).
    { destruct n_trials; [discriminate|].
      destruct (weight_combinations (T:=T)); [discriminate|].
      simpl in Ec. injection Ec as -> _. reflexivity. }
    pose proof Hs as Hs'. simpl in Hs'.
    apply bind_Ok in Hs' as (s & Hc1 & _).
    assert (Hall : forall w, In w (c :: rest) -> trial_f1 self X_val y_val w = Ok s).
    { intros w _. unfold trial_f1 in *.
      rewrite (predict_ignores_weights self w X_val Hv).
      rewrite (predict_ignores_weights self c X_val Hv) in Hc1. exact Hc1. }
    rewrite (search_constant self X_val y_val (c :: rest) s Hall) in Hs.
    destruct (Qltb 0 s); injection Hs as _ <-; [right | left]; congruence.
Qed.

End CombinerMore.

(** The trained example ensemble answers on a one-row table, so it
    meets every condition. *)
Lemma predict_returns_only_when_ready_witness :
  adapters_ready Examples.ensemble_at_half Examples.one_row.
Proof.
  apply (predict_returns_only_when_ready
           Examples.ensemble_at_half Examples.one_row ([0%Z], [0.5%float])).
  vm_compute; reflexivity.
Defined.

Lemma optimize_weights_under_votes_witness :
  exists self',
    Ensemble._optimize_weights (Examples.ensemble_two_votes Ensemble.majority)
                               Examples.two_rows [1%Z; 0%Z] 50 = Ok self' /\
    (Ensemble.weights self'
     = Ensemble.weights (Examples.ensemble_two_votes Ensemble.majority) \/
     Some (Ensemble.weights self') = hd_error Ensemble.weight_combinations).
Proof.
  eexists.
  refine ((fun E => conj E
             (optimize_weights_under_votes_keeps_old_or_first
                (Examples.ensemble_two_votes Ensemble.majority) _
                Examples.two_rows [1%Z; 0%Z] 50 _ E)) _).
  - discriminate.
  - vm_compute; reflexivity.
Defined.

(* ================================================================== *)
(** * Further properties in exact arithmetic *)

Section ExactMore.
Import Ensemble.

Lemma Forall_map_pair {A B C : Type} (f : A -> B) (g : A -> C)
      (R : B -> C -> Prop) (l : list A) :
  Forall (fun a => R (f a) (g a)) l -> Forall2 R (map f l) (map g l).
Proof. induction 1; simpl; constructor; auto. Qed.

Lemma vote_share_cases (a b c : Z) :
  binary a -> binary b -> binary c ->
  (astype_int (2 <=? a + b + c)%Z = 1%Z <-> 1 # 2 < div (of_Z (a + b + c)) (lit 3)) /\
  (div (of_Z (a + b + c)) (lit 3) == 0 \/ div (of_Z (a + b + c)) (lit 3) == 1 # 3 \/
   div (of_Z (a + b + c)) (lit 3) == 2 # 3 \/ div (of_Z (a + b + c)) (lit 3) == 1).
Proof.
  intros [->| ->] [->| ->] [->| ->];
    (split;
     [ split; intros Hx; vm_compute in Hx |- *; congruence
     | solve [ left; vm_compute; reflexivity
             | right; left; vm_compute; reflexivity
             | right; right; left; vm_compute; reflexivity
             | right; right; right; vm_compute; reflexivity ] ]).
Qed.

(** X3: Under 'majority' the reported probability is the share of the three
    votes, one of 0, 1/3, 2/3, 1, and a row is labelled 1 exactly when
    that share is above one half. *)
Theorem majority_label_follows_vote_share
        (self : FraudDetectionEnsemble Q) (X : DataFrame)
        (labels : list Z) (proba : list Q) :
  voting_method self = majority ->
  predict self X = Ok (labels, proba) ->
  Forall2 (fun l p => (l = 1%Z <-> 1 # 2 < p) /\
                      (p == 0 \/ p == 1 # 3 \/ p == 2 # 3 \/ p == 1))
          labels proba.
Proof.
  intros Hv Hp. unfold predict in Hp.
  destruct (is_trained self); simpl in Hp; [|discriminate].
  apply bind_Ok in Hp as (rf_proba & _ & Hp).
  apply bind_Ok in Hp as ([ae_pred ae_scores] & Pae & Hp).
  apply bind_Ok in Hp as (ae_proba & _ & Hp).
  apply bind_Ok in Hp as (kmeans_proba & _ & Hp).
  rewrite Hv in Hp. injection Hp as <- <-.
  apply ae_predict_inv in Pae as (t & _ & _ & _ & _ & ->).
  apply Forall_map_pair.
  apply Forall_zip3With with (P := binary) (P' := binary) (P'' := binary).
  - intros a b c Ha Hb Hc. apply vote_share_cases; assumption.
  - apply above_half_votes.
  - apply detector_votes.
  - apply above_half_votes.
Qed.

Lemma majority_vote_share_witness :
  Forall2 (fun l p => (l = 1%Z <-> 1 # 2 < p) /\
                      (p == 0 \/ p == 1 # 3 \/ p == 2 # 3 \/ p == 1))
          [1%Z; 1%Z] [3 # 3; 3 # 3].
Proof.
  apply (majority_label_follows_vote_share
           (Examples.ensemble_exact majority) Examples.two_rows [1%Z; 1%Z] [3 # 3; 3 # 3]).
  - reflexivity.
  - vm_compute; reflexivity.
Defined.

End ExactMore.

Section ExactCombiner.
Import Ensemble.

(** X4: A request with a single claim: the min-max normalisation maps the one
    reconstruction error to 0, so under 'weighted' the reported
    probability is made of the forest's and the cluster model's shares
    only, whatever the detector measured. *)
Theorem single_claim_score_leaves_out_the_detector
        (self : FraudDetectionEnsemble Q) (X : DataFrame)
        (labels : list Z) (proba : list Q) :
  len X = 1%nat ->
  voting_method self = weighted ->
  predict self X = Ok (labels, proba) ->
  exists rates p,
    KMeans.cluster_fraud_rates (kmeans_model self) = Some rates /\
    proba = [p] /\ labels = [above_half p] /\
    p == rf (weights self) * RandomForest.predict_proba (rf_model self) X 0
         + kmeans (weights self)
           * rate_of rates (KMeans.assign (kmeans_model self) X 0).
Proof.
  intros Hlen Hv Hp. unfold predict in Hp.
  destruct (is_trained self); simpl in Hp; [|discriminate].
  apply bind_Ok in Hp as (rf_proba & Prf & Hp).
  apply bind_Ok in Hp as ([ae_pred ae_scores] & Pae & Hp).
  apply bind_Ok in Hp as (ae_proba & Pmm & Hp).
  apply bind_Ok in Hp as (kmeans_proba & Pkm & Hp).
  rewrite Hv in Hp. injection Hp as <- <-.
  apply rf_predict_inv in Prf as (_ & Hn & ->).
  apply ae_predict_inv in Pae as (t & _ & _ & _ & -> & _).
  pose proof (km_probability_inv _ _ _ Pkm) as (Ht & Hf & Hr & _).
  destruct (KMeans.cluster_fraud_rates (kmeans_model self)) as [rates|] eqn:Er;
    [|congruence].
  rewrite (km_probability_ok _ X rates Ht Hf Er Hn) in Pkm. injection Pkm as <-.
  unfold rows in *. rewrite Hlen in *. simpl in Pmm |- *.
  cbv [min_max_normalize array_min array_max bind fold_left map] in Pmm.
  injection Pmm as <-. simpl.
  exists rates. eexists. split; [reflexivity|]. split; [reflexivity|].
  split; [reflexivity|].
  unfold weighted_sum; scalar_Q.
  set (e := Autoencoder.reconstruction_error (ae_model self) X 0).
  assert (Hz : (e - e) / (e - e + (1 # 100000000)) == 0).
  { unfold Qdiv. assert (E : e - e == 0) by ring. rewrite E. ring. }
  rewrite Hz. ring.
Qed.

Lemma single_claim_score_witness :
  exists rates p,
    KMeans.cluster_fraud_rates (kmeans_model (Examples.ensemble_exact weighted))
    = Some rates /\
    [weighted_sum (T:=Q) default_weights (6 # 10) ((2 - 2) / (2 - 2 + (1 # 100000000))) (6 # 10)]
    = [p] /\
    [above_half (weighted_sum (T:=Q) default_weights (6 # 10)
                              ((2 - 2) / (2 - 2 + (1 # 100000000))) (6 # 10))]
    = [above_half p] /\
    p == rf (weights (Examples.ensemble_exact weighted))
         * RandomForest.predict_proba (rf_model (Examples.ensemble_exact weighted))
                                      Examples.one_row 0
         + kmeans (weights (Examples.ensemble_exact weighted))
           * rate_of rates (KMeans.assign (kmeans_model (Examples.ensemble_exact weighted))
                                          Examples.one_row 0).
Proof.
  apply (single_claim_score_leaves_out_the_detector
           (Examples.ensemble_exact weighted) Examples.one_row).
  - reflexivity.
  - reflexivity.
  - vm_compute; reflexivity.
Defined.

Lemma first_maximum_In {T : Type} (score : Weights T -> Q)
      (candidates : list (Weights T)) (w : Weights T) :
  first_maximum score candidates w -> In w candidates.
Proof.
  intros (before & after & -> & _). apply in_or_app; right; left; reflexivity.
Qed.

Lemma In_firstn_In {A : Type} (n : nat) (l : list A) (x : A) :
  In x (firstn n l) -> In x l.
Proof.
  revert l; induction n as [|n IH]; intros [|a l]; simpl; try tauto.
  intros [->|Hx]; auto.
Qed.

(** The thirteen candidates of the grid, as binary64 computes them. *)
Lemma candidates_nearly_normalized :
  forallb nearly_normalized weight_combinations = true.
Proof. vm_compute; reflexivity. Qed.

(** X6: On binary64, the arithmetic the code runs on, the weight search
    keeps the invariant of the weights up to one rounding: started from
    non-negative weights whose sum is 1.0 or the float next below it, it
    ends, when it returns, with such weights again, for every number of
    trials, and it changes nothing else of the ensemble. *)
Theorem optimize_weights_keeps_weights_nearly_normalized
        (self self' : FraudDetectionEnsemble float) (X_val : DataFrame)
        (y_val : list Z) (n_trials : nat) :
  nearly_normalized (weights self) = true ->
  _optimize_weights self X_val y_val n_trials = Ok self' ->
  nearly_normalized (weights self') = true /\
  rf_model self' = rf_model self /\ ae_model self' = ae_model self /\
  kmeans_model self' = kmeans_model self /\
  voting_method self' = voting_method self /\
  is_trained self' = is_trained self.
Proof.
  intros Hw. unfold _optimize_weights.
  intros Hb; apply bind_Ok in Hb as ([r rw] & Hs & Hb). injection Hb as <-.
  simpl. split; [|repeat split].
  apply search_outcome in Hs as [_ [(_ & _ & ->)|(_ & _ & Hfm)]]; [exact Hw|].
  apply first_maximum_In in Hfm. apply In_firstn_In in Hfm.
  exact (proj1 (forallb_forall _ _) candidates_nearly_normalized rw Hfm).
Qed.

(** The search on a two-row table, started from the default weights. *)
Lemma optimize_weights_nearly_normalized_witness :
  exists self',
    _optimize_weights Examples.ensemble_alarmed Examples.two_rows
                      [0%Z; 1%Z] default_n_trials = Ok self' /\
    nearly_normalized (weights self') = true.
Proof.
  eexists.
  refine ((fun E => conj E
             (proj1 (optimize_weights_keeps_weights_nearly_normalized
                       Examples.ensemble_alarmed _
                       Examples.two_rows [0%Z; 1%Z] default_n_trials
                       eq_refl E))) _).
  vm_compute; reflexivity.
Defined.

(** The bound is met: two candidates of the grid sum to
    0.9999999999999999 on binary64, and the search installs any candidate
    as it is. *)
Lemma grid_candidates_below_one :
  List.length
    (filter (fun w => PrimFloat.ltb
                        (0 + rf w + ae w + kmeans w)%float 1%float)
            (weight_combinations (T:=float))) = 2%nat.
Proof. vm_compute; reflexivity. Qed.

End ExactCombiner.

(* ================================================================== *)
(** * Further properties of the cluster detector *)

Section ClusterRates.
Context {T : Type} `{Scalar T}.

Lemma insert_unique_In (x y : Z) (l : list Z) :
  In x (insert_unique y l) <-> x = y \/ In x l.
Proof.
  induction l as [|z l IH]; simpl; [intuition|].
  destruct (Z.ltb_spec y z); simpl; [intuition|].
  destruct (Z.eqb_spec y z) as [->|Hne]; simpl; [intuition|].
  rewrite IH; intuition.
Qed.

Lemma unique_In (x : Z) (l : list Z) : In x (unique l) <-> In x l.
Proof.
  induction l as [|y l IH]; simpl; [reflexivity|].
  rewrite insert_unique_In, IH; intuition.
Qed.

Lemma get_keyed (f : Z -> T) (c : Z) (keys : list Z) :
  In c keys -> KMeans.get c (map (fun k => (k, f k)) keys) = Some (f c).
Proof.
  induction keys as [|k keys IH]; simpl; [intros []|].
  destruct (Z.eqb_spec c k) as [->|Hne]; [reflexivity|].
  intros [->|Hc]; [congruence | auto].
Qed.

Lemma identify_inv (self self' : KMeans.FraudDetectionKMeans T) (X : DataFrame)
      (y : list Z) (threshold_percentile : T) :
  KMeans.identify_fraud_clusters self X y threshold_percentile = Ok self' ->
  let cluster_labels := map (KMeans.assign self X) (rows X) in
  let rates :=
    map (fun cluster_id => (cluster_id, KMeans.fraud_rate cluster_id cluster_labels y))
        (unique cluster_labels) in
  exists fraud_rate_threshold,
    KMeans.is_trained self = true /\ len X <> O /\
    List.length y = List.length cluster_labels /\
    percentile (map snd rates) threshold_percentile = Ok fraud_rate_threshold /\
    self' = {| KMeans.is_trained := true;
               KMeans.assign := KMeans.assign self;
               KMeans.fraud_clusters :=
                 map fst (filter (fun kv => leb fraud_rate_threshold (snd kv)) rates);
               KMeans.cluster_fraud_rates := Some rates |}.
Proof.
  unfold KMeans.identify_fraud_clusters.
  destruct (KMeans.is_trained self) eqn:Et; simpl; [|discriminate].
  intros Hb; apply bind_Ok in Hb as (labels & Hp & Hb).
  apply km_predict_inv in Hp as (_ & Hn & ->).
  destruct (Nat.eqb_spec (List.length y)
                         (List.length (map (KMeans.assign self X) (rows X))))
    as [Hl|Hl]; simpl in Hb; [|discriminate].
  apply bind_Ok in Hb as (thr & Hthr & Hb). injection Hb as <-.
  exists thr. auto.
Qed.

Lemma identify_then_probability
      (self self' : KMeans.FraudDetectionKMeans T) (X : DataFrame)
      (y : list Z) (threshold_percentile : T) :
  KMeans.identify_fraud_clusters self X y threshold_percentile = Ok self' ->
  KMeans.fraud_clusters self' <> [] ->
  KMeans.predict_fraud_probability self' X
  = Ok (map (fun i => KMeans.fraud_rate (KMeans.assign self X i)
                                        (map (KMeans.assign self X) (rows X)) y)
            (rows X)).
Proof.
  intros Hi Hf. pose proof (identify_inv _ _ _ _ _ Hi) as (thr & Ht & Hn & _ & _ & E).
  rewrite (km_probability_ok self' X _ (f_equal KMeans.is_trained E) Hf
             (f_equal KMeans.cluster_fraud_rates E) Hn).
  rewrite E; simpl. rewrite map_map. f_equal.
  apply map_ext_in. intros i Hi'. unfold rate_of.
  rewrite get_keyed; [reflexivity|].
  apply unique_In. apply in_map. exact Hi'.
Qed.

End ClusterRates.

Section ClusterRatesExact.

Lemma identify_fraud_clusters_nonempty
      (self self' : KMeans.FraudDetectionKMeans Q) (X : DataFrame)
      (y : list Z) (threshold_percentile : Q) :
  KMeans.identify_fraud_clusters self X y threshold_percentile = Ok self' ->
  KMeans.fraud_clusters self' <> [].
Proof.
  intros Hi. pose proof (identify_inv _ _ _ _ _ Hi) as (thr & _ & _ & _ & Hthr & ->).
  simpl.
  apply percentile_below_some_element in Hthr as (x & Hx & Hle).
  apply in_map_iff in Hx as (kv & <- & Hkv).
  match goal with |- map fst (filter ?p ?l) <> [] =>
    assert (Hin : In kv (filter p l));
    [ apply filter_In; split; [exact Hkv|]; scalar_Q; apply Qle_bool_iff; exact Hle
    | destruct (filter p l); [destruct Hin | discriminate] ]
  end.
Qed.

(** X7: In exact arithmetic, once [identify_fraud_clusters(X, y)] has
    returned, [predict_fraud_probability] on the same table returns, and
    gives every row the fraud rate of the cluster it is assigned to, as
    computed from [X] and [y]: the default 0 for a cluster without a
    stored rate is not used for any row of that table. *)
Theorem identified_rates_are_reported_on_the_same_table
        (self self' : KMeans.FraudDetectionKMeans Q) (X : DataFrame)
        (y : list Z) (threshold_percentile : Q) :
  KMeans.identify_fraud_clusters self X y threshold_percentile = Ok self' ->
  KMeans.predict_fraud_probability self' X
  = Ok (map (fun i => KMeans.fraud_rate (KMeans.assign self X i)
                                        (map (KMeans.assign self X) (rows X)) y)
            (rows X)).
Proof.
  intros Hi. apply identify_then_probability with (threshold_percentile := threshold_percentile).
  - exact Hi.
  - apply (identify_fraud_clusters_nonempty _ _ _ _ _ Hi).
Qed.

Lemma identified_rates_witness :
  exists self',
    KMeans.identify_fraud_clusters
      (T:=Q) Examples.clusters_unlabelled Examples.two_rows [1%Z; 0%Z] 90 = Ok self' /\
    KMeans.predict_fraud_probability self' Examples.two_rows
    = Ok (map (fun i => KMeans.fraud_rate
                          (KMeans.assign (T:=Q) Examples.clusters_unlabelled
                                         Examples.two_rows i)
                          (map (KMeans.assign (T:=Q) Examples.clusters_unlabelled
                                              Examples.two_rows)
                               (rows Examples.two_rows))
                          [1%Z; 0%Z])
              (rows Examples.two_rows)).
Proof.
  eexists.
  refine ((fun E => conj E
             (identified_rates_are_reported_on_the_same_table
                Examples.clusters_unlabelled _ Examples.two_rows [1%Z; 0%Z] 90 E)) _).
  vm_compute; reflexivity.
Defined.

(** X8: In exact arithmetic, whatever percentile is asked for, every fraud
    cluster [identify_fraud_clusters] stores is a cluster some row of the
    table is assigned to, and a cluster whose fraud rate is the highest
    among the clusters of the table is always stored as a fraud cluster. *)
Theorem highest_rate_cluster_is_a_fraud_cluster
        (self self' : KMeans.FraudDetectionKMeans Q) (X : DataFrame)
        (y : list Z) (threshold_percentile : Q) :
  KMeans.identify_fraud_clusters self X y threshold_percentile = Ok self' ->
  let cluster_labels := map (KMeans.assign self X) (rows X) in
  (forall c, In c (KMeans.fraud_clusters self') -> In c cluster_labels) /\
  (forall c, In c cluster_labels ->
             (forall c', In c' cluster_labels ->
                         KMeans.fraud_rate c' cluster_labels y
                         <= KMeans.fraud_rate c cluster_labels y) ->
             In c (KMeans.fraud_clusters self')).
Proof.
  intros Hi. pose proof (identify_inv _ _ _ _ _ Hi) as (thr & _ & _ & _ & Hthr & ->).
  simpl. split.
  - intros c Hc. apply in_map_iff in Hc as ([k v] & <- & Hkv).
    apply filter_In in Hkv as [Hkv _].
    apply in_map_iff in Hkv as (k' & E & Hk'). injection E as <- _.
    apply (proj1 (unique_In _ _)) in Hk'. exact Hk'.
  - intros c Hc Hmax.
    apply percentile_below_some_element in Hthr as (x & Hx & Hle).
    apply in_map_iff in Hx as ([k v] & <- & Hkv).
    apply in_map_iff in Hkv as (k' & E & Hk'). injection E as <- <-.
    apply (proj1 (unique_In _ _)) in Hk'. simpl in Hle.
    apply in_map_iff.
    exists (c, KMeans.fraud_rate c (map (KMeans.assign self X) (rows X)) y).
    split; [reflexivity|]. apply filter_In. split.
    + apply in_map_iff. exists c. split; [reflexivity|]. apply unique_In; exact Hc.
    + simpl. scalar_Q. apply Qle_bool_iff.
      eapply Qle_trans; [exact Hle|]. apply Hmax; exact Hk'.
Qed.

Lemma highest_rate_cluster_witness :
  exists self',
    KMeans.identify_fraud_clusters
      (T:=Q) Examples.clusters_unlabelled Examples.two_rows [1%Z; 0%Z] 90 = Ok self' /\
    In 0%Z (KMeans.fraud_clusters self').
Proof.
  eexists.
  refine ((fun E => conj E
             (proj2 (highest_rate_cluster_is_a_fraud_cluster
                       Examples.clusters_unlabelled _ Examples.two_rows
                       [1%Z; 0%Z] 90 E) 0%Z _ _)) _).
  - vm_compute; auto.
  - intros c' Hc'. vm_compute in Hc'.
    destruct Hc' as [<-|[<-|[]]]; vm_compute; discriminate.
  - vm_compute; reflexivity.
Defined.

End ClusterRatesExact.

(* ================================================================== *)
(** * The reconstruction detector on its own training table *)

Section DetectorOnTrainingTable.
Variable RNG : Type.
Variable fit : RNG -> DataFrame -> (DataFrame -> nat -> Q) * RNG.

Lemma lerp_above_smaller (a b t : Q) :
  0 <= t -> t <= 1 -> a <= lerp a b t \/ b <= lerp a b t.
Proof.
  intros H0 H1; unfold lerp; scalar_Q.
  destruct (Qlt_le_dec a b) as [Hab|Hba].
  - left. destruct (Qle_bool (1 # 2) t).
    + pose proof (Qmult_le_compat_r (1 - t) 1 (b - a)) as Hm.
      assert ((1 - t) * (b - a) <= 1 * (b - a)) by (apply Hm; lra).
      rewrite (Qmult_comm (b - a) (1 - t)). lra.
    + assert (0 <= (b - a) * t) by (apply Qmult_le_0_compat; lra). lra.
  - right. destruct (Qle_bool (1 # 2) t).
    + assert (E : (b - a) * (1 - t) == - ((a - b) * (1 - t))) by ring.
      assert (0 <= (a - b) * (1 - t)) by (apply Qmult_le_0_compat; lra).
      rewrite E. lra.
    + pose proof (Qmult_le_compat_r t 1 (a - b) H1) as Hm.
      assert (E : (b - a) * t == - (t * (a - b))) by ring.
      assert (t * (a - b) <= 1 * (a - b)) by (apply Hm; lra).
      rewrite E. lra.
Qed.

(** A percentile is never below every element it is taken over. *)
Lemma percentile_above_some_element (l : list Q) (q t : Q) :
  percentile l q = Ok t -> exists x, In x l /\ x <= t.
Proof.
  unfold percentile.
  destruct (leb (lit 0) q && leb q (lit 100)) eqn:Eq; simpl; [|discriminate].
  apply andb_true_iff in Eq as [Q0 Q100].
  cbn [leb lit Scalar_Q] in Q0, Q100.
  apply Qle_bool_iff in Q0, Q100.
  destruct (sort l) as [|x0 s'] eqn:Es; [discriminate|].
  intros E; injection E as <-.
  set (s := x0 :: s') in *.
  set (v := of_nat (List.length s - 1) * (q / 100)).
  assert (Hv : 0 <= v).
  { unfold v, of_nat, of_Z; cbn [lit Scalar_Q]. apply Qmult_le_0_compat.
    - change 0 with (inject_Z 0); rewrite <- Zle_Qle; lia.
    - apply Qle_shift_div_l; lra. }
  destruct (fractional_part v Hv) as [G0 G1].
  assert (Hx0 : In x0 s) by (left; reflexivity).
  destruct (lerp_above_smaller
              (nth (Z.to_nat (Qfloor v)) s x0)
              (nth (Nat.min (Z.to_nat (Qfloor v) + 1) (List.length s - 1)) s x0)
              (v - of_nat (Z.to_nat (Qfloor v))) G0 G1) as [Hle|Hle];
    eexists; (split; [|exact Hle]);
    apply sort_In; rewrite Es; apply nth_In_default; exact Hx0.
Qed.

Lemma nth_map_rows {A : Type} (f : nat -> A) (n i : nat) (d : A) :
  (i < n)%nat -> nth i (map f (seq 0 n)) d = f i.
Proof.
  intros Hi. rewrite (nth_indep _ d (f O)) by (rewrite length_map, length_seq; exact Hi).
  rewrite map_nth, seq_nth by exact Hi. reflexivity.
Qed.

(** X9: In exact arithmetic, a detector that has just been trained on a
    table and is asked about the same table returns, and never flags a
    row whose reconstruction error is the lowest of the table: the stored
    95th percentile is not below every training error. *)
Theorem detector_clears_the_best_reconstructed_training_row
        (self self' : Autoencoder.FraudDetectionAutoencoder Q)
        (g g' : RNG) (X : DataFrame) :
  Autoencoder.train RNG fit self g X = Ok (self', g') ->
  exists labels errors,
    Autoencoder.predict self' X = Ok (labels, errors) /\
    forall i, (i < len X)%nat ->
              (forall j, (j < len X)%nat -> nth i errors 0 <= nth j errors 0) ->
              nth i labels 1%Z = 0%Z.
Proof.
  intros Ht.
  assert (Hn : len X <> O).
  { unfold Autoencoder.train in Ht. apply bind_Ok in Ht as (u & Hc & _).
    apply check_array_inv in Hc. exact Hc. }
  destruct (train_inv RNG fit self self' g g' X Ht) as (t & Hp & Hthr & Hm & Htr & _).
  rewrite (ae_predict_ok self' X t Htr Hthr Hn). rewrite Hm.
  do 2 eexists. split; [reflexivity|].
  intros i Hi Hmin. unfold rows in *. rewrite map_map.
  rewrite nth_map_rows by exact Hi.
  apply percentile_above_some_element in Hp as (x & Hx & Hle).
  apply in_map_iff in Hx as (j & <- & Hj). apply in_seq in Hj.
  assert (Hj' : (j < len X)%nat) by lia.
  specialize (Hmin j Hj'). rewrite !nth_map_rows in Hmin by assumption.
  assert (E : ltb t (fst (fit g X) X i) = false).
  { scalar_Q. apply Qltb_false. eapply Qle_trans; eassumption. }
  rewrite E. reflexivity.
Qed.

End DetectorOnTrainingTable.

(* ================================================================== *)
(** * Training and evaluation *)

Section TrainingResults.
Context {T : Type} `{Scalar T}.
Variable roc_auc_score : list Z -> list T -> result T.
Variable confusion_matrix : list Z -> list Z -> result (list (list Z)).
Variable np_mean : list T -> T.
Variable np_std : list T -> T.
Variable n_clusters : KMeans.FraudDetectionKMeans T -> nat.
Variable train_test_split :
  DataFrame -> list Z -> result (DataFrame * DataFrame * list Z * list Z).
Variable RandomForestMetrics : Type.
Variable rf_train :
  RandomForest.FraudDetectionRandomForest T -> DataFrame -> list Z ->
  result (RandomForest.FraudDetectionRandomForest T * RandomForestMetrics).
Variable kmeans_train :
  KMeans.FraudDetectionKMeans T -> DataFrame -> result (KMeans.FraudDetectionKMeans T).
Variable boolean_index : DataFrame -> list bool -> result DataFrame.
Variable RNG : Type.
Variable fit : RNG -> DataFrame -> (DataFrame -> nat -> T) * RNG.

(** A chain raises when each of its continuations does. *)
Lemma bind_raises {A B : Type} (r : result A) (k : A -> result B) :
  (forall a, r = Ok a -> exists e, k a = Raise e) ->
  exists e, bind r k = Raise e.
Proof.
  destruct r as [a|e]; simpl; intros Hk; [apply Hk; reflexivity | eauto].
Qed.

Lemma optimize_weights_is_trained (self self' : Ensemble.FraudDetectionEnsemble T)
      X_val y_val n_trials :
  Ensemble._optimize_weights self X_val y_val n_trials = Ok self' ->
  Ensemble.is_trained self' = Ensemble.is_trained self.
Proof.
  unfold Ensemble._optimize_weights.
  intros Hb; apply bind_Ok in Hb as ([r rw] & _ & Hb). injection Hb as <-. reflexivity.
Qed.

Lemma evaluate_untrained (self : Ensemble.FraudDetectionEnsemble T) X_test y_test :
  Ensemble.is_trained self = false ->
  Training.evaluate roc_auc_score confusion_matrix self X_test y_test
  = Raise (ValueError "Ensemble must be trained before evaluation").
Proof. intros Ht; unfold Training.evaluate; rewrite Ht; reflexivity. Qed.

(** X10: [FraudDetectionEnsemble.train] sets [is_trained] in its last lines,
    after it has called [_optimize_weights] and [evaluate], and both
    refuse an ensemble that is not trained: on an ensemble whose
    [is_trained] is false, as [__init__] leaves it, [train] raises,
    whatever the data, the split, the adapters' training and the flag
    [optimize_weights] are. *)
Theorem ensemble_train_raises_on_an_untrained_ensemble
        (self : Ensemble.FraudDetectionEnsemble T) (g : RNG)
        (X : DataFrame) (y : list Z) (optimize_weights : bool) :
  Ensemble.is_trained self = false ->
  exists e,
    Training.train roc_auc_score confusion_matrix np_mean np_std n_clusters
                   train_test_split RandomForestMetrics rf_train kmeans_train
                   boolean_index RNG fit self g X y optimize_weights
    = Raise e.
Proof.
  intros Ht. unfold Training.train.
  apply bind_raises; intros [[[X_train X_val] y_train] y_val] _.
  apply bind_raises; intros [rf_model rf_metrics] _.
  apply bind_raises; intros normal_data _.
  apply bind_raises; intros [ae_model g1] _.
  apply bind_raises; intros ae_metrics _.
  apply bind_raises; intros km1 _.
  apply bind_raises; intros km2 _.
  apply bind_raises; intros [km3 kmeans_eval_metrics] _.
  apply bind_raises; intros self2 Hopt.
  assert (Hu : Ensemble.is_trained self2 = false).
  { destruct optimize_weights.
    - apply optimize_weights_is_trained in Hopt. rewrite Hopt. exact Ht.
    - injection Hopt as <-. exact Ht. }
  rewrite (evaluate_untrained self2 X_val y_val Hu). simpl. eauto.
Qed.

Lemma km_probability_raises_without_rates
      (m : KMeans.FraudDetectionKMeans T) (X : DataFrame) :
  KMeans.cluster_fraud_rates m = None ->
  exists e, KMeans.predict_fraud_probability m X = Raise e.
Proof.
  intros Hr. destruct (KMeans.predict_fraud_probability m X) as [v|e] eqn:Ep; [|eauto].
  apply km_probability_inv in Ep as (_ & _ & Hne & _). congruence.
Qed.

(** X11: [FraudDetectionKMeans.evaluate] on a detector whose fraud clusters
    were never identified announces that it uses all clusters instead,
    but then asks [predict_fraud_probability] for the per-cluster rates
    that only [identify_fraud_clusters] stores: the call raises on every
    table and every label vector. *)
Theorem kmeans_evaluate_raises_before_identification
        (self : KMeans.FraudDetectionKMeans T) (X_test : DataFrame) (y_test : list Z) :
  KMeans.fraud_clusters self = [] ->
  KMeans.cluster_fraud_rates self = None ->
  exists e,
    Training.kmeans_evaluate roc_auc_score confusion_matrix n_clusters self X_test y_test
    = Raise e.
Proof.
  intros Hf Hr. unfold Training.kmeans_evaluate. rewrite Hf.
  apply bind_raises; intros cluster_labels _.
  apply bind_raises; intros [[[acc p] r] f1] _.
  apply bind_raises; intros cm _.
  destruct (km_probability_raises_without_rates
              (Training.with_all_clusters n_clusters self) X_test Hr) as (e & He).
  rewrite He. simpl. eauto.
Qed.

End TrainingResults.

(* ================================================================== *)
(** * The number of clusters *)

Section ClusterCountResults.
Context {T : Type} `{Scalar T}.
Variable Matrix : Type.
Variable fit_and_score : Matrix -> nat -> result (ClusterCount.Scores T).
Import ClusterCount.

Lemma diff_length (a : list T) : List.length (diff a) = (List.length a - 1)%nat.
Proof.
  induction a as [|x [|y rest] IH]; simpl in *; try reflexivity.
  rewrite IH. lia.
Qed.

Lemma scan_bound (better : T -> T -> bool) (a : list T) :
  forall best best_i i,
    (best_i < i)%nat -> (scan better best best_i i a < i + List.length a)%nat.
Proof.
  induction a as [|x rest IH]; intros best best_i i Hi; simpl; [lia|].
  destruct (better x best).
  - specialize (IH x i (S i)). lia.
  - specialize (IH best best_i (S i)). lia.
Qed.

Lemma argmin_bound (a : list T) (i : nat) :
  argmin a = Ok i -> (i < List.length a)%nat.
Proof.
  destruct a as [|x rest]; [discriminate|]. intros E; injection E as <-.
  pose proof (scan_bound (fun x best => ltb x best) rest x 0%nat 1%nat). simpl. lia.
Qed.

Lemma argmax_bound (a : list T) (i : nat) :
  argmax a = Ok i -> (i < List.length a)%nat.
Proof.
  destruct a as [|x rest]; [discriminate|]. intros E; injection E as <-.
  pose proof (scan_bound (fun x best => ltb best x) rest x 0%nat 1%nat). simpl. lia.
Qed.

Lemma K_range_get_inv (max_clusters i k : nat) :
  K_range_get max_clusters i = Ok k ->
  k = (2 + i)%nat /\ (i < max_clusters - 1)%nat.
Proof.
  unfold K_range_get, K_range.
  destruct (nth_error (seq 2 (max_clusters - 1)) i) as [v|] eqn:En; [|discriminate].
  intros E; injection E as <-.
  assert (Hi : (i < max_clusters - 1)%nat).
  { rewrite <- (length_seq (max_clusters - 1) 2). apply nth_error_Some. congruence. }
  split; [|exact Hi].
  apply (nth_error_nth _ _ O) in En. rewrite seq_nth in En by exact Hi. lia.
Qed.

Lemma elbow_inv (max_clusters : nat) (inertias : list T) (k : nat) :
  elbow max_clusters inertias = Ok k ->
  (3 <= List.length inertias)%nat /\ (3 <= k)%nat /\
  (k <= List.length inertias)%nat /\ (k <= max_clusters)%nat.
Proof.
  unfold elbow. intros Hb; apply bind_Ok in Hb as (i & Ha & Hk).
  apply argmin_bound in Ha. rewrite !diff_length in Ha.
  apply K_range_get_inv in Hk as [-> Hi]. lia.
Qed.

Lemma pick_inv (max_clusters : nat) (r : result nat) (k : nat) :
  (i <- r ;; K_range_get max_clusters i) = Ok k ->
  (2 <= k <= max_clusters)%nat.
Proof.
  intros Hb; apply bind_Ok in Hb as (i & _ & Hk).
  apply K_range_get_inv in Hk as [-> Hi]. lia.
Qed.

(** X12: [find_optimal_clusters] returns only when [max_clusters] is at least
    4, because the elbow marker of the first panel is computed for every
    method and needs three candidates; the number it returns lies
    between 2 and [max_clusters], one score record is kept per
    candidate, and under the 'elbow' method, which [train] uses, the
    number is never the smallest and never the largest candidate. *)
Theorem find_optimal_clusters_range
        (X : Matrix) (max_clusters : nat) (method : string)
        (optimal_k : nat) (scores : list (Scores T)) :
  find_optimal_clusters Matrix fit_and_score X max_clusters method
  = Ok (optimal_k, scores) ->
  (4 <= max_clusters)%nat /\
  (2 <= optimal_k <= max_clusters)%nat /\
  List.length scores = (max_clusters - 1)%nat /\
  (method = "elbow"%string -> (3 <= optimal_k <= max_clusters - 1)%nat).
Proof.
  unfold find_optimal_clusters.
  intros Hb; apply bind_Ok in Hb as (recorded & Hm & Hb).
  apply mapM_length in Hm. unfold K_range in Hm. rewrite length_seq in Hm.
  apply bind_Ok in Hb as (k & Hk & Hb).
  apply bind_Ok in Hb as (marker & He & Hb).
  apply bind_Ok in Hb as (m2 & _ & Hb).
  apply bind_Ok in Hb as (m3 & _ & Hb).
  apply bind_Ok in Hb as (m4 & _ & Hb).
  injection Hb as <- <-.
  destruct (String.eqb method "elbow") eqn:Em.
  - apply elbow_inv in Hk as (Hl & H3 & Hlt & Hle).
    rewrite length_map in Hl, Hlt.
    split; [lia|]. split; [lia|]. split; [lia|]. intros _; lia.
  - apply elbow_inv in He as (Hl & _). rewrite length_map in Hl.
    assert (Hr : (2 <= k <= max_clusters)%nat).
    { destruct (String.eqb method "silhouette"); [exact (pick_inv _ _ _ Hk)|].
      destruct (String.eqb method "calinski"); [exact (pick_inv _ _ _ Hk)|].
      destruct (String.eqb method "davies_bouldin"); exact (pick_inv _ _ _ Hk). }
    split; [lia|]. split; [lia|]. split; [lia|].
    intros ->; discriminate Em.
Qed.

End ClusterCountResults.

(* ================================================================== *)
(** * The service *)

Section ApiResults.
Context {T : Type} `{Scalar T}.
Variable Claim : Type.
Variable claim_id : Claim -> option string.
Variable DataFrame_of : list Claim -> DataFrame.
Variable rf_labels :
  RandomForest.FraudDetectionRandomForest T -> DataFrame -> result (list Z).
Variable claim_number : nat -> string.
Variable jsonify : Api.Body (T:=T) -> result (Api.Body (T:=T)).
Variable detailed_analysis : list Claim -> result string.
Import Api.

Lemma predict_fraud_status (models : Models) (request : Request Claim)
      (body : Body) (status : nat) :
  predict_fraud Claim claim_id DataFrame_of rf_labels claim_number jsonify models request
  = WithStatus body status ->
  status = 400%nat \/ status = 500%nat.
Proof.
  unfold predict_fraud.
  destruct (claims request); [intros E; injection E as _ <-; auto|].
  destruct (negb (mem (model_type request) SUPPORTED_MODELS));
    [intros E; injection E as _ <-; auto|].
  destruct (predicted Claim claim_id DataFrame_of rf_labels claim_number models request)
    as [response|]; [|intros E; injection E as _ <-; auto].
  destruct (response <- response ;; jsonify response);
    [discriminate | intros E; injection E as _ <-; auto].
Qed.

(** X13: [batch_analysis] never answers with a success, whatever the models,
    the request and the serializer do: it reads component 1 of what
    [predict_fraud()] returns as the status, but a successful prediction
    returns the bare [jsonify(...)] value, so the read raises and the
    handler answers 500, and a failed prediction is passed on with its
    status 400 or 500.  The analysis lines after the check are never
    reached. *)
Theorem batch_analysis_never_succeeds (models : Models) (request : Request Claim) :
  exists body status,
    batch_analysis Claim claim_id DataFrame_of rf_labels claim_number jsonify
                   detailed_analysis models request
    = WithStatus body status /\
    (status = 400%nat \/ status = 500%nat).
Proof.
  unfold batch_analysis.
  destruct (claims request) as [|claim rest]; [eauto|].
  destruct (predict_fraud Claim claim_id DataFrame_of rf_labels claim_number jsonify
                          models request) as [body|body status] eqn:Ep; [eauto|].
  apply predict_fraud_status in Ep.
  destruct Ep as [-> | ->]; simpl; eauto.
Qed.

Lemma claim_results_spec (predictions : list Z) (probabilities : list T)
      (claims_data : list Claim) :
  forall i results,
    claim_results Claim claim_id claim_number predictions (Some probabilities)
                  true i claims_data = Ok results ->
    Forall (fun r => exists j p,
                nth_error predictions j = Some (is_fraud_predicted r) /\
                nth_error probabilities j = Some p /\
                fraud_probability r = Some p /\
                fraud_risk_level r = risk_category p)
           results.
Proof.
  induction claims_data as [|claim rest IH]; intros i results; simpl.
  - intros E; injection E as <-; constructor.
  - intros Hb; apply bind_Ok in Hb as (r & Hr & Hb).
    apply bind_Ok in Hb as (rs & Hrs & Hb). injection Hb as <-.
    constructor; [|eapply IH; exact Hrs].
    unfold claim_result, item in Hr.
    destruct (nth_error predictions i) as [prediction|] eqn:Ep; [|discriminate].
    destruct (nth_error probabilities i) as [p|] eqn:Eq; [|discriminate].
    simpl in Hr. injection Hr as <-. exists i, p; simpl; auto.
Qed.

End ApiResults.

Section ApiExact.
Variable Claim : Type.
Variable claim_id : Claim -> option string.
Variable DataFrame_of : list Claim -> DataFrame.
Variable rf_labels :
  RandomForest.FraudDetectionRandomForest Q -> DataFrame -> result (list Z).
Variable claim_number : nat -> string.
Import Api.

Lemma risk_category_low (p : Q) : p < 4 # 10 -> risk_category p = "LOW"%string.
Proof.
  intros Hp. unfold risk_category; scalar_Q.
  assert (E8 : Qle_bool (8 # 10) p = false) by (apply Qle_bool_false; lra).
  assert (E6 : Qle_bool (6 # 10) p = false) by (apply Qle_bool_false; lra).
  assert (E4 : Qle_bool (4 # 10) p = false) by (apply Qle_bool_false; lra).
  rewrite E8, E6, E4. reflexivity.
Qed.

Lemma risk_category_of_label (p : Q) :
  (Ensemble.above_half p = 1%Z -> risk_category p <> "LOW"%string) /\
  (Ensemble.above_half p = 0%Z ->
   risk_category p = "LOW"%string \/ risk_category p = "MEDIUM"%string).
Proof.
  unfold Ensemble.above_half, risk_category; scalar_Q.
  destruct (Qltb (5 # 10) p) eqn:E5; simpl.
  - apply Qltb_true in E5. split; [intros _|discriminate].
    destruct (Qle_bool (8 # 10) p); [discriminate|].
    destruct (Qle_bool (6 # 10) p); [discriminate|].
    assert (E4 : Qle_bool (4 # 10) p = true) by (apply Qle_bool_iff; lra).
    rewrite E4; discriminate.
  - apply Qltb_false in E5. split; [discriminate|intros _].
    assert (E8 : Qle_bool (8 # 10) p = false) by (apply Qle_bool_false; lra).
    assert (E6 : Qle_bool (6 # 10) p = false) by (apply Qle_bool_false; lra).
    rewrite E8, E6. destruct (Qle_bool (4 # 10) p); auto.
Qed.

Lemma scores_follow_labels (models : Models) (request : Request Claim)
      (predictions : list Z) (probabilities : option (list Q)) :
  return_probabilities request = true ->
  (model_type request = "random_forest"%string \/
   model_type request = "kmeans"%string \/
   (model_type request = "ensemble"%string /\
    forall m, ensemble_model models = Some m ->
              Ensemble.voting_method m = Ensemble.weighted)) ->
  selected_scores Claim DataFrame_of rf_labels models request
  = Some (Ok (predictions, probabilities)) ->
  exists proba,
    probabilities = Some proba /\ predictions = map Ensemble.above_half proba.
Proof.
  intros Hw Hm. unfold selected_scores. rewrite Hw.
  destruct Hm as [-> | [-> | [-> Hv]]]; simpl.
  - destruct (rf_model models) as [m|]; [|discriminate]. simpl.
    unfold random_forest_scores. intros E; injection E as E.
    apply bind_Ok in E as (prob & _ & E). injection E as <- <-. eauto.
  - destruct (kmeans_model models) as [m|]; [|discriminate]. simpl.
    unfold kmeans_scores. intros E; injection E as E.
    apply bind_Ok in E as (proba & Hp & E).
    apply bind_Ok in E as (proba' & Hp' & E). injection E as <- <-.
    exists proba'. split; [reflexivity | congruence].
  - destruct (ensemble_model models) as [m|] eqn:Em; [|discriminate]. simpl.
    specialize (Hv m eq_refl).
    unfold ensemble_scores. intros E; injection E as E.
    apply bind_Ok in E as ([labels proba] & Hp & E). injection E as <- <-.
    unfold Ensemble.predict in Hp.
    destruct (Ensemble.is_trained m); simpl in Hp; [|discriminate].
    apply bind_Ok in Hp as (rf_proba & _ & Hp).
    apply bind_Ok in Hp as ([ae_pred ae_scores] & _ & Hp).
    apply bind_Ok in Hp as (ae_proba & _ & Hp).
    apply bind_Ok in Hp as (kmeans_proba & _ & Hp).
    rewrite Hv in Hp. injection Hp as <- <-. eauto.
Qed.

(** X14: For the forest, the cluster model and the ensemble under 'weighted',
    the risk level of every entry of the response that [predict_fraud]
    builds agrees with its label: a claim predicted as fraud is reported
    MEDIUM, HIGH or CRITICAL, never LOW, and a claim predicted as no
    fraud is reported LOW or MEDIUM.  (Exact arithmetic, probabilities
    requested.) *)
Theorem flagged_claims_are_not_reported_low
        (models : Models) (request : Request Claim)
        (results : list ClaimResult) (summary : Summary) :
  return_probabilities request = true ->
  (model_type request = "random_forest"%string \/
   model_type request = "kmeans"%string \/
   (model_type request = "ensemble"%string /\
    forall m, ensemble_model models = Some m ->
              Ensemble.voting_method m = Ensemble.weighted)) ->
  predicted Claim claim_id DataFrame_of rf_labels claim_number models request
  = Some (Ok (Predictions results summary)) ->
  Forall (fun r =>
            (is_fraud_predicted r = 1%Z -> fraud_risk_level r <> "LOW"%string) /\
            (is_fraud_predicted r = 0%Z ->
             fraud_risk_level r = "LOW"%string \/ fraud_risk_level r = "MEDIUM"%string))
         results.
Proof.
  intros Hw Hm. unfold predicted.
  destruct (selected_scores Claim DataFrame_of rf_labels models request)
    as [scores|] eqn:Es; [|discriminate].
  cbn [option_map]. intros E; injection E as E. unfold prediction_response in E.
  apply bind_Ok in E as ([predictions probabilities] & -> & E).
  apply bind_Ok in E as (rs & Er & E). injection E as <- _.
  destruct (scores_follow_labels models request _ _ Hw Hm Es) as (proba & -> & ->).
  rewrite Hw in Er. apply claim_results_spec in Er.
  eapply Forall_impl; [|exact Er]. intros r (j & p & Hl & Hp & _ & ->).
  rewrite nth_error_map, Hp in Hl. simpl in Hl. injection Hl as Hl.
  rewrite <- Hl. apply risk_category_of_label.
Qed.

(** X15: A prediction request for the reconstruction detector that carries a
    single claim gets, whenever the detector scores it, the probability
    0 and the risk level LOW in the response [predict_fraud] builds,
    whether the detector flags the claim or not: the service rescales
    the reconstruction errors of the request by their own minimum and
    maximum.  (Exact arithmetic.) *)
Theorem single_claim_detector_request_is_reported_low
        (models : Models) (request : Request Claim)
        (model : Autoencoder.FraudDetectionAutoencoder Q)
        (claim : Claim) (body : Body) :
  model_type request = "autoencoder"%string ->
  ae_model models = Some model ->
  claims request = [claim] ->
  return_probabilities request = true ->
  len (DataFrame_of [claim]) = 1%nat ->
  predicted Claim claim_id DataFrame_of rf_labels claim_number models request
  = Some (Ok body) ->
  exists r summary p t,
    body = Predictions [r] summary /\
    Autoencoder.threshold model = Some t /\
    is_fraud_predicted r
    = astype_int (ltb t (Autoencoder.reconstruction_error model (DataFrame_of [claim]) 0)) /\
    fraud_probability r = Some p /\ p == 0 /\
    fraud_risk_level r = "LOW"%string.
Proof.
  intros Hm Hae Hc Hw Hlen. unfold predicted, selected_scores, prediction_response.
  rewrite Hc, Hm, Hae, Hw. simpl. unfold autoencoder_scores.
  destruct (Autoencoder.predict model (DataFrame_of [claim]))
    as [[predictions errors]|e] eqn:Ep; simpl; [|discriminate].
  apply ae_predict_inv in Ep as (t & _ & Ht & _ & -> & ->).
  unfold rows. rewrite Hlen. simpl.
  cbv [Ensemble.min_max_normalize array_min array_max bind fold_left map
       claim_result item nth_error].
  set (e := Autoencoder.reconstruction_error model (DataFrame_of [claim]) 0).
  assert (Hz : div (sub e e) (add (sub e e) (lit (1 # 100000000))) == 0).
  { scalar_Q. unfold Qdiv. assert (E : e - e == 0) by ring. rewrite E. ring. }
  intros E; injection E as <-.
  do 4 eexists. split; [reflexivity|]. split; [exact Ht|].
  split; [reflexivity|]. split; [reflexivity|]. split; [exact Hz|].
  simpl. apply risk_category_low. rewrite Hz. reflexivity.
Qed.

End ApiExact.

(* ================================================================== *)
(** * The further properties on concrete inputs *)

Lemma detector_training_row_witness :
  exists self' g',
    Autoencoder.train Z Cases.exact_counting_fit Cases.untrained_detector 42%Z
                      Examples.three_rows = Ok (self', g') /\
    exists labels errors,
      Autoencoder.predict self' Examples.three_rows = Ok (labels, errors) /\
      forall i, (i < len Examples.three_rows)%nat ->
                (forall j, (j < len Examples.three_rows)%nat ->
                           nth i errors 0 <= nth j errors 0) ->
                nth i labels 1%Z = 0%Z.
Proof.
  do 2 eexists.
  refine ((fun E => conj E
             (detector_clears_the_best_reconstructed_training_row
                Z Cases.exact_counting_fit Cases.untrained_detector _ 42%Z _
                Examples.three_rows E)) _).
  vm_compute; reflexivity.
Defined.

Lemma ensemble_train_witness :
  exists e,
    Training.train Cases.auc_one Cases.no_confusion Cases.first_entry Cases.first_entry
                   (fun _ => 2%nat) Cases.split_in_place unit Cases.forest_trainer
                   Cases.cluster_trainer Cases.all_rows Z Cases.exact_counting_fit
                   Cases.fresh_ensemble 42%Z Examples.two_rows [1%Z; 0%Z] true
    = Raise e.
Proof.
  apply (ensemble_train_raises_on_an_untrained_ensemble
           Cases.auc_one Cases.no_confusion Cases.first_entry Cases.first_entry
           (fun _ => 2%nat) Cases.split_in_place unit Cases.forest_trainer
           Cases.cluster_trainer Cases.all_rows Z Cases.exact_counting_fit
           Cases.fresh_ensemble 42%Z Examples.two_rows [1%Z; 0%Z] true).
  reflexivity.
Defined.

Lemma kmeans_evaluate_witness :
  exists e,
    Training.kmeans_evaluate (T:=Q) Cases.auc_one Cases.no_confusion (fun _ => 2%nat)
                             Examples.clusters_unlabelled Examples.two_rows [1%Z; 0%Z]
    = Raise e.
Proof.
  apply (kmeans_evaluate_raises_before_identification
           Cases.auc_one Cases.no_confusion (fun _ => 2%nat)
           Examples.clusters_unlabelled Examples.two_rows [1%Z; 0%Z]);
    reflexivity.
Defined.

Lemma find_optimal_clusters_witness :
  exists optimal_k scores,
    ClusterCount.find_optimal_clusters unit Cases.falling_inertia tt 10 "elbow"
    = Ok (optimal_k, scores) /\
    (3 <= optimal_k <= 9)%nat.
Proof.
  do 2 eexists.
  refine ((fun E => conj E
             (proj2 (proj2 (proj2
                (find_optimal_clusters_range
                   unit Cases.falling_inertia tt 10 "elbow" _ _ E))) eq_refl)) _).
  vm_compute; reflexivity.
Defined.

Lemma flagged_claims_witness :
  exists results summary,
    Api.predicted string (fun s => Some s) Cases.frame_of_ids Cases.forest_labels
                  Cases.numbered Cases.only_forest
                  (Cases.one_claim_request "random_forest")
    = Some (Ok (Api.Predictions results summary)) /\
    Forall (fun r =>
              (Api.is_fraud_predicted r = 1%Z -> Api.fraud_risk_level r <> "LOW"%string) /\
              (Api.is_fraud_predicted r = 0%Z ->
               Api.fraud_risk_level r = "LOW"%string \/
               Api.fraud_risk_level r = "MEDIUM"%string))
           results.
Proof.
  do 2 eexists.
  refine ((fun E => conj E
             (flagged_claims_are_not_reported_low
                string (fun s => Some s) Cases.frame_of_ids Cases.forest_labels
                Cases.numbered Cases.only_forest
                (Cases.one_claim_request "random_forest") _ _ eq_refl
                (or_introl eq_refl) E)) _).
  vm_compute; reflexivity.
Defined.

Lemma single_claim_detector_witness :
  exists body,
    Api.predicted string (fun s => Some s) Cases.frame_of_ids Cases.forest_labels
                  Cases.numbered Cases.only_detector
                  (Cases.one_claim_request "autoencoder")
    = Some (Ok body) /\
    exists r summary p t,
      body = Api.Predictions [r] summary /\
      Autoencoder.threshold (Examples.detector 1 2 3) = Some t /\
      Api.is_fraud_predicted r
      = astype_int (ltb t (Autoencoder.reconstruction_error
                             (Examples.detector 1 2 3)
                             (Cases.frame_of_ids ["CLM_1"%string]) 0)) /\
      Api.fraud_probability r = Some p /\ p == 0 /\
      Api.fraud_risk_level r = "LOW"%string.
Proof.
  eexists.
  refine ((fun E => conj E
             (single_claim_detector_request_is_reported_low
                string (fun s => Some s) Cases.frame_of_ids Cases.forest_labels
                Cases.numbered Cases.only_detector
                (Cases.one_claim_request "autoencoder")
                (Examples.detector 1 2 3) "CLM_1"%string _
                eq_refl eq_refl eq_refl eq_refl eq_refl E)) _).
  vm_compute; reflexivity.
Defined.

(** A request the detector flags (reconstruction error 2 over the
    threshold 1) gets label 1, probability 0 and level LOW; with a
    serializer that accepts every body the prediction is answered with
    status 200, and the batch analysis of the same request with 500. *)
Lemma flagged_and_low_example :
  exists r summary,
    Api.predict_fraud string (fun s => Some s) Cases.frame_of_ids Cases.forest_labels
                      Cases.numbered (fun body => Ok body) Cases.only_detector
                      (Cases.one_claim_request "autoencoder")
    = Api.Response (Api.Predictions [r] summary) /\
    Api.is_fraud_predicted r = 1%Z /\
    Api.fraud_risk_level r = "LOW"%string /\
    exists body,
      Api.batch_analysis string (fun s => Some s) Cases.frame_of_ids Cases.forest_labels
                         Cases.numbered (fun body => Ok body)
                         (fun _ => Ok "analysis"%string)
                         Cases.only_detector (Cases.one_claim_request "autoencoder")
      = Api.WithStatus body 500.
Proof.
  do 2 eexists. split; [vm_compute; reflexivity|].
  split; [reflexivity|]. split; [reflexivity|].
  eexists; vm_compute; reflexivity.
Qed.

(* ================================================================== *)
(** * Feature engineering of the two detectors *)

Section DetectorFeatures.
#[local] Open Scope string_scope.
Variable E : Engine.

Ltac steps H :=
  repeat match type of H with
    | bind _ _ = Ok _ =>
        let f := fresh "f" in
        let S := fresh "S" in
        apply bind_Ok in H as (f & S & H)
    end.

Ltac frames :=
  repeat match goal with
    | S : assign_if_absent _ ?m _ ?f = Ok ?f' |- _ =>
        lazymatch goal with
        | _ : unchanged_outside [m] f f' |- _ => fail
        | _ => pose proof (assign_if_absent_unchanged _ m _ f f' S)
        end
    | S : assign _ ?m _ ?f = Ok ?f' |- _ =>
        lazymatch goal with
        | _ : unchanged_outside [m] f f' |- _ => fail
        | _ => pose proof (assign_unchanged _ m _ f f' S)
        end
    | S : assign_datetime _ ?m ?f = Ok ?f' |- _ =>
        lazymatch goal with
        | _ : unchanged_outside [m] f f' |- _ => fail
        | _ => pose proof (assign_datetime_unchanged _ m f f' S)
        end
    | S : merge_stats _ _ _ ?names ?f = Ok ?f' |- _ =>
        lazymatch goal with
        | _ : unchanged_outside (merge_touched names) f f' |- _ => fail
        | _ => pose proof (merge_stats_unchanged _ _ _ names f f' S)
        end
    end.

Ltac carry :=
  repeat match goal with
    | U : unchanged_outside _ ?f ?f' |- context [has ?n ?f'] =>
        rewrite (unchanged_has _ f f' n U eq_refl)
    | U : names_kept_outside _ ?f ?f' |- context [has ?n ?f'] =>
        rewrite (U n eq_refl)
    end.

Ltac carry_in D :=
  repeat match type of D with
    | context [has ?n ?f'] =>
        match goal with
        | U : unchanged_outside _ ?f f' |- _ =>
            rewrite (unchanged_has _ f f' n U eq_refl) in D
        | U : names_kept_outside _ ?f f' |- _ =>
            rewrite (U n eq_refl) in D
        end
    end.

Ltac chain :=
  repeat (eapply unchanged_trans;
          [eapply unchanged_weaken; [|eassumption]; reflexivity|]);
  first [apply unchanged_refl
        | eapply unchanged_weaken; [|eassumption]; reflexivity].

Lemma has_set_other (n m : string) (c : column) (f : DataFrame) :
  String.eqb n m = false -> has n (set_col m c f) = has n f.
Proof. intros Hnm; unfold has; rewrite (get_set_other n m c f Hnm); reflexivity. Qed.

Lemma has_set_keeps (n m : string) (c : column) (f : DataFrame) :
  has n f = true -> has n (set_col m c f) = true.
Proof.
  intros Hn. destruct (String.eqb n m) eqn:Enm.
  - apply String.eqb_eq in Enm; subst m. apply has_set_same.
  - rewrite has_set_other; assumption.
Qed.

(** The columns a chain of assignments reads are present. *)
Ltac present K :=
  cbn [forallb];
  repeat first [rewrite has_set_same | rewrite has_set_other by reflexivity];
  rewrite ?K; reflexivity.

Lemma require_ok (reads : list string) (f : DataFrame) :
  forallb (fun r => has r f) reads = true -> require reads f = Ok tt.
Proof.
  induction reads as [|r reads IH]; simpl; [reflexivity|].
  intros Hb; apply andb_true_iff in Hb as [Hr Hrest]. rewrite Hr. auto.
Qed.

Lemma require_inv (reads : list string) (f : DataFrame) (u : unit) :
  require reads f = Ok u -> forallb (fun r => has r f) reads = true.
Proof.
  induction reads as [|r reads IH]; simpl; [reflexivity|].
  destruct (has r f); [simpl; exact IH | discriminate].
Qed.

Lemma assign_ok (m : string) (reads : list string) (f : DataFrame) :
  forallb (fun r => has r f) reads = true ->
  assign E m reads f = Ok (set_col m (Numeric (compute E m f)) f).
Proof. intros Hb; unfold assign; rewrite (require_ok _ _ Hb); reflexivity. Qed.

Lemma assign_reads (m : string) (reads : list string) (f f' : DataFrame) :
  assign E m reads f = Ok f' -> forallb (fun r => has r f) reads = true.
Proof.
  unfold assign; intros Hb; apply bind_Ok in Hb as (u & Hr & _).
  exact (require_inv _ _ _ Hr).
Qed.

Lemma assign_raises (m n : string) (reads : list string) (f : DataFrame) :
  has n f = false -> assign E m (n :: reads) f = Raise (KeyError n).
Proof. intros Hn; unfold assign; simpl; rewrite Hn; reflexivity. Qed.

Lemma assign_datetime_ok (m : string) (f : DataFrame) :
  has m f = true -> exists c, assign_datetime E m f = Ok (set_col m c f).
Proof.
  unfold has, assign_datetime. destruct (get_col m f); [eauto | discriminate].
Qed.

Lemma merge_stats_ok (key : string) (reads names : list string) (f : DataFrame) :
  forallb (fun r => has r f) (key :: reads) = true ->
  merge_stats E key reads names f
  = Ok (merge_left f (map (fun n => (n, Numeric (compute E n f))) names)).
Proof. intros Hb; unfold merge_stats; rewrite (require_ok _ _ Hb); reflexivity. Qed.

Lemma merge_stats_reads (key : string) (reads names : list string) (f f' : DataFrame) :
  merge_stats E key reads names f = Ok f' ->
  forallb (fun r => has r f) (key :: reads) = true.
Proof.
  unfold merge_stats; intros Hb; apply bind_Ok in Hb as (u & Hr & _).
  exact (require_inv _ _ _ Hr).
Qed.

(** A name of the statistics that the left table carries already is no
    column of the merged table: both sides are given a suffix. *)
Lemma has_merge_renamed (g : string -> column) (names : list string)
      (f : DataFrame) (n : string) :
  mem n names = true -> has n f = true ->
  mem n (map x_suffix names) = false -> mem n (map y_suffix names) = false ->
  has n (merge_left f (map (fun k => (k, g k)) names)) = false.
Proof.
  intros Hm Hf Hx Hy. unfold has, merge_left. rewrite get_app.
  assert (L : forall f0,
             get_col n (map (fun kv => if has (fst kv) (map (fun k => (k, g k)) names)
                                       then (x_suffix (fst kv), snd kv)
                                       else kv) f0)
             = None).
  { induction f0 as [|[m c] f0 IH]; simpl; [reflexivity|].
    rewrite has_stats. destruct (mem m names) eqn:Em; simpl.
    - rewrite (mem_map_false n m x_suffix names Hx Em). exact IH.
    - destruct (String.eqb n m) eqn:Enm; [|exact IH].
      apply String.eqb_eq in Enm; subst m. congruence. }
  rewrite L. clear L.
  set (names0 := names) in Hy.
  assert (Hsub : forall k, mem k names = true -> mem k names0 = true) by auto.
  clearbody names0. clear Hm Hx.
  induction names as [|k names IH]; simpl; [reflexivity|].
  assert (Ek : mem k names0 = true)
    by (apply Hsub; unfold mem; simpl; rewrite String.eqb_refl; reflexivity).
  assert (Hrest : forall k', mem k' names = true -> mem k' names0 = true).
  { intros k' Hk'; apply Hsub; unfold mem in *; simpl; rewrite Hk'.
    apply orb_true_r. }
  destruct (has k f) eqn:Ekf; simpl.
  - rewrite (mem_map_false n k y_suffix names0 Hy Ek). apply IH; exact Hrest.
  - destruct (String.eqb n k) eqn:Enk; [|apply IH; exact Hrest].
    apply String.eqb_eq in Enk; subst k. congruence.
Qed.

(** ** The blocks before the provider statistics always return *)

Lemma cluster_temporal_total (f : DataFrame) :
  exists f', KMeans.temporal_features E f = Ok f'.
Proof.
  unfold KMeans.temporal_features. destruct (has "claim_date" f) eqn:K; [|eauto].
  destruct (assign_datetime_ok "claim_date" f K) as (c & ->). cbn [bind].
  repeat (rewrite assign_ok by present K; cbn [bind]). eauto.
Qed.

Lemma cluster_financial_total (f : DataFrame) :
  exists f', KMeans.financial_features E f = Ok f'.
Proof.
  unfold KMeans.financial_features. destruct (has "claim_amount" f) eqn:K; [|eauto].
  repeat (rewrite assign_ok by present K; cbn [bind]). eauto.
Qed.

Lemma detector_temporal_total (f : DataFrame) :
  exists f', Autoencoder.temporal_features E f = Ok f'.
Proof.
  unfold Autoencoder.temporal_features. destruct (has "claim_date" f) eqn:K; [|eauto].
  destruct (assign_datetime_ok "claim_date" f K) as (c & ->). cbn [bind].
  repeat (rewrite assign_ok by present K; cbn [bind]). eauto.
Qed.

Lemma detector_financial_total (f : DataFrame) :
  exists f', Autoencoder.financial_features E f = Ok f'.
Proof.
  unfold Autoencoder.financial_features. destruct (has "claim_amount" f) eqn:K; [|eauto].
  repeat (rewrite assign_ok by present K; cbn [bind]). eauto.
Qed.

(** Frame of a block: split on its guard, name the steps, compose. *)
Ltac block_frame :=
  intros Hb;
  repeat match type of Hb with
    | (if ?g then _ else _) = _ => destruct g
    | bind (if ?g then _ else _) _ = _ => destruct g
    end;
  steps Hb; frames;
  try (injection Hb as <-);
  first [chain | apply unchanged_refl].

Lemma cluster_temporal_frame (f f' : DataFrame) :
  KMeans.temporal_features E f = Ok f' -> unchanged_outside temporal_touched f f'.
Proof. unfold KMeans.temporal_features. block_frame. Qed.

Lemma cluster_financial_frame (f f' : DataFrame) :
  KMeans.financial_features E f = Ok f' ->
  unchanged_outside ["claim_amount_log"; "claim_amount_percentile"] f f'.
Proof. unfold KMeans.financial_features. block_frame. Qed.

Lemma detector_temporal_frame (f f' : DataFrame) :
  Autoencoder.temporal_features E f = Ok f' -> unchanged_outside temporal_touched f f'.
Proof. unfold Autoencoder.temporal_features. block_frame. Qed.

Lemma detector_financial_frame (f f' : DataFrame) :
  Autoencoder.financial_features E f = Ok f' ->
  unchanged_outside ["claim_amount_log"; "claim_amount_normalized"] f f'.
Proof. unfold Autoencoder.financial_features. block_frame. Qed.

(** ** Frames of the later blocks *)

Ltac later_frame :=
  cbv zeta; intros Hb;
  repeat (repeat match type of Hb with
            | (if ?g then _ else _) = _ => destruct g
            | bind (if ?g then _ else _) _ = _ => destruct g
            end;
          steps Hb);
  frames;
  try (injection Hb as <-);
  first [chain | apply unchanged_refl].

Lemma cluster_patient_frame (f f' : DataFrame) :
  KMeans.patient_features E f = Ok f' ->
  unchanged_outside
    (List.app (merge_touched KMeans.patient_stats_columns)
              ["patient_provider_diversity"; "patient_spending_consistency";
               "patient_activity_level"]) f f'.
Proof. unfold KMeans.patient_features. later_frame. Qed.

Lemma cluster_diagnosis_frame (f f' : DataFrame) :
  KMeans.diagnosis_features E f = Ok f' ->
  unchanged_outside ["diagnosis_frequency"; "diagnosis_rarity"] f f'.
Proof. unfold KMeans.diagnosis_features. later_frame. Qed.

Lemma cluster_procedure_frame (f f' : DataFrame) :
  KMeans.procedure_features E f = Ok f' ->
  unchanged_outside ["procedure_frequency"; "procedure_avg_cost";
                     "amount_deviation_from_procedure_avg"] f f'.
Proof. unfold KMeans.procedure_features. later_frame. Qed.

(** The time block multiplies rows, so only the names are kept. *)
Lemma cluster_time_frame (f f' : DataFrame) :
  KMeans.time_features E f = Ok f' ->
  names_kept_outside
    (List.app (merge_touched ["days_since_last_claim"])
              ["claims_same_day"; "claims_same_week"]) f f'.
Proof.
  unfold KMeans.time_features. intros Hb.
  destruct (has "claim_date" f); [|injection Hb as <-; intros n _; reflexivity].
  steps Hb. frames.
  match goal with
  | M : merge_on_keys _ _ _ _ = Ok _ |- _ => apply merge_on_keys_names in M
  end.
  repeat match goal with
         | U : unchanged_outside _ _ _ |- _ => apply unchanged_names in U
         end.
  repeat (eapply names_trans;
          [eapply names_weaken; [|eassumption]; reflexivity|]).
  intros n _; reflexivity.
Qed.

Lemma cluster_geographic_frame (f f' : DataFrame) :
  KMeans.geographic_features E f = Ok f' ->
  unchanged_outside ["location_mismatch"; "location_combination_frequency";
                     "location_combination_rarity"] f f'.
Proof. unfold KMeans.geographic_features. later_frame. Qed.

Lemma cluster_network_frame (f f' : DataFrame) :
  KMeans.network_features E f = Ok f' ->
  unchanged_outside ["provider_patient_interaction_count"] f f'.
Proof. unfold KMeans.network_features. later_frame. Qed.

Lemma detector_patient_frame (f f' : DataFrame) :
  Autoencoder.patient_features E f = Ok f' ->
  unchanged_outside
    (List.app (merge_touched Autoencoder.patient_stats_columns)
              ["patient_provider_diversity"; "patient_amount_consistency"]) f f'.
Proof. unfold Autoencoder.patient_features. later_frame. Qed.

Lemma detector_time_window_frame (f f' : DataFrame) :
  Autoencoder.time_window_features E f = Ok f' ->
  unchanged_outside ["claims_same_day"; "claims_same_week"; "claims_same_month"] f f'.
Proof. unfold Autoencoder.time_window_features. later_frame. Qed.

Lemma detector_diagnosis_frame (f f' : DataFrame) :
  Autoencoder.diagnosis_features E f = Ok f' ->
  unchanged_outside ["diagnosis_frequency"; "is_rare_diagnosis"] f f'.
Proof. unfold Autoencoder.diagnosis_features. later_frame. Qed.

Lemma detector_procedure_frame (f f' : DataFrame) :
  Autoencoder.procedure_features E f = Ok f' ->
  unchanged_outside ["procedure_frequency"; "procedure_avg_cost";
                     "amount_vs_procedure_avg"] f f'.
Proof. unfold Autoencoder.procedure_features. later_frame. Qed.

Lemma detector_geographic_frame (f f' : DataFrame) :
  Autoencoder.geographic_features E f = Ok f' ->
  unchanged_outside ["location_mismatch"; "location_combination_frequency"] f f'.
Proof. unfold Autoencoder.geographic_features. later_frame. Qed.

Lemma detector_duplicate_frame (f f' : DataFrame) :
  Autoencoder.duplicate_features E f = Ok f' ->
  unchanged_outside ["duplicate_claim_count"; "is_duplicate_claim"] f f'.
Proof. unfold Autoencoder.duplicate_features. later_frame. Qed.

(** The statistical columns are added, none is taken away. *)
Lemma fold_set_keeps (step : DataFrame -> string -> DataFrame) (n : string) :
  (forall f col, has n f = true -> has n (step f col) = true) ->
  forall cols f, has n f = true -> has n (fold_left step cols f) = true.
Proof.
  intros Hstep cols; induction cols as [|col cols IH]; intros f Hn; simpl; auto.
Qed.

Lemma statistical_features_keeps (n : string) (f : DataFrame) :
  has n f = true -> has n (KMeans.statistical_features f) = true.
Proof.
  unfold KMeans.statistical_features. apply fold_set_keeps.
  intros f0 col Hn. unfold KMeans.statistical_features_of.
  destruct (get_col col f0) as [[data| |]|]; try exact Hn.
  destruct (_ && _); [|exact Hn]. repeat apply has_set_keeps. exact Hn.
Qed.

Lemma outlier_features_keeps (n : string) (f : DataFrame) :
  has n f = true -> has n (Autoencoder.outlier_features f) = true.
Proof.
  unfold Autoencoder.outlier_features. apply fold_set_keeps.
  intros f0 col Hn. unfold Autoencoder.outlier_features_of.
  destruct (get_col col f0) as [[data| |]|]; try exact Hn.
  destruct (_ && _); [|exact Hn]. repeat apply has_set_keeps. exact Hn.
Qed.

(** ** The provider block on a table that carries provider statistics *)

Lemma cluster_provider_raises_on_max (f : DataFrame) :
  forallb (fun r => has r f) ["provider_id"; "claim_amount"; "patient_id"] = true ->
  has "provider_max_amount" f = true ->
  KMeans.provider_features E f = Raise (KeyError "provider_max_amount").
Proof.
  intros Hr Hmax. unfold KMeans.provider_features.
  pose proof Hr as Hid. cbn [forallb] in Hid. apply andb_true_iff in Hid as [Hid _].
  rewrite Hid, (merge_stats_ok _ _ _ _ Hr). cbn [bind].
  rewrite assign_raises; [reflexivity|].
  apply has_merge_renamed; [reflexivity | exact Hmax | reflexivity | reflexivity].
Qed.

Lemma cluster_provider_raises_on_std (f : DataFrame) :
  forallb (fun r => has r f) ["provider_id"; "claim_amount"; "patient_id"] = true ->
  has "provider_max_amount" f = false ->
  has "provider_min_amount" f = false ->
  has "provider_amount_std" f = true ->
  KMeans.provider_features E f = Raise (KeyError "provider_amount_std").
Proof.
  intros Hr Hmax Hmin Hstd. unfold KMeans.provider_features.
  pose proof Hr as Hid. cbn [forallb] in Hid. apply andb_true_iff in Hid as [Hid _].
  rewrite Hid, (merge_stats_ok _ _ _ _ Hr). cbn [bind].
  match goal with |- context [merge_left f ?stats] => set (M := merge_left f stats) end.
  assert (Mmax : has "provider_max_amount" M = true)
    by (apply has_merge_new; [reflexivity | exact Hmax]).
  assert (Mmin : has "provider_min_amount" M = true)
    by (apply has_merge_new; [reflexivity | exact Hmin]).
  assert (Mstd : has "provider_amount_std" M = false)
    by (apply has_merge_renamed; [reflexivity | exact Hstd | reflexivity | reflexivity]).
  clearbody M.
  rewrite assign_ok by (cbn [forallb]; rewrite Mmax, Mmin; reflexivity). cbn [bind].
  rewrite assign_raises; [reflexivity|].
  rewrite has_set_other by reflexivity. exact Mstd.
Qed.

Lemma detector_provider_raises_on_std (f : DataFrame) :
  forallb (fun r => has r f) ["provider_id"; "claim_amount"; "patient_id"] = true ->
  has "provider_amount_std" f = true ->
  Autoencoder.provider_features E f = Raise (KeyError "provider_amount_std").
Proof.
  intros Hr Hstd. unfold Autoencoder.provider_features.
  pose proof Hr as Hid. cbn [forallb] in Hid. apply andb_true_iff in Hid as [Hid _].
  rewrite Hid, (merge_stats_ok _ _ _ _ Hr). cbn [bind].
  rewrite assign_raises; [reflexivity|].
  apply has_merge_renamed; [reflexivity | exact Hstd | reflexivity | reflexivity].
Qed.

(** What a returning first application leaves in the table. *)
Lemma cluster_first_pass (X once : DataFrame) :
  has "provider_id" X = true ->
  KMeans.prepare_features E X = Ok once ->
  forallb (fun r => has r once) ["provider_id"; "claim_amount"; "patient_id"] = true /\
  has "provider_max_amount" once = true.
Proof.
  intros Hid Hp. unfold KMeans.prepare_features in Hp. cbv zeta in Hp.
  steps Hp. injection Hp as <-.
  apply cluster_temporal_frame in S. apply cluster_financial_frame in S0.
  apply cluster_patient_frame in S2. apply cluster_diagnosis_frame in S3.
  apply cluster_procedure_frame in S4. apply cluster_time_frame in S5.
  apply cluster_geographic_frame in S6. apply cluster_network_frame in S7.
  unfold KMeans.provider_features in S1.
  assert (Hid0 : has "provider_id" f0 = true) by (carry; exact Hid).
  rewrite Hid0 in S1. steps S1.
  match goal with
  | M : merge_stats _ _ _ _ _ = Ok _ |- _ =>
      pose proof (merge_stats_reads _ _ _ _ _ M) as Hreads
  end.
  match goal with
  | A : assign _ "provider_amount_range" _ _ = Ok _ |- _ =>
      pose proof (assign_reads _ _ _ _ A) as Hrange
  end.
  cbn [forallb] in Hreads, Hrange.
  apply andb_true_iff in Hrange as [Hmax _].
  apply andb_true_iff in Hreads as [R1 Hreads].
  apply andb_true_iff in Hreads as [R2 Hreads].
  apply andb_true_iff in Hreads as [R3 _].
  frames. carry_in R1. carry_in R2. carry_in R3.
  split.
  - cbn [forallb].
    rewrite !statistical_features_keeps; [reflexivity | | |]; carry; assumption.
  - apply statistical_features_keeps. carry. assumption.
Qed.

Lemma detector_first_pass (X once : DataFrame) :
  has "provider_id" X = true ->
  Autoencoder.prepare_features E X = Ok once ->
  forallb (fun r => has r once) ["provider_id"; "claim_amount"; "patient_id"] = true /\
  has "provider_amount_std" once = true.
Proof.
  intros Hid Hp. unfold Autoencoder.prepare_features in Hp. cbv zeta in Hp.
  steps Hp. injection Hp as <-.
  apply detector_temporal_frame in S. apply detector_financial_frame in S0.
  apply detector_patient_frame in S2. apply detector_time_window_frame in S3.
  apply detector_diagnosis_frame in S4. apply detector_procedure_frame in S5.
  apply detector_geographic_frame in S6. apply detector_duplicate_frame in S7.
  unfold Autoencoder.provider_features in S1.
  assert (Hid0 : has "provider_id" f0 = true) by (carry; exact Hid).
  rewrite Hid0 in S1. steps S1.
  match goal with
  | M : merge_stats _ _ _ _ _ = Ok _ |- _ =>
      pose proof (merge_stats_reads _ _ _ _ _ M) as Hreads
  end.
  match goal with
  | A : assign _ "provider_amount_cv" _ _ = Ok _ |- _ =>
      pose proof (assign_reads _ _ _ _ A) as Hcv
  end.
  cbn [forallb] in Hreads, Hcv.
  apply andb_true_iff in Hcv as [Hstd _].
  apply andb_true_iff in Hreads as [R1 Hreads].
  apply andb_true_iff in Hreads as [R2 Hreads].
  apply andb_true_iff in Hreads as [R3 _].
  frames. carry_in R1. carry_in R2. carry_in R3.
  split.
  - cbn [forallb].
    rewrite !outlier_features_keeps; [reflexivity | | |]; carry; assumption.
  - apply outlier_features_keeps. carry. assumption.
Qed.

(** X16: Neither detector can be given its own feature table: once
    [prepare_features] has returned on a table with a provider column,
    applying it to the result raises [KeyError].  The provider
    statistics are merged in a second time, both copies get a suffix,
    and the first derived column that reads a statistic under its plain
    name does not find it. *)
Theorem detectors_reject_their_own_features (X once : DataFrame) :
  has "provider_id" X = true ->
  (KMeans.prepare_features E X = Ok once ->
   KMeans.prepare_features E once = Raise (KeyError "provider_max_amount")) /\
  (Autoencoder.prepare_features E X = Ok once ->
   Autoencoder.prepare_features E once = Raise (KeyError "provider_amount_std")).
Proof.
  intros Hid. split; intros Hp.
  - destruct (cluster_first_pass X once Hid Hp) as [Hr Hmax].
    destruct (cluster_temporal_total once) as (t1 & T1).
    destruct (cluster_financial_total t1) as (t2 & T2).
    unfold KMeans.prepare_features. cbv zeta. rewrite T1. cbn [bind]. rewrite T2. cbn [bind].
    apply cluster_temporal_frame in T1. apply cluster_financial_frame in T2.
    rewrite cluster_provider_raises_on_max; [reflexivity | |];
      cbn [forallb] in Hr |- *; carry; assumption.
  - destruct (detector_first_pass X once Hid Hp) as [Hr Hstd].
    destruct (detector_temporal_total once) as (t1 & T1).
    destruct (detector_financial_total t1) as (t2 & T2).
    unfold Autoencoder.prepare_features. cbv zeta. rewrite T1. cbn [bind]. rewrite T2. cbn [bind].
    apply detector_temporal_frame in T1. apply detector_financial_frame in T2.
    rewrite detector_provider_raises_on_std; [reflexivity | |];
      cbn [forallb] in Hr |- *; carry; assumption.
Qed.

End DetectorFeatures.

(* ================================================================== *)
(** * The classifier's features, and the generated dataset *)

Section GeneratedDataset.
#[local] Open Scope string_scope.
Variable E : Engine.

Ltac steps H :=
  repeat match type of H with
    | bind _ _ = Ok _ =>
        let f := fresh "f" in
        let S := fresh "S" in
        apply bind_Ok in H as (f & S & H)
    end.

Ltac frames :=
  repeat match goal with
    | S : assign_if_absent _ ?m _ ?f = Ok ?f' |- _ =>
        lazymatch goal with
        | _ : unchanged_outside [m] f f' |- _ => fail
        | _ => pose proof (assign_if_absent_unchanged _ m _ f f' S)
        end
    | S : assign _ ?m _ ?f = Ok ?f' |- _ =>
        lazymatch goal with
        | _ : unchanged_outside [m] f f' |- _ => fail
        | _ => pose proof (assign_unchanged _ m _ f f' S)
        end
    | S : assign_datetime _ ?m ?f = Ok ?f' |- _ =>
        lazymatch goal with
        | _ : unchanged_outside [m] f f' |- _ => fail
        | _ => pose proof (assign_datetime_unchanged _ m f f' S)
        end
    | S : merge_stats _ _ _ ?names ?f = Ok ?f' |- _ =>
        lazymatch goal with
        | _ : unchanged_outside (merge_touched names) f f' |- _ => fail
        | _ => pose proof (merge_stats_unchanged _ _ _ names f f' S)
        end
    end.

Ltac carry :=
  repeat match goal with
    | U : unchanged_outside _ ?f ?f' |- context [has ?n ?f'] =>
        rewrite (unchanged_has _ f f' n U eq_refl)
    end.

Ltac chain :=
  repeat (eapply unchanged_trans;
          [eapply unchanged_weaken; [|eassumption]; reflexivity|]);
  first [apply unchanged_refl
        | eapply unchanged_weaken; [|eassumption]; reflexivity].

(** ** The classifier leaves the other columns alone *)

Lemma classifier_provider_frame (f f' : DataFrame) :
  RandomForest.provider_features E f = Ok f' -> unchanged_outside provider_touched f f'.
Proof.
  unfold RandomForest.provider_features.
  destruct (has "provider_id" f);
    [|intros Hb; injection Hb as <-; apply unchanged_refl].
  destruct (negb (has "provider_claim_count" f) || negb (has "provider_unique_patients" f));
    intros Hb; steps Hb; frames; [|injection S as <-]; chain.
Qed.

Lemma classifier_patient_frame (f f' : DataFrame) :
  RandomForest.patient_features E f = Ok f' -> unchanged_outside patient_touched f f'.
Proof.
  unfold RandomForest.patient_features.
  destruct (has "patient_id" f);
    [|intros Hb; injection Hb as <-; apply unchanged_refl].
  destruct (negb (has "patient_claim_count" f) || negb (has "patient_unique_providers" f));
    intros Hb; steps Hb; frames; [|injection S as <-]; chain.
Qed.

(** X17: Whatever the classifier's [prepare_features] returns agrees with its
    input on every column outside the names it engineers: the claim
    identifiers, amounts, codes, locations and any further column of the
    caller come out as they went in.  (No condition on the input.) *)
Theorem classifier_prepare_features_keeps_other_columns (df once : DataFrame) :
  RandomForest.prepare_features E df = Ok once ->
  unchanged_outside classifier_touched df once.
Proof.
  intros Hp. unfold RandomForest.prepare_features in Hp. cbv zeta in Hp.
  steps Hp. injection Hp as <-.
  apply (temporal_spec E) in S as [U1 _].
  apply (financial_spec E) in S0 as [U2 _].
  apply classifier_provider_frame in S1.
  apply classifier_patient_frame in S2.
  apply (diagnosis_spec E) in S3 as [U5 _].
  apply (procedure_spec E) in S4 as [U6 _].
  apply (geographic_spec E) in S5 as [U7 _].
  apply (duplicate_spec E) in S6 as [U8 _].
  chain.
Qed.

(** ** Tables that carry the statistics already *)

Lemma forallb_has_filter (cols : list string) (f : DataFrame) :
  forallb (fun r => has r f) (filter (fun col => has col f) cols) = true.
Proof.
  induction cols as [|c cols IH]; simpl; [reflexivity|].
  destruct (has c f) eqn:Ec; simpl; [rewrite Ec|]; exact IH.
Qed.

Lemma assign_if_absent_run (m : string) (reads : list string) (f : DataFrame) :
  forallb (fun r => has r f) reads = true ->
  exists f',
    assign_if_absent E m reads f = Ok f' /\
    (forall n, has n f = true -> has n f' = true) /\
    has m f' = true.
Proof.
  intros Hr. unfold assign_if_absent. destruct (has m f) eqn:Em.
  - exists f; auto.
  - rewrite (assign_ok E m reads f Hr). eexists. split; [reflexivity|].
    split; [intros n Hn; apply has_set_keeps; exact Hn | apply has_set_same].
Qed.

(** A column known to be present, through the steps run so far. *)
Ltac known :=
  repeat match goal with
    | K : forall n, has n ?f = true -> has n ?f' = true |- has _ ?f' = true =>
        first [assumption | apply K]
    end;
  assumption.

Ltac reads_known :=
  cbn [forallb]; repeat (apply andb_true_iff; split); try reflexivity; known.

(** Run the next guarded assignment of a chain. *)
Ltac run :=
  match goal with
  | |- exists f', bind (assign_if_absent E ?m ?reads ?f) _ = Ok f' /\ _ =>
      let f1 := fresh "f" in
      let K := fresh "K" in
      let P := fresh "P" in
      destruct (assign_if_absent_run m reads f) as (f1 & -> & K & P);
      [reads_known | cbn [bind]]
  | |- exists f', assign_if_absent E ?m ?reads ?f = Ok f' /\ _ =>
      let f1 := fresh "f" in
      let K := fresh "K" in
      let P := fresh "P" in
      destruct (assign_if_absent_run m reads f) as (f1 & -> & K & P);
      [reads_known |]
  end.

Ltac done_keeping :=
  eexists; split; [reflexivity|]; intros n Hn; known.

Lemma classifier_temporal_run (f : DataFrame) :
  exists f', RandomForest.temporal_features E f = Ok f' /\
             (forall n, has n f = true -> has n f' = true).
Proof.
  unfold RandomForest.temporal_features.
  destruct (has "claim_date" f) eqn:G; [|exists f; auto].
  destruct (assign_datetime_ok E "claim_date" f G) as (c & ->). cbn [bind].
  assert (K0 : forall n, has n f = true -> has n (set_col "claim_date" c f) = true)
    by (intros n Hn; apply has_set_keeps; exact Hn).
  assert (P0 : has "claim_date" (set_col "claim_date" c f) = true)
    by apply has_set_same.
  generalize dependent (set_col "claim_date" c f). intros f0 K0 P0.
  repeat run. done_keeping.
Qed.

Lemma classifier_financial_run (f : DataFrame) :
  exists f', RandomForest.financial_features E f = Ok f' /\
             (forall n, has n f = true -> has n f' = true).
Proof.
  unfold RandomForest.financial_features.
  destruct (has "claim_amount" f) eqn:G; [|exists f; auto].
  repeat run. done_keeping.
Qed.

Lemma classifier_provider_run (f : DataFrame) :
  forallb (fun r => has r f)
          ["provider_claim_count"; "provider_unique_patients";
           "provider_amount_std"; "provider_avg_amount"] = true ->
  exists f', RandomForest.provider_features E f = Ok f' /\
             (forall n, has n f = true -> has n f' = true).
Proof.
  intros Hr. cbn [forallb] in Hr.
  apply andb_true_iff in Hr as [R1 Hr]. apply andb_true_iff in Hr as [R2 Hr].
  apply andb_true_iff in Hr as [R3 Hr]. apply andb_true_iff in Hr as [R4 _].
  unfold RandomForest.provider_features.
  destruct (has "provider_id" f) eqn:G; [|exists f; auto].
  rewrite R1, R2. cbn [negb orb bind].
  repeat run. done_keeping.
Qed.

Lemma classifier_patient_run (f : DataFrame) :
  forallb (fun r => has r f) ["patient_claim_count"; "patient_unique_providers"] = true ->
  exists f', RandomForest.patient_features E f = Ok f' /\
             (forall n, has n f = true -> has n f' = true).
Proof.
  intros Hr. cbn [forallb] in Hr.
  apply andb_true_iff in Hr as [R1 Hr]. apply andb_true_iff in Hr as [R2 _].
  unfold RandomForest.patient_features.
  destruct (has "patient_id" f) eqn:G; [|exists f; auto].
  rewrite R1, R2. cbn [negb orb bind].
  repeat run. done_keeping.
Qed.

Lemma classifier_diagnosis_run (f : DataFrame) :
  exists f', RandomForest.diagnosis_features E f = Ok f' /\
             (forall n, has n f = true -> has n f' = true).
Proof.
  unfold RandomForest.diagnosis_features.
  destruct (has "diagnosis_code" f) eqn:G; [|exists f; auto].
  repeat run. done_keeping.
Qed.

Lemma classifier_procedure_run (f : DataFrame) :
  exists f', RandomForest.procedure_features E f = Ok f' /\
             (forall n, has n f = true -> has n f' = true).
Proof.
  unfold RandomForest.procedure_features.
  destruct (has "procedure_code" f) eqn:G; [|exists f; auto].
  repeat run. done_keeping.
Qed.

Lemma classifier_geographic_run (f : DataFrame) :
  exists f', RandomForest.geographic_features E f = Ok f' /\
             (forall n, has n f = true -> has n f' = true).
Proof.
  unfold RandomForest.geographic_features.
  destruct (has "provider_location" f && has "patient_location" f) eqn:G;
    [|exists f; auto].
  apply andb_true_iff in G as [G1 G2].
  repeat run. done_keeping.
Qed.

Lemma classifier_duplicate_run (f : DataFrame) :
  exists f', RandomForest.duplicate_features E f = Ok f'.
Proof.
  unfold RandomForest.duplicate_features. cbv zeta.
  destruct (_ && _); [|eauto].
  rewrite (assign_ok E _ _ f (forallb_has_filter _ f)). eauto.
Qed.

(** The classifier's [prepare_features] returns on every table that
    carries the provider and patient statistics its ratios read. *)
Lemma classifier_accepts_aggregated_tables (f : DataFrame) :
  forallb (fun r => has r f)
          ["provider_claim_count"; "provider_unique_patients";
           "provider_amount_std"; "provider_avg_amount";
           "patient_claim_count"; "patient_unique_providers"] = true ->
  exists features, RandomForest.prepare_features E f = Ok features.
Proof.
  intros Hr. cbn [forallb] in Hr.
  apply andb_true_iff in Hr as [R1 Hr]. apply andb_true_iff in Hr as [R2 Hr].
  apply andb_true_iff in Hr as [R3 Hr]. apply andb_true_iff in Hr as [R4 Hr].
  apply andb_true_iff in Hr as [R5 Hr]. apply andb_true_iff in Hr as [R6 _].
  unfold RandomForest.prepare_features. cbv zeta.
  destruct (classifier_temporal_run f) as (f1 & -> & K1). cbn [bind].
  destruct (classifier_financial_run f1) as (f2 & -> & K2). cbn [bind].
  destruct (classifier_provider_run f2) as (f3 & -> & K3); [reads_known|]. cbn [bind].
  destruct (classifier_patient_run f3) as (f4 & -> & K4); [reads_known|]. cbn [bind].
  destruct (classifier_diagnosis_run f4) as (f5 & -> & K5). cbn [bind].
  destruct (classifier_procedure_run f5) as (f6 & -> & K6). cbn [bind].
  destruct (classifier_geographic_run f6) as (f7 & -> & K7). cbn [bind].
  destruct (classifier_duplicate_run f7) as (f8 & ->). cbn [bind]. eauto.
Qed.

(** ** The dataset of the generator *)

Lemma has_feature_columns (n : string) (dataset : DataFrame) :
  mem n ["claim_id"; "is_fraud"] = false ->
  has n (Api.feature_columns dataset) = has n dataset.
Proof.
  intros Hn. unfold has, Api.feature_columns.
  induction dataset as [|[m c] dataset IH]; [reflexivity|].
  cbn [filter fst]. destruct (mem m ["claim_id"; "is_fraud"]) eqn:Em; cbn [negb get_col].
  - rewrite (mem_true_eqb n m _ Hn Em). exact IH.
  - destruct (String.eqb n m); [reflexivity | exact IH].
Qed.

Ltac column :=
  rewrite has_feature_columns by reflexivity; carry;
  first [ assumption
        | eapply merge_stats_has_new; [eassumption | reflexivity | carry; assumption] ].

Lemma generated_columns (df dataset : DataFrame) :
  raw_claims df ->
  Generator.add_fraud_indicators E df = Ok dataset ->
  forallb (fun r => has r (Api.feature_columns dataset))
          ["provider_id"; "claim_amount"; "patient_id"] = true /\
  has "provider_max_amount" (Api.feature_columns dataset) = false /\
  has "provider_min_amount" (Api.feature_columns dataset) = false /\
  forallb (fun r => has r (Api.feature_columns dataset))
          ["provider_claim_count"; "provider_unique_patients";
           "provider_amount_std"; "provider_avg_amount";
           "patient_claim_count"; "patient_unique_providers"] = true.
Proof.
  intros Hraw Hg.
  cbv [raw_claims statistics_columns Generator.provider_stats_columns
       Generator.patient_stats_columns List.app forallb] in Hraw.
  repeat match type of Hraw with
    | _ && _ = true =>
        let A := fresh "A" in
        apply andb_true_iff in Hraw as [A Hraw]; apply negb_true_iff in A
    end.
  unfold Generator.add_fraud_indicators in Hg. steps Hg.
  match goal with
  | M : merge_stats _ "provider_id" _ _ df = Ok _ |- _ =>
      pose proof (merge_stats_reads E _ _ _ _ _ M) as Hreads
  end.
  cbn [forallb] in Hreads.
  apply andb_true_iff in Hreads as [R1 Hreads].
  apply andb_true_iff in Hreads as [R2 Hreads].
  apply andb_true_iff in Hreads as [R3 _].
  frames.
  split; [|split; [|split]].
  - cbn [forallb]. repeat (apply andb_true_iff; split); try reflexivity; column.
  - column.
  - column.
  - cbn [forallb]. repeat (apply andb_true_iff; split); try reflexivity; column.
Qed.

(** X18: The service trains on the generator's dataset without its columns
    [claim_id] and [is_fraud].  On that table, built by
    [add_fraud_indicators] from claims that carry no aggregate column
    yet, the classifier's [prepare_features] returns, and the
    [prepare_features] of the cluster detector and of the reconstruction
    detector both raise [KeyError('provider_amount_std')]: the dataset
    brings provider statistics along, the detectors merge theirs in
    regardless, and the doubled columns lose their plain names. *)
Theorem generated_dataset_suits_the_classifier_only (df dataset : DataFrame) :
  raw_claims df ->
  Generator.add_fraud_indicators E df = Ok dataset ->
  (exists features,
      RandomForest.prepare_features E (Api.feature_columns dataset) = Ok features) /\
  KMeans.prepare_features E (Api.feature_columns dataset)
  = Raise (KeyError "provider_amount_std") /\
  Autoencoder.prepare_features E (Api.feature_columns dataset)
  = Raise (KeyError "provider_amount_std").
Proof.
  intros Hraw Hg.
  destruct (generated_columns df dataset Hraw Hg) as (Hr & Hmax & Hmin & Hstats).
  split; [exact (classifier_accepts_aggregated_tables _ Hstats)|].
  assert (Hstd : has "provider_amount_std" (Api.feature_columns dataset) = true).
  { cbn [forallb] in Hstats.
    apply andb_true_iff in Hstats as [_ Hstats].
    apply andb_true_iff in Hstats as [_ Hstats].
    apply andb_true_iff in Hstats as [Hstd _]. exact Hstd. }
  cbn [forallb] in Hr.
  split.
  - destruct (cluster_temporal_total E (Api.feature_columns dataset)) as (t1 & T1).
    destruct (cluster_financial_total E t1) as (t2 & T2).
    unfold KMeans.prepare_features. cbv zeta. rewrite T1. cbn [bind]. rewrite T2. cbn [bind].
    apply cluster_temporal_frame in T1. apply cluster_financial_frame in T2.
    rewrite cluster_provider_raises_on_std; [reflexivity | | | |];
      cbn [forallb]; carry; assumption.
  - destruct (detector_temporal_total E (Api.feature_columns dataset)) as (t1 & T1).
    destruct (detector_financial_total E t1) as (t2 & T2).
    unfold Autoencoder.prepare_features. cbv zeta. rewrite T1. cbn [bind]. rewrite T2. cbn [bind].
    apply detector_temporal_frame in T1. apply detector_financial_frame in T2.
    rewrite detector_provider_raises_on_std; [reflexivity | |];
      cbn [forallb]; carry; assumption.
Qed.

End GeneratedDataset.

Lemma classifier_keeps_columns_witness :
  exists once,
    RandomForest.prepare_features Examples.row_count_engine Examples.two_claims = Ok once /\
    unchanged_outside classifier_touched Examples.two_claims once.
Proof.
  eexists.
  refine ((fun Ep => conj Ep
             (classifier_prepare_features_keeps_other_columns
                Examples.row_count_engine Examples.two_claims _ Ep)) _).
  vm_compute; reflexivity.
Defined.

Lemma detectors_reject_their_own_features_witness :
  exists once,
    KMeans.prepare_features Examples.row_count_engine Examples.two_claims = Ok once /\
    KMeans.prepare_features Examples.row_count_engine once
    = Raise (KeyError "provider_max_amount").
Proof.
  eexists.
  refine ((fun Ep => conj Ep
             (proj1 (detectors_reject_their_own_features
                       Examples.row_count_engine Examples.two_claims _ eq_refl) Ep)) _).
  vm_compute; reflexivity.
Defined.

(** Two claims of one patient on one day: the cluster detector's time
    block pairs each of them with both, and its feature table has four
    rows; the classifier's and the reconstruction detector's have two. *)
Lemma cluster_features_multiply_same_day_claims :
  exists clustered classified reconstructed,
    KMeans.prepare_features Examples.row_count_engine Cases.same_day_claims
    = Ok clustered /\
    RandomForest.prepare_features Examples.row_count_engine Cases.same_day_claims
    = Ok classified /\
    Autoencoder.prepare_features Examples.row_count_engine Cases.same_day_claims
    = Ok reconstructed /\
    len Cases.same_day_claims = 2%nat /\
    len clustered = 4%nat /\ len classified = 2%nat /\ len reconstructed = 2%nat /\
    get_col "claim_amount" clustered
    = Some (Numeric [100%float; 100%float; 250%float; 250%float]).
Proof.
  do 3 eexists.
  split; [vm_compute; reflexivity|].
  split; [vm_compute; reflexivity|].
  split; [vm_compute; reflexivity|].
  repeat split; vm_compute; reflexivity.
Qed.

Lemma generated_dataset_witness :
  exists dataset,
    Generator.add_fraud_indicators Examples.row_count_engine Cases.raw_two_claims
    = Ok dataset /\
    (exists features,
        RandomForest.prepare_features Examples.row_count_engine
                                      (Api.feature_columns dataset) = Ok features) /\
    KMeans.prepare_features Examples.row_count_engine (Api.feature_columns dataset)
    = Raise (KeyError "provider_amount_std") /\
    Autoencoder.prepare_features Examples.row_count_engine (Api.feature_columns dataset)
    = Raise (KeyError "provider_amount_std").
Proof.
  eexists.
  refine ((fun Eg => conj Eg
             (generated_dataset_suits_the_classifier_only
                Examples.row_count_engine Cases.raw_two_claims _ eq_refl Eg)) _).
  vm_compute; reflexivity.
Defined.

(* ================================================================== *)
(** * Label encoding *)

Section EncodingResults.
Import Encoding.
Variable set_order : list string -> list string.
Hypothesis set_order_members : forall l v, In v (set_order l) <-> In v l.

Lemma mem_In (v : string) (l : list string) : mem v l = true <-> In v l.
Proof.
  unfold mem. rewrite existsb_exists. split.
  - intros (x & Hx & Ex). apply String.eqb_eq in Ex. subst x. exact Hx.
  - intros Hv. exists v. split; [exact Hv | apply String.eqb_refl].
Qed.

Lemma insert_class_In (x v : string) (classes : list string) :
  In x (insert_class v classes) <-> x = v \/ In x classes.
Proof.
  induction classes as [|c rest IH]; simpl; [intuition|].
  destruct (String.compare v c) eqn:Ec; simpl.
  - apply String.compare_eq_iff in Ec. subst c. intuition.
  - intuition.
  - rewrite IH. intuition.
Qed.

Lemma sorted_classes_In (x : string) (values : list string) :
  In x (sorted_classes values) <-> In x values.
Proof.
  induction values as [|v values IH]; simpl; [reflexivity|].
  rewrite insert_class_In, IH. intuition.
Qed.

Lemma distinct_In (x : string) (values : list string) :
  In x (distinct values) <-> In x values.
Proof.
  induction values as [|v values IH]; simpl; [reflexivity|].
  destruct (mem v values) eqn:Em; simpl; rewrite IH; [|intuition].
  apply mem_In in Em. split; [auto|]. intros [<-|Hx]; auto.
Qed.

Lemma table_None (uniques : list string) (v : string) :
  forall i, table uniques i v = None <-> ~ In v uniques.
Proof.
  induction uniques as [|u rest IH]; intros i; simpl; [intuition|].
  destruct (table rest (S i) v) as [j|] eqn:Et.
  - split; [discriminate|]. intros Hn. exfalso.
    assert (Hr : ~ In v rest) by tauto.
    apply (IH (S i)) in Hr. congruence.
  - apply IH in Et. destruct (String.eqb_spec v u) as [->|Hne].
    + split; [discriminate | tauto].
    + split; [intros _ [Hu|Hr]; [congruence | tauto] | reflexivity].
Qed.

Lemma table_Some (uniques : list string) (v : string) :
  forall i j, table uniques i v = Some j ->
              (i <= j)%nat /\ nth_error uniques (j - i) = Some v.
Proof.
  induction uniques as [|u rest IH]; intros i j; simpl; [discriminate|].
  destruct (table rest (S i) v) as [k|] eqn:Et.
  - intros E; injection E as <-. apply IH in Et as [Hle Hn].
    split; [lia|]. replace (k - i)%nat with (S (k - S i)) by lia. exact Hn.
  - destruct (String.eqb_spec v u) as [->|Hne]; [|discriminate].
    intros E; injection E as <-. split; [lia|]. rewrite Nat.sub_diag. reflexivity.
Qed.

Lemma table_app_known (known extra : list string) (v : string) :
  ~ In v extra -> forall i, table (List.app known extra) i v = table known i v.
Proof.
  intros Hx. induction known as [|u rest IH]; intros i; simpl.
  - apply table_None. exact Hx.
  - rewrite IH. reflexivity.
Qed.

(** The code of a value under given classes. *)
Lemma transform_ok (classes y : list string) :
  (forall v, In v y -> In v classes) ->
  exists codes,
    transform classes y = Ok codes /\
    List.length codes = List.length y /\
    forall j v, nth_error y j = Some v ->
                exists c, nth_error codes j = Some c /\ table classes 0 v = Some c.
Proof.
  unfold transform. induction y as [|w y IH]; intros Hall; simpl.
  - exists []. split; [reflexivity|]. split; [reflexivity|].
    intros [|j] v; discriminate.
  - destruct (table classes 0 w) as [c|] eqn:Et.
    + destruct IH as (codes & -> & Hlen & Hc); [intros v Hv; apply Hall; right; exact Hv|].
      simpl. exists (c :: codes). split; [reflexivity|].
      split; [simpl; rewrite Hlen; reflexivity|].
      intros [|j] v; simpl.
      * intros E; injection E as <-. eauto.
      * apply Hc.
    + apply table_None in Et. exfalso. apply Et. apply Hall. left; reflexivity.
Qed.

Lemma transform_codes (classes y : list string) (codes : list nat) :
  transform classes y = Ok codes ->
  forall j c, nth_error codes j = Some c ->
              exists v, nth_error y j = Some v /\ table classes 0 v = Some c.
Proof.
  unfold transform. revert codes. induction y as [|w y IH]; intros codes; simpl.
  - intros E; injection E as <-. intros [|j] c; discriminate.
  - intros Hb; apply bind_Ok in Hb as (c0 & Hc0 & Hb).
    apply bind_Ok in Hb as (rest & Hrest & Hb). injection Hb as <-.
    destruct (table classes 0 w) as [i|] eqn:Et; [|discriminate].
    injection Hc0 as <-.
    intros [|j] c; simpl.
    + intros E; injection E as <-. eauto.
    + apply (IH rest Hrest).
Qed.

(** X19: The encoding of categorical columns at prediction time, after a fit
    on a training column: it returns for every new column, whatever
    values it holds and in whatever order the unseen ones are appended;
    a value that occurred in training gets the code it got in training;
    and two entries of the new column get the same code only when they
    hold the same value. *)
Theorem unseen_categories_are_encoded_consistently (train new : list string) :
  exists classes codes_train classes' codes_new,
    fit_transform train = Ok (classes, codes_train) /\
    transform_with_unseen set_order classes new = Ok (classes', codes_new) /\
    List.length codes_new = List.length new /\
    (forall i j v,
        nth_error train i = Some v -> nth_error new j = Some v ->
        exists c, nth_error codes_train i = Some c /\ nth_error codes_new j = Some c) /\
    (forall j j' c,
        nth_error codes_new j = Some c -> nth_error codes_new j' = Some c ->
        nth_error new j = nth_error new j').
Proof.
  destruct (transform_ok (sorted_classes train) train) as (codes_train & Et & _ & Ct).
  { intros v Hv. apply sorted_classes_In. exact Hv. }
  set (known := sorted_classes train) in *.
  set (unknown := filter (fun v => negb (mem v known)) (distinct new)).
  set (classes' := match unknown with
                   | [] => known
                   | _ :: _ => List.app known (set_order unknown)
                   end).
  assert (Hcover : forall v, In v new -> In v classes').
  { intros v Hv. destruct (mem v known) eqn:Em.
    - apply mem_In in Em. unfold classes'.
      destruct unknown; [exact Em | apply in_or_app; left; exact Em].
    - assert (Hu : In v unknown).
      { apply filter_In. split; [apply distinct_In; exact Hv | rewrite Em; reflexivity]. }
      unfold classes'. destruct unknown as [|u us] eqn:Eu; [destruct Hu|].
      apply in_or_app; right. apply set_order_members. exact Hu. }
  assert (Hsame : forall v, In v known -> table classes' 0 v = table known 0 v).
  { intros v Hv. unfold classes'. destruct unknown as [|u us] eqn:Eu; [reflexivity|].
    apply table_app_known. intros Hin. apply (proj1 (set_order_members _ _)) in Hin.
    rewrite <- Eu in Hin. apply filter_In in Hin as [_ Hn].
    apply negb_true_iff in Hn. apply mem_In in Hv. congruence. }
  destruct (transform_ok classes' new Hcover) as (codes_new & En & Hlen & Cn).
  exists known, codes_train, classes', codes_new.
  split.
  { change (fit_transform train)
      with (codes <- transform known train ;; Ok (known, codes)).
    rewrite Et. reflexivity. }
  split.
  { change (transform_with_unseen set_order known new)
      with (codes <- transform classes' new ;; Ok (classes', codes)).
    rewrite En. reflexivity. }
  split; [exact Hlen|]. split.
  - intros i j v Hi Hj.
    destruct (Ct i v Hi) as (c & Hc & Tc).
    destruct (Cn j v Hj) as (c' & Hc' & Tc').
    rewrite Hsame in Tc' by (apply sorted_classes_In; eapply nth_error_In; exact Hi).
    exists c. split; [exact Hc | congruence].
  - intros j j' c Hj Hj'.
    destruct (transform_codes classes' new codes_new En j c Hj) as (v & Hv & Tv).
    destruct (transform_codes classes' new codes_new En j' c Hj') as (w & Hw & Tw).
    apply table_Some in Tv as [_ Nv]. apply table_Some in Tw as [_ Nw].
    rewrite Hv, Hw. congruence.
Qed.

End EncodingResults.

Lemma unseen_categories_witness :
  exists classes codes_train classes' codes_new,
    Encoding.fit_transform ["M79.3"; "Z51.1"; "M79.3"]%string = Ok (classes, codes_train) /\
    Encoding.transform_with_unseen (@rev string) classes ["I10"; "Z51.1"; "E11"]%string
    = Ok (classes', codes_new) /\
    List.length codes_new = 3%nat /\
    (forall i j v,
        nth_error ["M79.3"; "Z51.1"; "M79.3"]%string i = Some v ->
        nth_error ["I10"; "Z51.1"; "E11"]%string j = Some v ->
        exists c, nth_error codes_train i = Some c /\ nth_error codes_new j = Some c) /\
    (forall j j' c,
        nth_error codes_new j = Some c -> nth_error codes_new j' = Some c ->
        nth_error ["I10"; "Z51.1"; "E11"]%string j
        = nth_error ["I10"; "Z51.1"; "E11"]%string j').
Proof.
  apply (unseen_categories_are_encoded_consistently
           (@rev string) (fun l v => iff_sym (in_rev l v))).
Defined.
